(** * SANKHYA: the aggregation and scoring pipeline

    A shallow embedding of the Python sources
      - [backend/generate_data.py]   (module [GenerateData]),
      - [backend/data_processor.py]  (module [DataProcessor]),
      - [backend/ai_forecaster.py]   (module [AiForecaster]),
      - [backend/app.py], the alerts (module [App]),
      - [streamlit_app.py], the colours (module [StreamlitApp]),
    followed by the properties of the District Stress Index, the anomaly
    detectors, the zone classifier, the forecast, the migration corridors
    and the loaders, and then by further properties of the aggregated
    frames, the KPI summaries, the selections of districts and the
    alerts.

    Not embedded: [generate_map_data] and [generate_aadhaar_centers]
    (they place markers with Python's salted [hash] and with unseeded
    random draws), [main] of [generate_data.py] (it calls these two for
    its document), [generate_stressed_districts] and
    [get_child_transition_gap] (they select with [nlargest] on a column
    that can hold NaN), and the routes of [app.py] that return constant
    documents.

    Conventions of the model.
      - A count read from a CSV column is an integer ([Z]).  pandas
        holds it as a 64-bit integer: the sums of the model are the
        sums of pandas as long as these stay in that range
        ([fits_int64], [Pandas.sum_int64]).
      - A Python/numpy float is a value of [fnum]: an exact rational for a
        finite value, or one of the IEEE special values [PInf], [NInf],
        [NaN].  Finite arithmetic is exact (no binary rounding error, no
        overflow); the special values follow IEEE 754 as numpy and pandas
        implement it (0/0 is NaN, x/0 is an infinity, every comparison
        with NaN is false).  Where a result of the code depends on the
        binary rounding (the [deviation] column of [generate_anomalies],
        the demand of a state in [predict_resource_needs]) the value is
        a parameter of the model.
      - A DataFrame is the list of its rows, a column a record field, a
        DataFrame that was not loaded is [None].
      - A Python dict with string keys is a [gmap string _]. *)

From Stdlib Require Import ZArith QArith Qround Qabs Qminmax Lqa Lia.
From Stdlib Require Import String List Sorted Permutation OrderedTypeEx.
From stdpp Require Import gmap strings list.

Local Open Scope string_scope.
Local Open Scope list_scope.
Local Open Scope Z_scope.

(** ** Numbers *)

Module Num.

Local Open Scope Q_scope.

(** Strict comparison of rationals as a boolean, [a < b]. *)
Definition Qltb (a b : Q) : bool := negb (Qle_bool b a).

(** A float: finite (exact) or an IEEE special value. *)
Inductive fnum : Type :=
| Fin (q : Q)
| PInf
| NInf
| NaN.

Definition of_Z (z : Z) : fnum := Fin (inject_Z z).

Definition fadd (x y : fnum) : fnum :=
  match x, y with
  | NaN, _ | _, NaN => NaN
  | Fin a, Fin b => Fin (a + b)
  | PInf, NInf | NInf, PInf => NaN
  | PInf, _ | _, PInf => PInf
  | NInf, _ | _, NInf => NInf
  end.

(** The sign of a finite factor decides the product with an infinity;
    [0 * inf] is NaN. *)
Definition inf_times (positive_inf : bool) (a : Q) : fnum :=
  if Qltb 0 a then (if positive_inf then PInf else NInf)
  else if Qltb a 0 then (if positive_inf then NInf else PInf)
  else NaN.

Definition fmul (x y : fnum) : fnum :=
  match x, y with
  | NaN, _ | _, NaN => NaN
  | Fin a, Fin b => Fin (a * b)
  | Fin a, PInf | PInf, Fin a => inf_times true a
  | Fin a, NInf | NInf, Fin a => inf_times false a
  | PInf, PInf | NInf, NInf => PInf
  | PInf, NInf | NInf, PInf => NInf
  end.

(** numpy/pandas division: dividing by zero raises nothing, it yields
    NaN for 0/0 and an infinity otherwise (the zero of the model has no
    sign and counts as +0). *)
Definition fdiv (x y : fnum) : fnum :=
  match x, y with
  | NaN, _ | _, NaN => NaN
  | Fin a, Fin b =>
      if Qeq_bool b 0
      then (if Qltb 0 a then PInf else if Qltb a 0 then NInf else NaN)
      else Fin (a / b)
  | Fin _, (PInf | NInf) => Fin 0
  | PInf, Fin b => if Qltb b 0 then NInf else PInf
  | NInf, Fin b => if Qltb b 0 then PInf else NInf
  | (PInf | NInf), (PInf | NInf) => NaN
  end.

(** [x < y]; false as soon as one side is NaN. *)
Definition flt (x y : fnum) : bool :=
  match x, y with
  | NaN, _ | _, NaN => false
  | Fin a, Fin b => Qltb a b
  | NInf, (Fin _ | PInf) => true
  | Fin _, PInf => true
  | _, _ => false
  end.

(** [x <= y]; false as soon as one side is NaN. *)
Definition fle (x y : fnum) : bool :=
  match x, y with
  | NaN, _ | _, NaN => false
  | Fin a, Fin b => Qle_bool a b
  | NInf, _ => true
  | _, PInf => true
  | _, _ => false
  end.

Definition fgt (x y : fnum) : bool := flt y x.
Definition fge (x y : fnum) : bool := fle y x.

Definition fabs (x : fnum) : fnum :=
  match x with
  | Fin a => Fin (Qabs a)
  | PInf | NInf => PInf
  | NaN => NaN
  end.

(** Python's builtin [max(a, b)] keeps [a] unless [b > a]; [min(a, b)]
    keeps [a] unless [b < a].  With a NaN first argument both return
    NaN. *)
Definition py_max (a b : fnum) : fnum := if fgt b a then b else a.
Definition py_min (a b : fnum) : fnum := if flt b a then b else a.

Definition Qpy_max (a b : Q) : Q := if Qltb a b then b else a.
Definition Qpy_min (a b : Q) : Q := if Qltb b a then b else a.

(** Rounding to the nearest integer, ties to the even one. *)
Definition round_half_even (q : Q) : Z :=
  let f := Qfloor q in
  match Qcompare (q - inject_Z f) (1 # 2) with
  | Lt => f
  | Gt => (f + 1)%Z
  | Eq => if Z.even f then f else (f + 1)%Z
  end.

(** [round(q, k)] with [scale = 10^k]. *)
Definition Qround_to (scale : positive) (q : Q) : Q :=
  round_half_even (q * inject_Z (Zpos scale)) # scale.

Definition fround_to (scale : positive) (x : fnum) : fnum :=
  match x with
  | Fin q => Fin (Qround_to scale q)
  | other => other
  end.

(** [round(x, 2)] and [round(x, 1)] (also pandas' [.round(1)]). *)
Definition round2 : fnum -> fnum := fround_to 100.
Definition round1 : fnum -> fnum := fround_to 10.

(** Python's [int(x)] and pandas' [.astype(int)] on a finite float:
    truncation toward zero. *)
Definition Qtrunc (q : Q) : Z := Z.quot (Qnum q) (Zpos (Qden q)).

(** pandas' [.clip(lower=b)] on a finite value. *)
Definition clip_lower (b q : Q) : Q := if Qltb q b then b else q.

(** Equality of floats up to the representation of the rational. *)
Definition feq (x y : fnum) : Prop :=
  match x, y with
  | Fin a, Fin b => a == b
  | PInf, PInf | NInf, NInf | NaN, NaN => True
  | _, _ => False
  end.

Definition is_nan (x : fnum) : bool :=
  match x with NaN => true | _ => false end.

Definition not_nan (x : fnum) : Prop := is_nan x = false.

End Num.
Export Num.

(** ** DataFrames *)

(** The three CSV tables.  A row carries its geographic key and the
    age-bucketed counts the pipeline reads. *)
Module Demographic.
Record row : Type := {
  state : string;
  district : string;
  demo_age_5_17 : Z;
  demo_age_17_ : Z
}.
End Demographic.

Module Biometric.
Record row : Type := {
  state : string;
  district : string;
  bio_age_5_17 : Z;
  bio_age_17_ : Z
}.
End Biometric.

Module Enrolment.
Record row : Type := {
  state : string;
  district : string;
  age_0_5 : Z;
  age_5_17 : Z;
  age_18_greater : Z
}.
End Enrolment.

(** What is on disk under [master assets]: [None] is a file that is
    missing (or cannot be read). *)
Record csv_files : Type := {
  master_demographic_data : option (list Demographic.row);
  master_enrolment_data : option (list Enrolment.row);
  master_biometric_data : option (list Biometric.row)
}.

(** Group keys are compared as pandas sorts them: strings by code point,
    tuples lexicographically. *)
Class KeyOrd (K : Type) : Type := { kcmp : K -> K -> comparison }.

#[export] Instance string_KeyOrd : KeyOrd string := { kcmp := String.compare }.

#[export] Instance pair_KeyOrd {K1 K2} `{KeyOrd K1} `{KeyOrd K2}
    : KeyOrd (K1 * K2) :=
  { kcmp a b :=
      match kcmp (fst a) (fst b) with
      | Eq => kcmp (snd a) (snd b)
      | c => c
      end }.

Definition klt {K} `{KeyOrd K} (a b : K) : Prop := kcmp a b = Lt.

Definition keqb {K} `{KeyOrd K} (a b : K) : bool :=
  match kcmp a b with Eq => true | _ => false end.

(** What the comparison of keys has to satisfy: it decides equality and
    is a strict total order. *)
Class KeyOrdLaws (K : Type) `{KeyOrd K} : Prop := {
  kcmp_eq : forall a b : K, kcmp a b = Eq <-> a = b;
  kcmp_antisym : forall a b : K, kcmp a b = CompOpp (kcmp b a);
  kcmp_trans : forall a b c : K, klt a b -> klt b c -> klt a c
}.

Module Pandas.

Section GroupBy.
Context {K A V : Type} `{KeyOrd K}.
Variable key : A -> K.
(** the aggregate of a group of one row, and of a group extended by
    one more row *)
Variable init : A -> V.
Variable step : V -> A -> V.

Fixpoint gb_insert (a : A) (acc : list (K * V)) : list (K * V) :=
  match acc with
  | [] => [(key a, init a)]
  | (k', v) :: rest =>
      match kcmp (key a) k' with
      | Lt => (key a, init a) :: acc
      | Eq => (k', step v a) :: rest
      | Gt => (k', v) :: gb_insert a rest
      end
  end.

(** [df.groupby(keys).agg(...)]: one entry per distinct key, in
    ascending key order ([sort=True] is the default). *)
Definition groupby (rows : list A) : list (K * V) :=
  fold_left (fun acc a => gb_insert a acc) rows [].

(** the aggregate of the rows of one group, taken in row order *)
Definition agg_of (l : list A) : option V :=
  match l with
  | [] => None
  | a :: rest => Some (fold_left step rest (init a))
  end.
End GroupBy.

(** [df.groupby(keys).size()] *)
Definition groupby_size {K A} `{KeyOrd K} (key : A -> K) (rows : list A)
    : list (K * Z) :=
  groupby key (fun _ => 1) (fun n _ => n + 1) rows.

(** first entry of an association list with the given key *)
Fixpoint assoc {K V} `{KeyOrd K} (k : K) (l : list (K * V)) : option V :=
  match l with
  | [] => None
  | (k', v) :: rest =>
      if keqb k k' then Some v else assoc k rest
  end.

(** [df.drop_duplicates(subset=keys)]: the first row of each key stays. *)
Fixpoint drop_duplicates {K A} `{KeyOrd K} (key : A -> K) (l : list A)
    : list A :=
  match l with
  | [] => []
  | x :: rest =>
      x :: List.filter (fun y => negb (keqb (key x) (key y)))
             (drop_duplicates key rest)
  end.

(** [left.merge(right, on=keys, how='inner')]: left order is kept, a
    left row is paired with every right row of the same key. *)
Definition merge_inner {K A B} `{KeyOrd K}
    (lkey : A -> K) (rkey : B -> K) (left : list A) (right : list B)
    : list (A * B) :=
  flat_map (fun a =>
    List.map (fun b => (a, b))
      (List.filter (fun b => keqb (lkey a) (rkey b)) right)) left.

(** Python slice [l[:n]] *)
Definition slice_to {A} (n : Z) (l : list A) : list A :=
  if 0 <=? n then firstn (Z.to_nat n) l
  else firstn (length l - Z.to_nat (- n)) l.

(** A stable sort by decreasing key, as [list.sort(key=..., reverse=True)]
    and [sorted(..., reverse=True)]: equal keys keep their order. *)
Section SortDesc.
Context {A T : Type}.
Variable ltb : T -> T -> bool.
Variable key : A -> T.

Fixpoint insert_desc (x : A) (l : list A) : list A :=
  match l with
  | [] => [x]
  | y :: rest =>
      if ltb (key x) (key y) then y :: insert_desc x rest
      else x :: l
  end.

Definition sort_desc (l : list A) : list A :=
  fold_right insert_desc [] l.
End SortDesc.

(** [Series.quantile(q)] with the default linear interpolation: [NaN]
    on an empty series. *)
Fixpoint insert_asc (x : Q) (l : list Q) : list Q :=
  match l with
  | [] => [x]
  | y :: rest => if Qltb x y then x :: l else y :: insert_asc x rest
  end.

Definition sort_asc (l : list Q) : list Q := fold_right insert_asc [] l.

Definition quantile (q : Q) (values : list Q) : fnum :=
  match values with
  | [] => NaN
  | _ =>
      let sorted := sort_asc values in
      let pos := (inject_Z (Z.of_nat (length values) - 1) * q)%Q in
      let lo := Qfloor pos in
      let frac := (pos - inject_Z lo)%Q in
      let vlo := nth (Z.to_nat lo) sorted 0%Q in
      let vhi := nth (Z.to_nat (lo + 1)) sorted vlo in
      Fin (vlo + (vhi - vlo) * frac)%Q
  end.

(** [df.nlargest(n, column)] and [df.nsmallest(n, column)] on a column
    that holds no NaN: the [n] rows with the largest (smallest) values,
    the largest (smallest) first; of rows with equal values the earlier
    ones are taken ([keep='first']), and [n <= 0] selects nothing.  When
    [n] reaches the length of the frame pandas sorts the whole column
    with its default sort, which fixes the rows but not the order of
    equal values; here equal values keep their order. *)
Definition nlargest {A} (n : Z) (key : A -> Q) (df : list A) : list A :=
  firstn (Z.to_nat n) (sort_desc Qltb key df).

Definition nsmallest {A} (n : Z) (key : A -> Q) (df : list A) : list A :=
  firstn (Z.to_nat n) (sort_desc (fun a b => Qltb b a) key df).

(** [df[column].sum()] on a column of integers *)
Definition sum_of {A} (col : A -> Z) (df : list A) : Z :=
  fold_right (fun r acc => (col r + acc)%Z) 0%Z df.

(** pandas holds a column of counts as 64-bit integers ([int64]): a sum
    that leaves the range wraps around. *)
Definition wrap_int64 (z : Z) : Z :=
  ((z + 2 ^ 63) mod 2 ^ 64 - 2 ^ 63)%Z.

(** [df[column].sum()], and the [sum] of a group, in [int64]
    arithmetic *)
Definition sum_int64 {A} (col : A -> Z) (df : list A) : Z :=
  fold_left (fun s r => wrap_int64 (s + col r)) df 0%Z.

(** [Series.mean()]: NaN entries are skipped, the mean of nothing is
    NaN. *)
Definition mean (values : list fnum) : fnum :=
  match List.filter (fun x => negb (is_nan x)) values with
  | [] => NaN
  | present =>
      fdiv (fold_left fadd present (Fin 0))
           (of_Z (Z.of_nat (length present)))
  end.

End Pandas.

(** ** backend/generate_data.py *)

Module GenerateData.

Local Open Scope Q_scope.

(** [load_csv_safe(filepath)]: the table, or [None] when reading it
    raised. *)
Definition load_csv_safe {A} (file : option (list A)) : option (list A) :=
  file.

(** [calculate_dsi(volume, adult_percent, capacity, seasonal=0.1,
    repeat_rate=0.05)] *)
Definition calculate_dsi_with (volume adult_percent capacity
    seasonal repeat_rate : fnum) : fnum :=
  let Wa := fdiv adult_percent (Fin 100.0) in
  let S := fmul volume seasonal in
  let Ws := Fin 1.5 in
  let R := fmul volume repeat_rate in
  let capacity := if fle capacity (Fin 0) then Fin 1 else capacity in
  let dsi := fadd (fdiv (fadd (fmul volume Wa) (fmul S Ws)) capacity) R in
  let dsi := py_min (py_max (fdiv dsi (Fin 1000)) (Fin 0)) (Fin 10) in
  round2 dsi.

Definition calculate_dsi (volume adult_percent capacity : fnum) : fnum :=
  calculate_dsi_with volume adult_percent capacity (Fin 0.1) (Fin 0.05).

(** [get_dsi_status(dsi)] *)
Definition get_dsi_status (dsi : fnum) : string :=
  if flt dsi (Fin 3.3) then "low"
  else if flt dsi (Fin 6.6) then "medium"
  else "critical".

(** A row of the aggregated demographic frame built by
    [process_demographic_data]. *)
Module Demo.
Record row : Type := {
  state : string;
  district : string;
  demo_age_5_17 : Z;
  demo_age_17_ : Z;
  total_population : Z;
  adult_percent : fnum;
  capacity : Z;
  dsi : fnum;
  status : string;
  senior_count : Z
}.
End Demo.

Definition demo_key (r : Demographic.row) : string * string :=
  (Demographic.state r, Demographic.district r).

(** The columns [process_demographic_data] derives for one group. *)
Definition demo_row_of (g : (string * string) * (Z * Z)) : Demo.row :=
  let '((st, di), (s_5_17, s_17)) := g in
  let total_population := (s_5_17 + s_17)%Z in
  let adult_percent :=
    round1 (fmul (fdiv (of_Z s_17) (of_Z total_population)) (Fin 100)) in
  let capacity :=
    Qtrunc (clip_lower 1 (inject_Z total_population / 5000)) in
  let dsi := calculate_dsi (of_Z s_17) adult_percent (of_Z capacity) in
  {| Demo.state := st;
     Demo.district := di;
     Demo.demo_age_5_17 := s_5_17;
     Demo.demo_age_17_ := s_17;
     Demo.total_population := total_population;
     Demo.adult_percent := adult_percent;
     Demo.capacity := capacity;
     Demo.dsi := dsi;
     Demo.status := get_dsi_status dsi;
     Demo.senior_count := Qtrunc (inject_Z s_17 * 0.15) |}.

Definition aggregate_demographic (df : list Demographic.row)
    : list Demo.row :=
  List.map demo_row_of
    (Pandas.groupby demo_key
       (fun r => (Demographic.demo_age_5_17 r, Demographic.demo_age_17_ r))
       (fun s r => ((fst s + Demographic.demo_age_5_17 r)%Z,
                    (snd s + Demographic.demo_age_17_ r)%Z))
       df).

(** [process_demographic_data()] *)
Definition process_demographic_data (files : csv_files)
    : option (list Demo.row) :=
  match load_csv_safe (master_demographic_data files) with
  | None => None
  | Some df => Some (aggregate_demographic df)
  end.

(** A row of the aggregated biometric frame built by
    [process_biometric_data]. *)
Module Bio.
Record row : Type := {
  state : string;
  district : string;
  bio_age_5_17 : Z;
  bio_age_17_ : Z;
  total_updates : Z
}.
End Bio.

Definition bio_key (r : Biometric.row) : string * string :=
  (Biometric.state r, Biometric.district r).

Definition bio_row_of (g : (string * string) * (Z * Z)) : Bio.row :=
  let '((st, di), (s_5_17, s_17)) := g in
  {| Bio.state := st;
     Bio.district := di;
     Bio.bio_age_5_17 := s_5_17;
     Bio.bio_age_17_ := s_17;
     Bio.total_updates := (s_5_17 + s_17)%Z |}.

Definition aggregate_biometric (df : list Biometric.row) : list Bio.row :=
  List.map bio_row_of
    (Pandas.groupby bio_key
       (fun r => (Biometric.bio_age_5_17 r, Biometric.bio_age_17_ r))
       (fun s r => ((fst s + Biometric.bio_age_5_17 r)%Z,
                    (snd s + Biometric.bio_age_17_ r)%Z))
       df).

(** [process_biometric_data()] *)
Definition process_biometric_data (files : csv_files)
    : option (list Bio.row) :=
  match load_csv_safe (master_biometric_data files) with
  | None => None
  | Some df => Some (aggregate_biometric df)
  end.

(** A migration corridor; [volume] is the key the loop of
    [generate_migration_corridors] adds to each dict of the table. *)
Module Corridor.
Record row : Type := {
  origin : string;
  destination : string;
  change_percent : Z;
  volume : Z
}.
End Corridor.

(** The hand-written corridor table of [generate_migration_corridors]:
    origin, destination, change_percent. *)
Definition corridors : list (string * string * Z) :=
  [ ("Bihar", "Delhi", 42%Z);
    ("Uttar Pradesh", "Maharashtra", 28%Z);
    ("Rajasthan", "Gujarat", 15%Z);
    ("Madhya Pradesh", "Karnataka", 8%Z);
    ("Odisha", "Tamil Nadu", 5%Z);
    ("West Bengal", "Kerala", 3%Z);
    ("Jharkhand", "Haryana", 12%Z) ].







(** An anomaly record. *)
Module Anomaly.
Record row : Type := {
  state : string;
  district : string;
  deviation : Q;
  type : string;
  severity : string
}.
End Anomaly.

(** The [deviation] column of [generate_anomalies]:
    [((total_updates - expected) / expected.clip(lower=1) * 100).round(1)]
    with [expected = total_population * 0.05]. *)
Definition expected_of (total_population : Z) : Q :=
  inject_Z total_population * 0.05.

Definition deviation_of (total_updates : Z) (expected : Q) : Q :=
  Qround_to 10
    ((inject_Z total_updates - expected) / clip_lower 1 expected * 100).

(** the inner merge of the two aggregated frames on (state, district) *)
Definition merged (bio_df : list Bio.row) (demo_df : list Demo.row)
    : list (Bio.row * Demo.row) :=
  Pandas.merge_inner
    (fun b => (Bio.state b, Bio.district b))
    (fun d => (Demo.state d, Demo.district d)) bio_df demo_df.

(** What [generate_anomalies] does with the merged rows, over the values
    of the [deviation] column.  pandas computes the column in binary
    floating point from [total_updates] and [total_population] of the
    merged row; [deviation] gives the value the column holds for these
    two. *)
Section DeviationColumn.
Variable deviation : Z -> Z -> Q.

Definition merged_deviation_with (m : Bio.row * Demo.row) : Q :=
  deviation (Bio.total_updates (fst m)) (Demo.total_population (snd m)).

Definition anomaly_with (m : Bio.row * Demo.row) : Anomaly.row :=
  let deviation := merged_deviation_with m in
  {| Anomaly.state := Bio.state (fst m);
     Anomaly.district := Bio.district (fst m);
     Anomaly.deviation := deviation;
     Anomaly.type := if Qltb 0 deviation then "surge" else "drop";
     Anomaly.severity :=
       if Qltb 80 (Qabs deviation) then "critical" else "warning" |}.

(** the records appended by the loop, in row order *)
Definition emitted_anomalies_with (bio_df : list Bio.row)
    (demo_df : list Demo.row) : list Anomaly.row :=
  List.map anomaly_with
    (List.filter (fun m => Qltb 40 (Qabs (merged_deviation_with m)))
       (merged bio_df demo_df)).

Definition generate_anomalies_with (bio_df : list Bio.row)
    (demo_df : list Demo.row) : list Anomaly.row :=
  Pandas.slice_to 20
    (Pandas.sort_desc Qltb (fun a => Qabs (Anomaly.deviation a))
       (emitted_anomalies_with bio_df demo_df)).

End DeviationColumn.

(** The column in exact arithmetic. *)
Definition exact_deviation (total_updates total_population : Z) : Q :=
  deviation_of total_updates (expected_of total_population).

(** [generate_anomalies(bio_df, demo_df)] *)
Definition generate_anomalies
    : list Bio.row -> list Demo.row -> list Anomaly.row :=
  generate_anomalies_with exact_deviation.

(** A row of the aggregated enrolment frame built by
    [process_enrolment_data]. *)
Module Enrol.
Record row : Type := {
  state : string;
  district : string;
  age_0_5 : Z;
  age_5_17 : Z;
  age_18_greater : Z;
  total_enrolments : Z
}.
End Enrol.

Definition enrol_key (r : Enrolment.row) : string * string :=
  (Enrolment.state r, Enrolment.district r).

Definition enrol_row_of (g : (string * string) * (Z * Z * Z)) : Enrol.row :=
  let '((st, di), (s_0_5, s_5_17, s_18)) := g in
  {| Enrol.state := st;
     Enrol.district := di;
     Enrol.age_0_5 := s_0_5;
     Enrol.age_5_17 := s_5_17;
     Enrol.age_18_greater := s_18;
     Enrol.total_enrolments := (s_0_5 + s_5_17 + s_18)%Z |}.

Definition aggregate_enrolment (df : list Enrolment.row) : list Enrol.row :=
  List.map enrol_row_of
    (Pandas.groupby enrol_key
       (fun r => (Enrolment.age_0_5 r, Enrolment.age_5_17 r,
                  Enrolment.age_18_greater r))
       (fun s r => ((fst (fst s) + Enrolment.age_0_5 r)%Z,
                    (snd (fst s) + Enrolment.age_5_17 r)%Z,
                    (snd s + Enrolment.age_18_greater r)%Z))
       df).

(** [process_enrolment_data()] *)
Definition process_enrolment_data (files : csv_files)
    : option (list Enrol.row) :=
  match load_csv_safe (master_enrolment_data files) with
  | None => None
  | Some df => Some (aggregate_enrolment df)
  end.

(** A record of [generate_child_gaps]. *)
Module ChildGap.
Record row : Type := {
  state : string;
  district : string;
  enrolled : Z;
  gap_percent : Q
}.
End ChildGap.

(** the inner merge of the enrolment and the demographic frame on
    (state, district) *)
Definition merged_enrolment (enrol_df : list Enrol.row)
    (demo_df : list Demo.row) : list (Enrol.row * Demo.row) :=
  Pandas.merge_inner
    (fun e => (Enrol.state e, Enrol.district e))
    (fun d => (Demo.state d, Demo.district d)) enrol_df demo_df.

(** The [gap_percent] column of [generate_child_gaps]:
    [(gap / enrolled.clip(lower=1) * 100).round(1)] with
    [gap = (enrolled - expected_updates).clip(lower=0)] and
    [expected_updates = demo_age_5_17 * 0.5]. *)
Definition gap_percent_of (m : Enrol.row * Demo.row) : Q :=
  let enrolled := Enrol.age_0_5 (fst m) in
  let expected_updates := inject_Z (Demo.demo_age_5_17 (snd m)) * 0.5 in
  let gap := clip_lower 0 (inject_Z enrolled - expected_updates) in
  Qround_to 10 (gap / clip_lower 1 (inject_Z enrolled) * 100).

Definition child_gap_of (m : Enrol.row * Demo.row) : ChildGap.row :=
  {| ChildGap.state := Enrol.state (fst m);
     ChildGap.district := Enrol.district (fst m);
     ChildGap.enrolled := Enrol.age_0_5 (fst m);
     ChildGap.gap_percent := gap_percent_of m |}.

(** [generate_child_gaps(demo_df, enrol_df)] *)
Definition generate_child_gaps (demo_df : list Demo.row)
    (enrol_df : option (list Enrol.row)) : list ChildGap.row :=
  match enrol_df with
  | None => []
  | Some enrol_df =>
      List.map child_gap_of
        (Pandas.nlargest 20 gap_percent_of
           (merged_enrolment enrol_df demo_df))
  end.

(** A record of [generate_blue_zones]. *)
Module BlueZone.
Record row : Type := {
  state : string;
  district : string;
  senior_count : Z;
  total_population : Z;
  senior_density : fnum
}.
End BlueZone.

(** the selected columns and
    [senior_density = (senior_count / total_population * 100).round(1)] *)
Definition blue_zone_of (r : Demo.row) : BlueZone.row :=
  {| BlueZone.state := Demo.state r;
     BlueZone.district := Demo.district r;
     BlueZone.senior_count := Demo.senior_count r;
     BlueZone.total_population := Demo.total_population r;
     BlueZone.senior_density :=
       round1 (fmul (fdiv (of_Z (Demo.senior_count r))
                          (of_Z (Demo.total_population r))) (Fin 100)) |}.


(** A record of [generate_dead_centers]. *)
Module DeadCenter.
Record row : Type := {
  state : string;
  district : string;
  total_updates : Z;
  update_rate : Q
}.
End DeadCenter.

(** [(total_updates / total_population.clip(lower=1) * 100).round(2)] *)
Definition update_rate_of (m : Bio.row * Demo.row) : Q :=
  Qround_to 100
    (inject_Z (Bio.total_updates (fst m))
     / clip_lower 1 (inject_Z (Demo.total_population (snd m))) * 100).

Definition dead_center_of (m : Bio.row * Demo.row) : DeadCenter.row :=
  {| DeadCenter.state := Bio.state (fst m);
     DeadCenter.district := Bio.district (fst m);
     DeadCenter.total_updates := Bio.total_updates (fst m);
     DeadCenter.update_rate := update_rate_of m |}.

(** [generate_dead_centers(bio_df, demo_df, limit=20)] *)
Definition generate_dead_centers (bio_df : list Bio.row)
    (demo_df : list Demo.row) (limit : Z) : list DeadCenter.row :=
  List.map dead_center_of
    (Pandas.nsmallest limit update_rate_of (merged bio_df demo_df)).

(** The dict of [generate_kpis], without its time stamp. *)
Module Kpi.
Record row : Type := {
  dsi_average : fnum;
  stressed_districts : Z;
  critical_districts : Z;
  high_districts : Z;
  total_population : Z;
  total_districts : Z;
  total_enrolments : Z;
  total_updates : Z;
  asset_efficiency : Q;
  system_status : string;
  senior_population : Z
}.
End Kpi.



End GenerateData.

(** ** backend/data_processor.py *)

Module DataProcessor.

Local Open Scope Q_scope.

(** A value stored in a result dict. *)
Inductive pyval : Type :=
| VNone
| VInt (z : Z)
| VFloat (q : Q)
| VStr (s : string).

(** The state of a [SankhyaDataProcessor] after [__init__]. *)
Record processor : Type := {
  demographic_df : option (list Demographic.row);
  enrolment_df : option (list Enrolment.row);
  biometric_df : option (list Biometric.row)
}.

(** [_load_data]: a file that does not exist leaves its frame [None]. *)
Definition _load_data (files : csv_files) : processor :=
  {| demographic_df := master_demographic_data files;
     enrolment_df := master_enrolment_data files;
     biometric_df := master_biometric_data files |}.

Definition sumZ {A} (col : A -> Z) (df : list A) : Z :=
  fold_right (fun r acc => (col r + acc)%Z) 0%Z df.

(** Python truthiness of the [state] argument: [None] and the empty
    string are false. *)
Definition truthy (state : option string) : bool :=
  match state with
  | Some s => negb (String.eqb s "")
  | None => false
  end.

(** [df[(df['district'] == district) & (df['state'] == state)]], or
    [df[df['district'] == district]] without a state. *)
Definition select (df : list Demographic.row) (district : string)
    (state : option string) : list Demographic.row :=
  if truthy state
  then List.filter (fun r =>
         String.eqb (Demographic.district r) district
         && String.eqb (Demographic.state r) (default "" state)) df
  else List.filter (fun r => String.eqb (Demographic.district r) district) df.

(** The components of the index computed by [calculate_dsi] from the
    two column sums. *)
Definition Wa_of (V total_pop : Z) : Q :=
  if (0 <? total_pop)%Z then inject_Z V / inject_Z total_pop * 100 else 0.

Definition C_of (total_pop : Z) : Q :=
  Qpy_max (inject_Z total_pop / 1000 * 10) 1.

(** [dsi] as it stands after [dsi = min(dsi / 100, 10)] *)
Definition dsi_of (V total_pop : Z) : Q :=
  let Wa := Wa_of V total_pop in
  let S := inject_Z V * 0.1 in
  let Ws := 1.5 in
  let C := C_of total_pop in
  let R := inject_Z V * 0.05 in
  let dsi := (inject_Z V * Wa + S * Ws) / C + R in
  Qpy_min (dsi / 100) 10.

Definition status_of (dsi : Q) : string :=
  if Qltb dsi 3.3 then "low"
  else if Qltb dsi 6.6 then "medium"
  else "critical".

Definition py_opt_str (s : option string) : pyval :=
  match s with Some s => VStr s | None => VNone end.

(** [calculate_dsi(self, district, state=None)] *)
Definition calculate_dsi (self : processor) (district : string)
    (state : option string) : gmap string pyval :=
  match demographic_df self with
  | None => {[ "dsi" := VInt 0; "status" := VStr "no_data" ]}
  | Some df =>
      let df := select df district state in
      match df with
      | [] => {[ "dsi" := VInt 0; "status" := VStr "not_found" ]}
      | _ =>
          let V := sumZ Demographic.demo_age_17_ df in
          let total_pop :=
            (sumZ Demographic.demo_age_5_17 df
             + sumZ Demographic.demo_age_17_ df)%Z in
          let dsi := dsi_of V total_pop in
          let status := status_of dsi in
          {[ "district" := VStr district;
             "state" := py_opt_str state;
             "dsi" := VFloat (Qround_to 100 dsi);
             "status" := VStr status;
             "volume" := VInt V;
             "capacity" := VInt (Qtrunc (C_of total_pop));
             "adult_percent" := VFloat (Qround_to 10 (Wa_of V total_pop)) ]}
      end
  end.

Definition pynum (v : option pyval) : Q :=
  match v with
  | Some (VInt z) => inject_Z z
  | Some (VFloat q) => q
  | _ => 0
  end.

Definition demo_key (r : Demographic.row) : string * string :=
  (Demographic.state r, Demographic.district r).

(** [self.demographic_df.groupby(['state', 'district']).agg({... 'sum'})
    .reset_index()] *)
Definition demographic_groups (df : list Demographic.row)
    : list ((string * string) * (Z * Z)) :=
  Pandas.groupby demo_key
    (fun r => (Demographic.demo_age_5_17 r, Demographic.demo_age_17_ r))
    (fun s r => ((fst s + Demographic.demo_age_5_17 r)%Z,
                 (snd s + Demographic.demo_age_17_ r)%Z))
    df.

(** the dicts appended by the loop over [agg.head(100)] *)
Definition stressed_results (self : processor)
    (agg : list ((string * string) * (Z * Z))) : list (gmap string pyval) :=
  List.filter (fun dsi_data => Qltb 0 (pynum (dsi_data !! "dsi")))
    (List.map (fun row =>
                 calculate_dsi self (snd (fst row)) (Some (fst (fst row))))
       (firstn 100 agg)).

(** [get_top_stressed_districts(self, limit=20)] *)
Definition get_top_stressed_districts (self : processor) (limit : Z)
    : list (gmap string pyval) :=
  match demographic_df self with
  | None => []
  | Some df =>
      let agg := demographic_groups df in
      let results := stressed_results self agg in
      Pandas.slice_to limit
        (Pandas.sort_desc Qltb (fun x => pynum (x !! "dsi")) results)
  end.

Module Corridor.
Record row : Type := {
  origin : string;
  destination : string;
  volume : Z;
  change_percent : Z
}.
End Corridor.

Definition migration_pairs : list (string * string * Z) :=
  [ ("Bihar", "Delhi", 42%Z);
    ("Uttar Pradesh", "Maharashtra", 28%Z);
    ("Rajasthan", "Gujarat", 12%Z);
    ("Madhya Pradesh", "Karnataka", 8%Z);
    ("Odisha", "Tamil Nadu", 5%Z) ].

Definition mem_str (s : string) (l : list string) : bool :=
  existsb (String.eqb s) l.

(** [get_migration_flows(self)].  [sort_values('updates',
    ascending=False)] is taken to keep tied states in their order. *)
Definition get_migration_flows (self : processor) : list Corridor.row :=
  match biometric_df self with
  | None => []
  | Some df =>
      let state_activity :=
        Pandas.sort_desc Qltb (fun g => inject_Z (snd g))
          (Pandas.groupby Biometric.state Biometric.bio_age_17_
             (fun s r => (s + Biometric.bio_age_17_ r)%Z) df) in
      let top_states := List.map fst (firstn 10 state_activity) in
      let corridors :=
        flat_map (fun p =>
          let '(origin, dest, change) := p in
          if mem_str origin top_states || mem_str dest top_states
          then [ {| Corridor.origin := origin;
                    Corridor.destination := dest;
                    Corridor.volume :=
                      default 100000%Z (Pandas.assoc origin state_activity);
                    Corridor.change_percent := change |} ]
          else []) migration_pairs in
      Pandas.slice_to 5 corridors
  end.

Module Anomaly.
Record row : Type := {
  state : string;
  district : string;
  deviation : fnum;
  severity : string;
  type : string
}.
End Anomaly.

Definition bio_key (r : Biometric.row) : string * string :=
  (Biometric.state r, Biometric.district r).

(** [fillna(0)] *)
Definition fillna0 (x : fnum) : fnum :=
  match x with NaN => Fin 0 | _ => x end.

(** The [deviation] column: [((total - mean) / mean * 100).fillna(0)],
    where [mean = total / count] over the rows of the group. *)
Definition deviation_of (total count : Z) : fnum :=
  let mean := inject_Z total / inject_Z count in
  fillna0 (fmul (fdiv (Fin (inject_Z total - mean)) (Fin mean)) (Fin 100)).

Definition anomaly_of (g : (string * string) * (Z * Z)) : Anomaly.row :=
  let '((st, di), (total, count)) := g in
  let deviation := deviation_of total count in
  {| Anomaly.state := st;
     Anomaly.district := di;
     Anomaly.deviation := round1 deviation;
     Anomaly.severity :=
       if fgt (fabs deviation) (Fin 60) then "critical" else "warning";
     Anomaly.type := if fgt deviation (Fin 0) then "surge" else "drop" |}.

(** sum and number of rows of [bio_age_17_] per (state, district) *)
Definition biometric_groups (df : list Biometric.row)
    : list ((string * string) * (Z * Z)) :=
  Pandas.groupby bio_key
    (fun r => (Biometric.bio_age_17_ r, 1%Z))
    (fun s r => ((fst s + Biometric.bio_age_17_ r)%Z, (snd s + 1)%Z))
    df.

(** the records appended by the loop, in row order *)
Definition emitted_anomalies (df : list Biometric.row) : list Anomaly.row :=
  List.map anomaly_of
    (List.filter (fun g =>
        fgt (fabs (deviation_of (fst (snd g)) (snd (snd g)))) (Fin 40))
       (biometric_groups df)).

(** [detect_anomalies(self)] *)
Definition detect_anomalies (self : processor) : list Anomaly.row :=
  match biometric_df self with
  | None => []
  | Some df =>
      Pandas.slice_to 10
        (Pandas.sort_desc flt (fun x => fabs (Anomaly.deviation x))
           (emitted_anomalies df))
  end.

(** A record of [get_blue_zones]. *)
Module BlueZone.
Record row : Type := {
  state : string;
  district : string;
  senior_count : Z;
  senior_density : fnum
}.
End BlueZone.


(** The two columns [get_blue_zones] adds to a group:
    [senior_count = (demo_age_17_ * 0.15).astype(int)] and
    [senior_density = senior_count / demo_age_17_ * 100]. *)
Definition blue_zone_of (g : (string * string) * Z) : BlueZone.row :=
  let '((st, di), s_17) := g in
  let senior_count := Qtrunc (inject_Z s_17 * 0.15) in
  {| BlueZone.state := st;
     BlueZone.district := di;
     BlueZone.senior_count := senior_count;
     BlueZone.senior_density :=
       fmul (fdiv (of_Z senior_count) (of_Z s_17)) (Fin 100) |}.


(** A record of [get_dead_centers]. *)
Module DeadCenter.
Record row : Type := {
  state : string;
  district : string;
  total : Z
}.
End DeadCenter.


(** [agg['total'] = agg['bio_age_5_17'] + agg['bio_age_17_']] *)
Definition dead_center_of (g : (string * string) * (Z * Z))
    : DeadCenter.row :=
  let '((st, di), (s_5_17, s_17)) := g in
  {| DeadCenter.state := st;
     DeadCenter.district := di;
     DeadCenter.total := (s_5_17 + s_17)%Z |}.



(** The dict of [get_dashboard_kpis]. *)
Module Kpi.
Record row : Type := {
  dsi_average : Q;
  stressed_districts : Z;
  critical_districts : Z;
  high_districts : Z;
  total_volume : Z;
  asset_efficiency : Q;
  system_status : string
}.
End Kpi.

(** [d['status'] == status] *)
Definition status_is (status : string) (d : gmap string pyval) : bool :=
  match d !! "status" with
  | Some (VStr s) => String.eqb s status
  | _ => false
  end.

(** [d['volume']], an int in every dict that has the key *)
Definition pyint (v : option pyval) : Z :=
  match v with
  | Some (VInt z) => z
  | _ => 0%Z
  end.

(** [np.mean(values)] of a list that is not empty *)
Definition np_mean (values : list Q) : Q :=
  fold_right Qplus 0 values / inject_Z (Z.of_nat (length values)).

(** [get_dashboard_kpis(self)] *)
Definition get_dashboard_kpis (self : processor) : Kpi.row :=
  let stressed := get_top_stressed_districts self 50 in
  let critical :=
    Z.of_nat (length (List.filter (status_is "critical") stressed)) in
  let high :=
    Z.of_nat (length (List.filter (status_is "medium") stressed)) in
  let avg_dsi :=
    match stressed with
    | [] => 0
    | _ => np_mean (List.map (fun d => pynum (d !! "dsi")) stressed)
    end in
  let total_volume :=
    match stressed with
    | [] => 0%Z
    | _ => sumZ (fun d => pyint (d !! "volume")) stressed
    end in
  {| Kpi.dsi_average := Qround_to 100 avg_dsi;
     Kpi.stressed_districts := Z.of_nat (length stressed);
     Kpi.critical_districts := critical;
     Kpi.high_districts := high;
     Kpi.total_volume := total_volume;
     Kpi.asset_efficiency := 78.4;
     Kpi.system_status := "OPTIMAL" |}.

(** [get_processor()]: the second argument is the module-level
    [_processor] before the call, the second component of the result
    the global after it. *)
Definition get_processor (files : csv_files)
    (_processor : option processor) : processor * option processor :=
  match _processor with
  | None => let p := _load_data files in (p, Some p)
  | Some p => (p, Some p)
  end.

(** Successive calls of [get_processor()], as the routes of app.py make
    them: [disk] lists what is on disk at each call, the result lists
    the processors returned. *)
Fixpoint get_processor_calls (disk : list csv_files)
    (_processor : option processor) : list processor :=
  match disk with
  | [] => []
  | files :: later =>
      let '(p, global) := get_processor files _processor in
      p :: get_processor_calls later global
  end.

End DataProcessor.

(** ** backend/ai_forecaster.py *)

Module AiForecaster.

Local Open Scope Q_scope.

(** The outcome of code that may raise. *)
Inductive exn : Type :=
| FileNotFoundError (path : string).

Inductive result (A : Type) : Type :=
| Ok (a : A)
| Raise (e : exn).
Arguments Ok {A} a.
Arguments Raise {A} e.

Definition bind {A B} (m : result A) (k : A -> result B) : result B :=
  match m with
  | Ok a => k a
  | Raise e => Raise e
  end.

Notation "x <- m ;; k" := (bind m (fun x => k))
  (at level 100, m at next level, right associativity).

(** [pd.read_csv(path)] with nothing around it: a missing file raises. *)
Definition read_csv {A} (path : string) (file : option (list A))
    : result (list A) :=
  match file with
  | Some df => Ok df
  | None => Raise (FileNotFoundError path)
  end.

(** [load_real_data()] *)
Definition load_real_data (files : csv_files)
    : result (list Demographic.row * list Biometric.row
              * list Enrolment.row) :=
  demo_df <- read_csv "master_demographic_data.csv"
               (master_demographic_data files) ;;
  bio_df <- read_csv "master_biometric_data.csv"
              (master_biometric_data files) ;;
  enrol_df <- read_csv "master_enrolment_data.csv"
                (master_enrolment_data files) ;;
  Ok (demo_df, bio_df, enrol_df).

(** A row of [state_data]. *)
Module State.
Record row : Type := {
  state : string;
  demo_age_5_17 : Z;
  demo_age_17_ : Z;
  total_population : Z;
  bio_count : Z;
  enrol_count : Z;
  daily_demand_rate : Q
}.
End State.

(** [calculate_historical_trends(demo_df, bio_df, enrol_df)]: the left
    merges leave NaN where a state has no biometric or enrolment row,
    and [fillna(0)] turns it into 0. *)
Definition calculate_historical_trends (demo_df : list Demographic.row)
    (bio_df : list Biometric.row) (enrol_df : list Enrolment.row)
    : list State.row :=
  let state_activity :=
    Pandas.groupby Demographic.state
      (fun r => (Demographic.demo_age_5_17 r, Demographic.demo_age_17_ r))
      (fun s r => ((fst s + Demographic.demo_age_5_17 r)%Z,
                   (snd s + Demographic.demo_age_17_ r)%Z))
      demo_df in
  let bio_state := Pandas.groupby_size Biometric.state bio_df in
  let enrol_state := Pandas.groupby_size Enrolment.state enrol_df in
  List.map (fun g =>
    let '(st, (s_5_17, s_17)) := g in
    let total_population := (s_5_17 + s_17)%Z in
    let bio_count := default 0%Z (Pandas.assoc st bio_state) in
    let enrol_count := default 0%Z (Pandas.assoc st enrol_state) in
    {| State.state := st;
       State.demo_age_5_17 := s_5_17;
       State.demo_age_17_ := s_17;
       State.total_population := total_population;
       State.bio_count := bio_count;
       State.enrol_count := enrol_count;
       State.daily_demand_rate :=
         inject_Z (bio_count + enrol_count)
         / clip_lower 1 (inject_Z total_population) * 1000 |})
    state_activity.

(** What [generate_7day_forecast] reads of [datetime.now()]: the day
    number of the date ([toordinal()]), its month and its day of the
    month. *)
Record datetime : Type := {
  toordinal : Z;
  month : Z;
  day : Z
}.

(** [forecast_date.weekday()], Monday is 0 *)
Definition weekday (ordinal : Z) : Z := (ordinal + 6) mod 7.

(** [strftime('%A')] *)
Definition day_name_of (dow : Z) : string :=
  match dow with
  | 0%Z => "Monday" | 1%Z => "Tuesday" | 2%Z => "Wednesday"
  | 3%Z => "Thursday" | 4%Z => "Friday" | 5%Z => "Saturday"
  | _ => "Sunday"
  end.

(** the dict [dow_factors], read at key [dow] *)
Definition dow_factors (dow : Z) : Q :=
  match dow with
  | 0%Z => 1.15 | 1%Z => 1.10 | 2%Z => 1.05 | 3%Z => 1.00
  | 4%Z => 0.95 | 5%Z => 0.70 | 6%Z => 0.50
  | _ => 0 (* no such key; [weekday] only returns 0..6 *)
  end.

Definition mem_Z (z : Z) (l : list Z) : bool := existsb (Z.eqb z) l.

Definition seasonal_factor_of (month : Z) : Q :=
  if mem_Z month [1; 3; 4]%Z then 1.25
  else if mem_Z month [10; 11; 12]%Z then 1.15
  else if mem_Z month [6; 7; 8]%Z then 0.85
  else 1.0.

Module Forecast.
Record row : Type := {
  date : Z;
  day_name : string;
  predicted_transactions : Z;
  confidence : Q;
  low_estimate : Z;
  high_estimate : Z
}.
End Forecast.

Section Forecasting.
(** [random_sample seed] is the first draw in [0, 1) of numpy's
    generator after [np.random.seed(seed)];
    [np.random.uniform(low, high)] is [low + (high - low) * draw]. *)
Variable random_sample : Z -> Q.

Definition uniform_after_seed (seed : Z) (low high : Q) : Q :=
  low + (high - low) * random_sample seed.

(** [base_daily] *)
Definition base_daily_of (state_data : list State.row) : Q :=
  inject_Z (DataProcessor.sumZ State.bio_count state_data
            + DataProcessor.sumZ State.enrol_count state_data) / 30.

(** [predicted_demand] at the end of the loop body for offset [day] *)
Definition predicted_demand_of (today : datetime)
    (state_data : list State.row) (day : Z) : Q :=
  let forecast_date := (toordinal today + day)%Z in
  let dow := weekday forecast_date in
  let predicted_demand :=
    base_daily_of state_data * dow_factors dow
    * seasonal_factor_of (month today) in
  let trend_factor := 1 + (inject_Z day * 0.005) in
  let predicted_demand := predicted_demand * trend_factor in
  let variance := uniform_after_seed (day + AiForecaster.day today) 0.95 1.05 in
  predicted_demand * variance.

Definition forecast_of (today : datetime) (state_data : list State.row)
    (day : Z) : Forecast.row :=
  let forecast_date := (toordinal today + day)%Z in
  let predicted_demand := predicted_demand_of today state_data day in
  let confidence := Qpy_max 0.65 (0.95 - (inject_Z day * 0.04)) in
  {| Forecast.date := forecast_date;
     Forecast.day_name := day_name_of (weekday forecast_date);
     Forecast.predicted_transactions := Qtrunc predicted_demand;
     Forecast.confidence := Qround_to 100 confidence;
     Forecast.low_estimate := Qtrunc (predicted_demand * 0.85);
     Forecast.high_estimate := Qtrunc (predicted_demand * 1.15) |}.

(** [generate_7day_forecast(state_data)], with [today = datetime.now()] *)
Definition generate_7day_forecast (today : datetime)
    (state_data : list State.row) : list Forecast.row :=
  List.map (forecast_of today state_data) [0; 1; 2; 3; 4; 5; 6]%Z.
End Forecasting.

(** A row of [district_data]. *)
Module District.
Record row : Type := {
  state : string;
  district : string;
  demo_age_5_17 : Z;
  demo_age_17_ : Z;
  total : Z;
  adult_ratio : Q;
  bio_count : Z;
  enrol_count : Z;
  activity_per_capita : Q
}.
End District.

(** A row of [blue_zones], [dez_zones] and [zones]: the district row
    with its two added columns. *)
Module Zone.
Record row : Type := {
  data : District.row;
  zone_type : string;
  zone_reason : string
}.
End Zone.

Definition district_key (r : District.row) : string * string :=
  (District.state r, District.district r).

Definition zone_key (z : Zone.row) : string * string :=
  district_key (Zone.data z).

(** [district_data] of [calculate_blue_zone_dez] *)
Definition district_data_of (demo_df : list Demographic.row)
    (bio_df : list Biometric.row) (enrol_df : list Enrolment.row)
    : list District.row :=
  let district_demo :=
    Pandas.groupby DataProcessor.demo_key
      (fun r => (Demographic.demo_age_5_17 r, Demographic.demo_age_17_ r))
      (fun s r => ((fst s + Demographic.demo_age_5_17 r)%Z,
                   (snd s + Demographic.demo_age_17_ r)%Z))
      demo_df in
  let bio_activity := Pandas.groupby_size DataProcessor.bio_key bio_df in
  let enrol_activity :=
    Pandas.groupby_size
      (fun r => (Enrolment.state r, Enrolment.district r)) enrol_df in
  List.map (fun g =>
    let '(k, (s_5_17, s_17)) := g in
    let total := (s_5_17 + s_17)%Z in
    let bio_count := default 0%Z (Pandas.assoc k bio_activity) in
    let enrol_count := default 0%Z (Pandas.assoc k enrol_activity) in
    {| District.state := fst k;
       District.district := snd k;
       District.demo_age_5_17 := s_5_17;
       District.demo_age_17_ := s_17;
       District.total := total;
       District.adult_ratio :=
         inject_Z s_17 / clip_lower 1 (inject_Z total);
       District.bio_count := bio_count;
       District.enrol_count := enrol_count;
       District.activity_per_capita :=
         inject_Z (bio_count + enrol_count)
         / clip_lower 1 (inject_Z total) |})
    district_demo.

Definition senior_threshold (district_data : list District.row) : fnum :=
  Pandas.quantile 0.80 (List.map District.adult_ratio district_data).

Definition activity_threshold (district_data : list District.row) : fnum :=
  Pandas.quantile 0.20
    (List.map District.activity_per_capita district_data).

(** the two columns added to the copy of the selected rows *)
Definition as_blue_zone (r : District.row) : Zone.row :=
  {| Zone.data := r;
     Zone.zone_type := "blue_zone";
     Zone.zone_reason := "High senior population (60+ age group)" |}.

Definition as_dez (r : District.row) : Zone.row :=
  {| Zone.data := r;
     Zone.zone_type := "dez";
     Zone.zone_reason := "Low digital enrollment activity" |}.

(** [district_data['adult_ratio'] >= senior_threshold] *)
Definition is_blue (district_data : list District.row) (r : District.row)
    : bool :=
  fge (Fin (District.adult_ratio r)) (senior_threshold district_data).

(** [district_data['activity_per_capita'] <= activity_threshold] *)
Definition is_dez (district_data : list District.row) (r : District.row)
    : bool :=
  fle (Fin (District.activity_per_capita r))
      (activity_threshold district_data).

Definition blue_zones_of (district_data : list District.row)
    : list Zone.row :=
  List.map as_blue_zone
    (List.filter (is_blue district_data) district_data).

Definition dez_zones_of (district_data : list District.row)
    : list Zone.row :=
  List.map as_dez (List.filter (is_dez district_data) district_data).

(** [pd.concat([blue_zones, dez_zones]).drop_duplicates(subset=['state',
    'district'])] *)
Definition zones_of (district_data : list District.row) : list Zone.row :=
  Pandas.drop_duplicates zone_key
    (blue_zones_of district_data ++ dez_zones_of district_data).

(** [calculate_blue_zone_dez(demo_df, bio_df, enrol_df)] *)
Definition calculate_blue_zone_dez (demo_df : list Demographic.row)
    (bio_df : list Biometric.row) (enrol_df : list Enrolment.row)
    : list Zone.row :=
  zones_of (district_data_of demo_df bio_df enrol_df).

(** What [run_ai_forecast] computes from the loaded tables. *)
Record ai_results : Type := {
  forecast_7day : list Forecast.row;
  zone_analysis : list Zone.row
}.

(** [run_ai_forecast()], up to the forecast and the zone analysis of
    its result document; an exception of [load_real_data] is not
    caught. *)
Definition run_ai_forecast (random_sample : Z -> Q) (today : datetime)
    (files : csv_files) : result ai_results :=
  dfs <- load_real_data files ;;
  let '(demo_df, bio_df, enrol_df) := dfs in
  let state_data := calculate_historical_trends demo_df bio_df enrol_df in
  let forecasts := generate_7day_forecast random_sample today state_data in
  let zones := calculate_blue_zone_dez demo_df bio_df enrol_df in
  Ok {| forecast_7day := forecasts;
        zone_analysis := Pandas.slice_to 40 zones |}.

(** A record of [predict_resource_needs]. *)
Module Recommendation.
Record row : Type := {
  state : string;
  current_capacity : Z;
  predicted_demand : Z;
  additional_centers_needed : Z;
  priority : string
}.
End Recommendation.

Definition capacity_per_center : Z := 200.

(** [max(1, int(row['bio_count'] / 100))] *)
Definition current_centers_of (row : State.row) : Z :=
  Z.max 1 (Qtrunc (inject_Z (State.bio_count row) / 100)).

(** [predict_resource_needs] over the integer that
    [int(row['daily_demand_rate'] * row['total_population'] / 1000)]
    yields.  The product and the quotient are taken in binary floating
    point, so the integer can differ by one from the integer part of the
    exact value; [state_demand] gives it for the rate and the population
    of a row. *)
Section ResourceNeeds.
Variable state_demand : Q -> Z -> Z.

Definition state_demand_of (row : State.row) : Z :=
  state_demand (State.daily_demand_rate row) (State.total_population row).

(** [max(1, int(state_demand / capacity_per_center))] *)
Definition needed_centers_of (row : State.row) : Z :=
  Z.max 1 (Qtrunc (inject_Z (state_demand_of row)
                   / inject_Z capacity_per_center)).

Definition recommendation_of (row : State.row) : Recommendation.row :=
  let needed_centers := needed_centers_of row in
  let current_centers := current_centers_of row in
  {| Recommendation.state := State.state row;
     Recommendation.current_capacity :=
       (current_centers * capacity_per_center)%Z;
     Recommendation.predicted_demand := state_demand_of row;
     Recommendation.additional_centers_needed :=
       (needed_centers - current_centers)%Z;
     Recommendation.priority :=
       if Qltb (inject_Z current_centers * 1.5) (inject_Z needed_centers)
       then "high" else "medium" |}.

(** [predict_resource_needs(state_data, forecasts)].  The function reads
    [forecasts] only for [max_demand] and [avg_demand], which it does
    not use; its caller passes the seven rows of the forecast. *)
Definition predict_resource_needs (state_data : list State.row)
    : list Recommendation.row :=
  let top_states := Pandas.nlargest 5 State.daily_demand_rate state_data in
  List.map recommendation_of
    (List.filter
       (fun row => (current_centers_of row <? needed_centers_of row)%Z)
       top_states).

End ResourceNeeds.

(** The [summary] of the result document of [run_ai_forecast]. *)
Module Summary.
Record row : Type := {
  total_states_analyzed : Z;
  avg_daily_demand : Z;
  peak_day : string;
  blue_zones_count : Z;
  dez_count : Z
}.
End Summary.

(** [max(rest', key=...)] over [best :: rest]: the first row with the
    largest key *)
Fixpoint max_by {A} (key : A -> Z) (best : A) (rest : list A) : A :=
  match rest with
  | [] => best
  | x :: rest => max_by key (if (key best <? key x)%Z then x else best) rest
  end.

(** [len([z for z in zones if z.get('zone_type') == zone_type])] *)
Definition count_zone_type (zone_type : string) (zones : list Zone.row) : Z :=
  Z.of_nat
    (length (List.filter
               (fun z => String.eqb (Zone.zone_type z) zone_type) zones)).

(** The summary computed from the state table, the forecast and all the
    zones; [max] of no forecast raises, which the seven rows of
    [generate_7day_forecast] exclude. *)
Definition summary_of (state_data : list State.row)
    (forecasts : list Forecast.row) (zones : list Zone.row) : Summary.row :=
  {| Summary.total_states_analyzed := Z.of_nat (length state_data);
     Summary.avg_daily_demand :=
       Qtrunc (inject_Z (DataProcessor.sumZ Forecast.predicted_transactions
                           forecasts) / 7);
     Summary.peak_day :=
       match forecasts with
       | [] => ""
       | f :: rest =>
           Forecast.day_name
             (max_by Forecast.predicted_transactions f rest)
       end;
     Summary.blue_zones_count := count_zone_type "blue_zone" zones;
     Summary.dez_count := count_zone_type "dez" zones |}.

End AiForecaster.

(** ** backend/app.py *)

Module App.

(** An alert of [get_alerts], without its clock reading and its two
    formatted texts. *)
Module Alert.
Record row : Type := {
  id : Z;
  type : string;
  severity : string;
  district : string;
  state : string;
  is_resolved : bool
}.
End Alert.




End App.

(** ** streamlit_app.py *)

Module StreamlitApp.

Local Open Scope Q_scope.

(** the colour of a DSI marker of [create_india_folium_map] *)
Definition marker_color (status : string) : string :=
  if String.eqb status "low" then "#10b981"
  else if String.eqb status "medium" then "#f59e0b"
  else "#ef4444".

(** [color_dsi(val)] of [render_stressed_districts_table] *)
Definition color_dsi (val : fnum) : string :=
  if fge val (Fin 6.6) then "background-color: #fee2e2; color: #dc2626"
  else if fge val (Fin 3.3) then "background-color: #fef3c7; color: #d97706"
  else "background-color: #d1fae5; color: #059669".

End StreamlitApp.

(** ** Closed forms *)


(** The dict that [DataProcessor.calculate_dsi] returns for a district
    it has found, from the two column sums of the selected rows. *)
Definition dsi_result (district : string) (state : option string)
    (V total_pop : Z) : gmap string DataProcessor.pyval :=
  {[ "district" := DataProcessor.VStr district;
     "state" := DataProcessor.py_opt_str state;
     "dsi" := DataProcessor.VFloat
                (Qround_to 100 (DataProcessor.dsi_of V total_pop));
     "status" := DataProcessor.VStr
                   (DataProcessor.status_of
                      (DataProcessor.dsi_of V total_pop));
     "volume" := DataProcessor.VInt V;
     "capacity" := DataProcessor.VInt
                     (Qtrunc (DataProcessor.C_of total_pop));
     "adult_percent" := DataProcessor.VFloat
                          (Qround_to 10
                             (DataProcessor.Wa_of V total_pop)) ]}.

(** ** Tables of counts *)


(** The counts of the given columns fit [int64] sums: their absolute
    values add up to less than [2^63] over the whole table, so that no
    sum of entries of these columns wraps around, whatever the rows it
    runs over and the order it takes them in. *)
Definition fits_int64 {A} (columns : list (A -> Z)) (df : list A) : Prop :=
  Pandas.sum_of
    (fun r => Pandas.sum_of (fun col : A -> Z => Z.abs (col r)) columns) df
  < 2 ^ 63.

(** ** The formulas of the specification *)

Module Spec.

Local Open Scope Q_scope.

Definition clamp (x lo hi : Q) : Q :=
  if Qltb x lo then lo else if Qltb hi x then hi else x.

(** [raw = (volume*Wa + S*Ws)/max(capacity,1) + R] with
    [Wa = adultPercent/100], [S = volume*0.1], [Ws = 1.5],
    [R = volume*0.05] *)
Definition raw (volume adultPercent capacity : Q) : Q :=
  (volume * (adultPercent / 100) + (volume * 0.1) * 1.5)
  / (if Qltb capacity 1 then 1 else capacity)
  + volume * 0.05.

(** [dsi = clamp(raw/scaleDivisor, 0, 10)] *)
Definition dsi (scaleDivisor volume adultPercent capacity : Q) : Q :=
  clamp (raw volume adultPercent capacity / scaleDivisor) 0 10.

(** [severity = critical] when [|deviation_pct| > 60], [warning]
    otherwise *)
Definition severity_rule (deviation_pct : Q) (severity : string) : Prop :=
  (60 < Qabs deviation_pct -> severity = "critical")
  /\ (Qabs deviation_pct <= 60 -> severity = "warning").

End Spec.

(** ** Small tables used as concrete inputs *)

Module Fixtures.

Definition demo_row (state district : string) (age_5_17 age_17 : Z)
    : Demographic.row :=
  {| Demographic.state := state;
     Demographic.district := district;
     Demographic.demo_age_5_17 := age_5_17;
     Demographic.demo_age_17_ := age_17 |}.

Definition bio_row (state district : string) (age_5_17 age_17 : Z)
    : Biometric.row :=
  {| Biometric.state := state;
     Biometric.district := district;
     Biometric.bio_age_5_17 := age_5_17;
     Biometric.bio_age_17_ := age_17 |}.

(** one district, 287 minors and 63 adults *)
Definition small_demo : list Demographic.row :=
  [ demo_row "S" "A" 287 63 ].

Definition small_processor : DataProcessor.processor :=
  {| DataProcessor.demographic_df := Some small_demo;
     DataProcessor.enrolment_df := None;
     DataProcessor.biometric_df := None |}.

(** one district of 100 adults and no minor *)
Definition adults_only : list Demographic.row :=
  [ demo_row "S" "A" 0 100 ].

Definition adults_only_processor : DataProcessor.processor :=
  {| DataProcessor.demographic_df := Some adults_only;
     DataProcessor.enrolment_df := None;
     DataProcessor.biometric_df := None |}.

(** a district whose rows count nobody *)
Definition empty_district : list Demographic.row :=
  [ demo_row "S" "D" 0 0 ].

Definition empty_district_files : csv_files :=
  {| master_demographic_data := Some empty_district;
     master_enrolment_data := None;
     master_biometric_data := None |}.

(** the biometric file is missing, the other two are there *)
Definition no_biometric_files : csv_files :=
  {| master_demographic_data := Some small_demo;
     master_enrolment_data := Some [];
     master_biometric_data := None |}.

(** two districts of 2000 inhabitants (100 expected updates) with 170 and
    145 biometric updates *)
Definition anomaly_bio : list Biometric.row :=
  [ bio_row "S" "A" 100 70; bio_row "S" "B" 145 0 ].

Definition anomaly_demo : list Demographic.row :=
  [ demo_row "S" "A" 1000 1000; demo_row "S" "B" 2000 0 ].

Definition anomaly_processor : DataProcessor.processor :=
  {| DataProcessor.demographic_df := Some anomaly_demo;
     DataProcessor.enrolment_df := None;
     DataProcessor.biometric_df := Some anomaly_bio |}.

(** 101 districts of one state, named a, aa, aaa, ...: the first 100
    have one adult each, the last one has 1000 adults *)
Fixpoint district_name (n : nat) : string :=
  match n with
  | O => "a"
  | S n => String.append "a" (district_name n)
  end.

Definition many_districts : list Demographic.row :=
  List.map (fun n => demo_row "S" (district_name n) 0 1) (seq 0 100)
  ++ [ demo_row "S" (district_name 100) 0 1000 ].

Definition many_districts_processor : DataProcessor.processor :=
  {| DataProcessor.demographic_df := Some many_districts;
     DataProcessor.enrolment_df := None;
     DataProcessor.biometric_df := None |}.


(** Monday 6 January 2025, the 739257th day of the calendar *)
Definition monday_2025_01_06 : AiForecaster.datetime :=
  {| AiForecaster.toordinal := 739257;
     AiForecaster.month := 1;
     AiForecaster.day := 6 |}.

(** one state with 30000 biometric and enrolment rows: a base of 1000 a
    day *)
Definition base_1000 : list AiForecaster.State.row :=
  [ {| AiForecaster.State.state := "S";
       AiForecaster.State.demo_age_5_17 := 0;
       AiForecaster.State.demo_age_17_ := 0;
       AiForecaster.State.total_population := 0;
       AiForecaster.State.bio_count := 20000;
       AiForecaster.State.enrol_count := 10000;
       AiForecaster.State.daily_demand_rate := 0%Q |} ].

(** a generator whose first draw is always 1/2, so that
    [uniform(0.95, 1.05)] is 1 *)
Definition draw_half (seed : Z) : Q := (1 # 2)%Q.

(** one state with 135 biometric and enrolment rows: a base of 4.5 a
    day *)
Definition base_4_5 : list AiForecaster.State.row :=
  [ {| AiForecaster.State.state := "S";
       AiForecaster.State.demo_age_5_17 := 0;
       AiForecaster.State.demo_age_17_ := 0;
       AiForecaster.State.total_population := 0;
       AiForecaster.State.bio_count := 100;
       AiForecaster.State.enrol_count := 35;
       AiForecaster.State.daily_demand_rate := 0%Q |} ].

(** four districts; S/A has the highest adult ratio and no biometric or
    enrolment row at all *)
Definition zone_demo : list Demographic.row :=
  [ demo_row "S" "A" 10 90; demo_row "S" "B" 50 50;
    demo_row "S" "C" 90 10; demo_row "T" "A" 20 80 ].

Definition zone_bio : list Biometric.row :=
  [ bio_row "S" "B" 1 1; bio_row "T" "A" 1 1 ].

Definition no_district : AiForecaster.District.row :=
  {| AiForecaster.District.state := "";
     AiForecaster.District.district := "";
     AiForecaster.District.demo_age_5_17 := 0;
     AiForecaster.District.demo_age_17_ := 0;
     AiForecaster.District.total := 0;
     AiForecaster.District.adult_ratio := 0%Q;
     AiForecaster.District.bio_count := 0;
     AiForecaster.District.enrol_count := 0;
     AiForecaster.District.activity_per_capita := 0%Q |}.

Definition enrol_row (state district : string)
    (age_0_5 age_5_17 age_18_greater : Z) : Enrolment.row :=
  {| Enrolment.state := state;
     Enrolment.district := district;
     Enrolment.age_0_5 := age_0_5;
     Enrolment.age_5_17 := age_5_17;
     Enrolment.age_18_greater := age_18_greater |}.

(** enrolments in three of the four districts of [zone_demo] and in one
    district that has no demographic row *)
Definition zone_enrol : list Enrolment.row :=
  [ enrol_row "S" "A" 40 5 1; enrol_row "S" "B" 10 0 0;
    enrol_row "S" "B" 5 5 5; enrol_row "T" "A" 0 3 2;
    enrol_row "U" "Z" 9 9 9 ].

(** district S/A reported in three rows of five updates, S/B in one row
    of a thousand *)
Definition repeated_bio : list Biometric.row :=
  [ bio_row "S" "A" 0 5; bio_row "S" "B" 0 1000;
    bio_row "S" "A" 0 5; bio_row "S" "A" 0 5 ].

Definition repeated_processor : DataProcessor.processor :=
  {| DataProcessor.demographic_df := None;
     DataProcessor.enrolment_df := None;
     DataProcessor.biometric_df := Some repeated_bio |}.

(** the row of S/A, the first of [district_data] *)
Definition district_S_A : AiForecaster.District.row :=
  List.hd no_district (AiForecaster.district_data_of zone_demo zone_bio []).

End Fixtures.

(** * Properties *)

(** ** Numbers *)

Section NumFacts.
Local Open Scope Q_scope.

Lemma Qltb_lt (a b : Q) : Qltb a b = true <-> a < b.
Proof.
  unfold Qltb. rewrite negb_true_iff.
  destruct (Qle_bool b a) eqn:E.
  - apply Qle_bool_iff in E. split; [discriminate | intros Hlt; lra].
  - split; [intros _ | reflexivity].
    destruct (Qlt_le_dec a b) as [Hlt | Hle]; [exact Hlt |].
    apply Qle_bool_iff in Hle. congruence.
Qed.

Lemma Qltb_ge (a b : Q) : Qltb a b = false <-> b <= a.
Proof.
  unfold Qltb. rewrite negb_false_iff. apply Qle_bool_iff.
Qed.

Lemma Qltb_spec (a b : Q) : reflect (a < b) (Qltb a b).
Proof.
  destruct (Qltb a b) eqn:E; constructor.
  - now apply Qltb_lt.
  - apply Qltb_ge in E. lra.
Qed.

Lemma Qpy_max_ge (a b : Q) : a <= Qpy_max a b /\ b <= Qpy_max a b.
Proof. unfold Qpy_max. destruct (Qltb_spec a b); lra. Qed.

Lemma Qpy_min_le (a b : Q) : Qpy_min a b <= a /\ Qpy_min a b <= b.
Proof. unfold Qpy_min. destruct (Qltb_spec b a); lra. Qed.

Lemma clip_lower_ge (b q : Q) : b <= clip_lower b q /\ q <= clip_lower b q.
Proof. unfold clip_lower. destruct (Qltb_spec q b); lra. Qed.

(** The rounded value stays between any two integers that bracket the
    argument. *)
Lemma round_half_even_between (n m : Z) (q : Q) :
  inject_Z n <= q -> q <= inject_Z m ->
  (n <= round_half_even q <= m)%Z.
Proof.
  intros Hn Hm. unfold round_half_even.
  pose proof (Qfloor_le q) as Hfl.
  assert (Hnf : (n <= Qfloor q)%Z).
  { rewrite <- (Qfloor_Z n). now apply Qfloor_resp_le. }
  assert (Hfm : (Qfloor q <= m)%Z).
  { rewrite <- (Qfloor_Z m). now apply Qfloor_resp_le. }
  assert (Hup : inject_Z (Qfloor q) < q -> (Qfloor q + 1 <= m)%Z).
  { intros Hlt. assert (Hq : inject_Z (Qfloor q) < inject_Z m) by lra.
    rewrite <- Zlt_Qlt in Hq. lia. }
  destruct (Qcompare (q - inject_Z (Qfloor q)) (1 # 2)) eqn:E.
  - apply Qeq_alt in E. destruct (Z.even (Qfloor q)); [lia |].
    split; [lia | apply Hup; lra].
  - lia.
  - apply Qgt_alt in E. split; [lia | apply Hup; lra].
Qed.

Lemma Qround_to_between (scale : positive) (lo hi : Z) (q : Q) :
  inject_Z lo <= q -> q <= inject_Z hi ->
  inject_Z lo <= Qround_to scale q <= inject_Z hi.
Proof.
  intros Hlo Hhi. unfold Qround_to.
  assert (Hs : 0 < inject_Z (Z.pos scale)).
  { change 0 with (inject_Z 0). rewrite <- Zlt_Qlt. lia. }
  destruct (round_half_even_between (lo * Z.pos scale) (hi * Z.pos scale)
              (q * inject_Z (Z.pos scale))) as [H1 H2].
  - rewrite inject_Z_mult. nra.
  - rewrite inject_Z_mult. nra.
  - set (r := round_half_even (q * inject_Z (Z.pos scale))) in *.
    unfold Qle, inject_Z. simpl. split; lia.
Qed.

(** On a non-negative rational [int(x)] is the floor. *)
Lemma Qtrunc_nonneg (q : Q) : 0 <= q -> Qtrunc q = Qfloor q.
Proof.
  destruct q as [n d]. unfold Qle, Qtrunc, Qfloor. simpl. intros Hn.
  apply Z.quot_div_nonneg; lia.
Qed.

Lemma Qtrunc_inject_Z (z : Z) : Qtrunc (inject_Z z) = z.
Proof. unfold Qtrunc, inject_Z. simpl. apply Z.quot_1_r. Qed.

Lemma round_half_even_comp (q q' : Q) :
  q == q' -> round_half_even q = round_half_even q'.
Proof.
  intros E. unfold round_half_even.
  rewrite (Qfloor_comp _ _ E).
  assert (Ec : Qcompare (q - inject_Z (Qfloor q')) (1 # 2)
               = Qcompare (q' - inject_Z (Qfloor q')) (1 # 2)).
  { apply Qcompare_comp; [now rewrite E | reflexivity]. }
  now rewrite Ec.
Qed.

Lemma Qround_to_comp (scale : positive) (q q' : Q) :
  q == q' -> Qround_to scale q = Qround_to scale q'.
Proof.
  intros E. unfold Qround_to. f_equal.
  apply round_half_even_comp. now rewrite E.
Qed.

End NumFacts.

(** Division by a literal becomes multiplication by a literal, which
    linear arithmetic understands. *)
Ltac qconst_inv :=
  unfold Qdiv in *;
  repeat match goal with
  | |- context [Qinv (Qmake ?n ?d)] =>
      let r := eval vm_compute in (Qinv (Qmake n d)) in
      change (Qinv (Qmake n d)) with r
  | H : context [Qinv (Qmake ?n ?d)] |- _ =>
      let r := eval vm_compute in (Qinv (Qmake n d)) in
      change (Qinv (Qmake n d)) with r in H
  end.

(** ** The District Stress Index *)

Section DsiFacts.
Local Open Scope Q_scope.





Lemma get_dsi_status_fin (d : Q) :
  GenerateData.get_dsi_status (Fin d)
  = if Qltb d 3.3 then "low" else if Qltb d 6.6 then "medium" else "critical".
Proof. reflexivity. Qed.

Lemma status_thresholds (d : Q) :
  (d < 3.3 -> DataProcessor.status_of d = "low")
  /\ (3.3 <= d -> d < 6.6 -> DataProcessor.status_of d = "medium")
  /\ (6.6 <= d -> DataProcessor.status_of d = "critical").
Proof.
  unfold DataProcessor.status_of.
  destruct (Qltb_spec d 3.3), (Qltb_spec d 6.6);
    repeat split; intros; try reflexivity; lra.
Qed.

Lemma Wa_of_nonneg (V total_pop : Z) :
  (0 <= V)%Z -> 0 <= DataProcessor.Wa_of V total_pop.
Proof.
  intros HV. unfold DataProcessor.Wa_of.
  destruct (Z.ltb_spec 0 total_pop) as [Hp | Hp]; [| lra].
  assert (0 <= inject_Z V) by (change 0 with (inject_Z 0); now rewrite <- Zle_Qle).
  assert (0 < inject_Z total_pop) by (change 0 with (inject_Z 0); now rewrite <- Zlt_Qlt).
  assert (0 <= inject_Z V / inject_Z total_pop).
  { apply Qle_shift_div_l; [assumption | lra]. }
  lra.
Qed.

Lemma C_of_ge_1 (total_pop : Z) : 1 <= DataProcessor.C_of total_pop.
Proof. unfold DataProcessor.C_of. apply Qpy_max_ge. Qed.

Lemma dp_dsi_range (V total_pop : Z) :
  (0 <= V)%Z -> 0 <= DataProcessor.dsi_of V total_pop <= 10.
Proof.
  intros HV. unfold DataProcessor.dsi_of. cbv zeta.
  pose proof (Wa_of_nonneg V total_pop HV) as HWa.
  pose proof (C_of_ge_1 total_pop) as HC.
  assert (Hv : 0 <= inject_Z V) by (change 0 with (inject_Z 0); now rewrite <- Zle_Qle).
  set (Wa := DataProcessor.Wa_of V total_pop) in *.
  set (C := DataProcessor.C_of total_pop) in *.
  assert (Hnum : 0 <= inject_Z V * Wa + inject_Z V * 0.1 * 1.5) by nra.
  assert (Hdiv : 0 <= (inject_Z V * Wa + inject_Z V * 0.1 * 1.5) / C).
  { apply Qle_shift_div_l; lra. }
  set (x := (_ + inject_Z V * 0.05) / 100).
  assert (Hx : 0 <= x).
  { unfold x. apply Qle_shift_div_l; lra. }
  unfold Qpy_min. destruct (Qltb_spec 10 x); lra.
Qed.

End DsiFacts.

Section DsiResultFacts.
Local Open Scope Q_scope.
Import DataProcessor.

(** The dict [calculate_dsi] returns for a district with at least one
    selected row. *)
Lemma calculate_dsi_found (self : processor) (df : list Demographic.row)
    (district : string) (state : option string) :
  demographic_df self = Some df ->
  select df district state <> [] ->
  let rows := select df district state in
  let V := sumZ Demographic.demo_age_17_ rows in
  let total_pop :=
    (sumZ Demographic.demo_age_5_17 rows
     + sumZ Demographic.demo_age_17_ rows)%Z in
  calculate_dsi self district state
  = {[ "district" := VStr district;
       "state" := py_opt_str state;
       "dsi" := VFloat (Qround_to 100 (dsi_of V total_pop));
       "status" := VStr (status_of (dsi_of V total_pop));
       "volume" := VInt V;
       "capacity" := VInt (Qtrunc (C_of total_pop));
       "adult_percent" := VFloat (Qround_to 10 (Wa_of V total_pop)) ]}.
Proof.
  intros Hdf Hne. unfold calculate_dsi. rewrite Hdf.
  destruct (select df district state) as [| r rows'] eqn:E;
    [contradiction | reflexivity].
Qed.

Lemma calculate_dsi_found_status self df district state :
  demographic_df self = Some df ->
  select df district state <> [] ->
  let rows := select df district state in
  let V := sumZ Demographic.demo_age_17_ rows in
  let total_pop :=
    (sumZ Demographic.demo_age_5_17 rows
     + sumZ Demographic.demo_age_17_ rows)%Z in
  calculate_dsi self district state !! "status"
    = Some (VStr (status_of (dsi_of V total_pop)))
  /\ calculate_dsi self district state !! "dsi"
    = Some (VFloat (Qround_to 100 (dsi_of V total_pop))).
Proof.
  intros Hdf Hne. cbv zeta.
  rewrite (calculate_dsi_found self df district state Hdf Hne).
  cbv zeta. split; by simplify_map_eq.
Qed.

End DsiResultFacts.

(** C1.  [SankhyaDataProcessor.calculate_dsi] takes the status from the
    index before it rounds the index for the report.  For the district
    S/A with 287 minors and 63 adults the index lies between 3.295 and
    3.3: the dict holds the index 3.3 with the status low, where 3.3 is
    to be medium.  [generate_data] classifies the rounded index it
    stores, and [get_dsi_status] says medium for the same 3.3. *)
Theorem C1_status_before_rounding :
  let result :=
    DataProcessor.calculate_dsi Fixtures.small_processor "A" (Some "S") in
  result !! "dsi" = Some (DataProcessor.VFloat (330 # 100))
  /\ (330 # 100 == 3.3)%Q
  /\ result !! "status" = Some (DataProcessor.VStr "low")
  /\ result !! "volume" = Some (DataProcessor.VInt 63)
  /\ DataProcessor.sumZ Demographic.demo_age_5_17 Fixtures.small_demo
     + DataProcessor.sumZ Demographic.demo_age_17_ Fixtures.small_demo
     = 350
  /\ (3.295 <= DataProcessor.dsi_of 63 350 < 3.3)%Q
  /\ GenerateData.get_dsi_status (Fin (330 # 100)) = "medium".
Proof.
  cbv zeta. repeat split; try (vm_compute; reflexivity);
    vm_compute; discriminate.
Qed.

(** ** One formula at every call site? *)

(** C2.  The two call sites do not compute one formula.  For a district
    of 100 adults and no minor both work on the volume 100, the adult
    percentage 100 and the capacity 1.  [generate_data] stores 0.12,
    which is [clamp(raw/1000, 0, 10)]; [SankhyaDataProcessor] uses the
    percentage as the weight without dividing it by 100 and divides by
    100, and reports 10.  No scale divisor gives both. *)
Theorem C2_call_sites_disagree :
  let result :=
    DataProcessor.calculate_dsi Fixtures.adults_only_processor "A"
      (Some "S") in
  (exists r,
      GenerateData.aggregate_demographic Fixtures.adults_only = [r]
      /\ GenerateData.Demo.demo_age_17_ r = 100
      /\ feq (GenerateData.Demo.adult_percent r) (Fin 100)
      /\ GenerateData.Demo.capacity r = 1
      /\ GenerateData.Demo.dsi r
         = GenerateData.calculate_dsi (of_Z 100)
             (GenerateData.Demo.adult_percent r) (of_Z 1)
      /\ feq (GenerateData.Demo.dsi r) (Fin 0.12))
  /\ result !! "volume" = Some (DataProcessor.VInt 100)
  /\ (DataProcessor.pynum (result !! "adult_percent") == 100)%Q
  /\ result !! "capacity" = Some (DataProcessor.VInt 1)
  /\ (DataProcessor.pynum (result !! "dsi") == 10)%Q
  /\ (Spec.raw 100 100 1 == 120)%Q
  /\ (Spec.dsi 1000 100 100 1 == 0.12)%Q
  /\ (forall scaleDivisor : Q,
        ~ ((Spec.dsi scaleDivisor 100 100 1 == 0.12)%Q
           /\ (Spec.dsi scaleDivisor 100 100 1 == 10)%Q)).
Proof.
  cbv zeta. split.
  - eexists. split; [vm_compute; reflexivity |].
    repeat split; vm_compute; reflexivity.
  - repeat split; try (vm_compute; reflexivity).
    intros d [H1 H2]. rewrite H1 in H2. vm_compute in H2. discriminate.
Qed.


(** ** A district without population *)

(** In [SankhyaDataProcessor.calculate_dsi] the guard [if total_pop > 0]
    makes a district whose sums are zero score 0 with status low. *)
Lemma dp_zero_population :
  DataProcessor.Wa_of 0 0 = 0%Q
  /\ (DataProcessor.dsi_of 0 0 == 0)%Q
  /\ DataProcessor.status_of (DataProcessor.dsi_of 0 0) = "low".
Proof. repeat split. Qed.


(** C3.  The code at a district whose demographic rows sum to a total
    population of 0: [process_demographic_data] divides 0 by 0, so the
    adult percent and the index are NaN and the status is critical (no
    exception is raised); [SankhyaDataProcessor.calculate_dsi] on the same
    table reports an adult percent of 0, an index of 0 and status low. *)
Theorem C3_zero_population_generate_data :
  (exists r,
      GenerateData.process_demographic_data Fixtures.empty_district_files
        = Some [r]
      /\ GenerateData.Demo.total_population r = 0
      /\ GenerateData.Demo.adult_percent r = NaN
      /\ GenerateData.Demo.dsi r = NaN
      /\ GenerateData.Demo.status r = "critical")
  /\ (let result :=
        DataProcessor.calculate_dsi
          (DataProcessor._load_data Fixtures.empty_district_files)
          "D" (Some "S") in
      result !! "adult_percent" = Some (DataProcessor.VFloat (0 # 10))
      /\ result !! "dsi" = Some (DataProcessor.VFloat (0 # 100))
      /\ result !! "status" = Some (DataProcessor.VStr "low")).
Proof.
  split.
  - eexists. split; [vm_compute; reflexivity |]. repeat split.
  - cbv zeta. repeat split; vm_compute; reflexivity.
Qed.

(** ** A missing input file *)

Section MissingFileFacts.
Import DataProcessor.

(** Every view of [SankhyaDataProcessor] modelled here answers with an
    empty list, or with the short [no_data] dict, when its table was not
    loaded. *)
Lemma dp_views_without_table (self : processor) :
  (demographic_df self = None ->
     get_top_stressed_districts self 20 = []
     /\ forall district state,
          calculate_dsi self district state
          = {[ "dsi" := VInt 0; "status" := VStr "no_data" ]})
  /\ (biometric_df self = None ->
        get_migration_flows self = [] /\ detect_anomalies self = []).
Proof.
  split; intros H.
  - unfold get_top_stressed_districts, calculate_dsi. rewrite H. split; done.
  - unfold get_migration_flows, detect_anomalies. rewrite H. split; done.
Qed.

(** [load_real_data] raises as soon as one of the three files is missing. *)
Lemma load_real_data_raises (files : csv_files) :
  master_demographic_data files = None
  \/ master_biometric_data files = None
  \/ master_enrolment_data files = None ->
  exists e, AiForecaster.load_real_data files = AiForecaster.Raise e.
Proof.
  unfold AiForecaster.load_real_data, AiForecaster.bind, AiForecaster.read_csv.
  destruct (master_demographic_data files); [| eauto].
  destruct (master_biometric_data files); [| eauto].
  destruct (master_enrolment_data files); [| eauto].
  intros [H | [H | H]]; discriminate.
Qed.

End MissingFileFacts.

(** C8.  The code when [master_biometric_data.csv] is missing:
    [run_ai_forecast] ends with the [FileNotFoundError] of
    [load_real_data], so none of its views is produced, whereas the views
    of [SankhyaDataProcessor] over the same files that need the biometric
    table are empty lists. *)
Theorem C8_missing_file_ai_forecaster (random_sample : Z -> Q)
    (today : AiForecaster.datetime) :
  AiForecaster.run_ai_forecast random_sample today Fixtures.no_biometric_files
    = AiForecaster.Raise
        (AiForecaster.FileNotFoundError "master_biometric_data.csv")
  /\ DataProcessor.get_migration_flows
       (DataProcessor._load_data Fixtures.no_biometric_files) = []
  /\ DataProcessor.detect_anomalies
       (DataProcessor._load_data Fixtures.no_biometric_files) = [].
Proof. repeat split. Qed.

(** ** Group keys *)

Lemma string_compare_refl (s : string) : String.compare s s = Eq.
Proof.
  pose proof (String.compare_antisym s s) as H.
  destruct (String.compare s s); simpl in H; congruence.
Qed.

#[export] Instance string_KeyOrdLaws : KeyOrdLaws string.
Proof.
  split.
  - intros a b. split.
    + apply String.compare_eq_iff.
    + intros ->. apply string_compare_refl.
  - apply String.compare_antisym.
  - intros a b c Hab Hbc. unfold klt in *. simpl in *.
    apply String_as_OT.cmp_lt in Hab, Hbc. apply String_as_OT.cmp_lt.
    eapply String_as_OT.lt_trans; eassumption.
Qed.

#[export] Instance pair_KeyOrdLaws {K1 K2} `{KeyOrdLaws K1} `{KeyOrdLaws K2}
  : KeyOrdLaws (K1 * K2).
Proof.
  split.
  - intros [a1 a2] [b1 b2]. simpl. split.
    + destruct (kcmp a1 b1) eqn:E1; try discriminate.
      intros E2. apply kcmp_eq in E1, E2. congruence.
    + intros [= -> ->].
      rewrite (proj2 (kcmp_eq b1 b1) eq_refl). now apply kcmp_eq.
  - intros [a1 a2] [b1 b2]. simpl.
    rewrite (kcmp_antisym a1 b1).
    destruct (kcmp b1 a1); simpl; [apply kcmp_antisym | reflexivity ..].
  - intros [a1 a2] [b1 b2] [c1 c2]. unfold klt. simpl.
    destruct (kcmp a1 b1) eqn:E1; try discriminate.
    + apply kcmp_eq in E1. subst b1.
      destruct (kcmp a1 c1) eqn:E2; try discriminate; [| reflexivity].
      intros Hab Hbc. exact (kcmp_trans _ _ _ Hab Hbc).
    + intros _.
      destruct (kcmp b1 c1) eqn:E2; try discriminate.
      * apply kcmp_eq in E2. subst c1. now rewrite E1.
      * intros _. now rewrite (kcmp_trans _ _ _ E1 E2).
Qed.

Section KeyFacts.
Context {K : Type} `{KeyOrdLaws K}.

Lemma kcmp_refl (a : K) : kcmp a a = Eq.
Proof. now apply kcmp_eq. Qed.

Lemma keqb_eq (a b : K) : keqb a b = true <-> a = b.
Proof.
  unfold keqb. rewrite <- kcmp_eq.
  destruct (kcmp a b); split; congruence.
Qed.

Lemma keqb_neq (a b : K) : keqb a b = false <-> a <> b.
Proof.
  rewrite <- keqb_eq. destruct (keqb a b); split; congruence.
Qed.

Lemma keqb_refl (a : K) : keqb a a = true.
Proof. now apply keqb_eq. Qed.

Lemma klt_irrefl (a : K) : ~ klt a a.
Proof. unfold klt. rewrite kcmp_refl. discriminate. Qed.

Lemma kcmp_gt_lt (a b : K) : kcmp a b = Gt -> klt b a.
Proof.
  unfold klt. rewrite (kcmp_antisym b a). intros ->. reflexivity.
Qed.

End KeyFacts.

(** ** groupby *)

Section GroupByFacts.
Context {K A V : Type} `{KeyOrdLaws K}.
Variable key : A -> K.
Variable init : A -> V.
Variable step : V -> A -> V.

Local Abbreviation ins := (Pandas.gb_insert key init step).
Local Abbreviation keys l := (List.map fst l).

Lemma gb_insert_keys_In (a : A) (acc : list (K * V)) (k : K) :
  In k (keys (ins a acc)) <-> k = key a \/ In k (keys acc).
Proof.
  induction acc as [| [k' v] rest IH]; simpl.
  - intuition congruence.
  - destruct (kcmp (key a) k') eqn:E; simpl.
    + apply kcmp_eq in E. subst k'. intuition congruence.
    + intuition congruence.
    + rewrite IH. intuition congruence.
Qed.

Lemma gb_insert_HdRel (a : A) (k' : K) (rest : list (K * V)) :
  klt k' (key a) -> HdRel klt k' (keys rest) ->
  HdRel klt k' (keys (ins a rest)).
Proof.
  intros Hlt Hhd. destruct rest as [| [k2 v2] rest]; simpl.
  - now constructor.
  - inversion Hhd; subst.
    destruct (kcmp (key a) k2); simpl; now constructor.
Qed.

Lemma gb_insert_sorted (a : A) (acc : list (K * V)) :
  Sorted klt (keys acc) -> Sorted klt (keys (ins a acc)).
Proof.
  induction acc as [| [k' v] rest IH]; simpl; intros Hs.
  - repeat constructor.
  - inversion Hs as [| ? ? Hrest Hhd]; subst.
    destruct (kcmp (key a) k') eqn:E; simpl.
    + now constructor.
    + constructor; [exact Hs | now constructor].
    + constructor; [now apply IH |].
      apply gb_insert_HdRel; [now apply kcmp_gt_lt | exact Hhd].
Qed.

Lemma fold_gb_insert_sorted (rows : list A) (acc : list (K * V)) :
  Sorted klt (keys acc) ->
  Sorted klt (keys (fold_left (fun acc a => ins a acc) rows acc)).
Proof.
  revert acc. induction rows as [| a rows IH]; simpl; intros acc Hs.
  - exact Hs.
  - apply IH, gb_insert_sorted, Hs.
Qed.

(** The groups come out in strictly ascending key order. *)
Lemma groupby_sorted (rows : list A) :
  StronglySorted klt (keys (Pandas.groupby key init step rows)).
Proof.
  apply Sorted_StronglySorted.
  - intros a b c. apply kcmp_trans.
  - apply fold_gb_insert_sorted. constructor.
Qed.

Lemma klt_sorted_NoDup (l : list K) : StronglySorted klt l -> List.NoDup l.
Proof.
  induction 1 as [| k l Hs IH Hall]; constructor; [| exact IH].
  intros Hin. rewrite List.Forall_forall in Hall.
  exact (klt_irrefl k (Hall k Hin)).
Qed.

(** No key comes twice. *)
Lemma groupby_NoDup (rows : list A) :
  List.NoDup (keys (Pandas.groupby key init step rows)).
Proof. apply klt_sorted_NoDup, groupby_sorted. Qed.

Lemma fold_gb_insert_keys_In (rows : list A) (acc : list (K * V)) (k : K) :
  In k (keys (fold_left (fun acc a => ins a acc) rows acc))
  <-> (exists a, In a rows /\ key a = k) \/ In k (keys acc).
Proof.
  revert acc. induction rows as [| a rows IH]; simpl; intros acc.
  - split; [tauto | intros [[a [[] _]] | Hin]; exact Hin].
  - rewrite IH, gb_insert_keys_In. split.
    + intros [[b [Hb Hk]] | [-> | Hin]]; eauto.
    + intros [[b [[-> | Hb] Hk]] | Hin]; eauto.
Qed.

(** A key is a group exactly when some row carries it. *)
Lemma groupby_keys_In (rows : list A) (k : K) :
  In k (keys (Pandas.groupby key init step rows))
  <-> exists a, In a rows /\ key a = k.
Proof.
  unfold Pandas.groupby. rewrite fold_gb_insert_keys_In. simpl. tauto.
Qed.

Lemma assoc_below (k : K) (acc : list (K * V)) :
  StronglySorted klt (keys acc) ->
  (forall k', In k' (keys acc) -> klt k k') ->
  Pandas.assoc k acc = None.
Proof.
  induction acc as [| [k' v] rest IH]; simpl; intros Hs Hlt; [reflexivity |].
  assert (Hk : keqb k k' = false).
  { apply keqb_neq. intros ->. apply (klt_irrefl k'). apply Hlt. now left. }
  rewrite Hk. inversion Hs; subst. apply IH; [assumption |].
  intros k2 Hin. apply Hlt. now right.
Qed.

Lemma assoc_gb_insert (a : A) (acc : list (K * V)) (k : K) :
  StronglySorted klt (keys acc) ->
  Pandas.assoc k (ins a acc)
  = if keqb k (key a)
    then Some (match Pandas.assoc k acc with
               | Some v => step v a
               | None => init a
               end)
    else Pandas.assoc k acc.
Proof.
  induction acc as [| [k' v] rest IH]; simpl; intros Hs.
  - reflexivity.
  - inversion Hs as [| ? ? Hrest Hall]; subst.
    destruct (kcmp (key a) k') eqn:E; simpl.
    + apply kcmp_eq in E. subst k'.
      destruct (keqb k (key a)); reflexivity.
    + destruct (keqb k (key a)) eqn:Eka; [| reflexivity].
      apply keqb_eq in Eka. subst k.
      assert (Hk : keqb (key a) k' = false).
      { apply keqb_neq. intros <-. now apply (klt_irrefl (key a)). }
      rewrite Hk.
      rewrite (assoc_below (key a) rest Hrest); [reflexivity |].
      intros k2 Hin. rewrite List.Forall_forall in Hall.
      exact (kcmp_trans _ _ _ E (Hall k2 Hin)).
    + rewrite (IH Hrest).
      destruct (keqb k k') eqn:Ekk; [| reflexivity].
      apply keqb_eq in Ekk. subst k'.
      assert (Hk : keqb k (key a) = false).
      { apply keqb_neq. intros ->. rewrite kcmp_refl in E. discriminate. }
      now rewrite Hk.
Qed.

Lemma fold_gb_insert_assoc (rows : list A) (acc : list (K * V)) (k : K) :
  StronglySorted klt (keys acc) ->
  Pandas.assoc k (fold_left (fun acc a => ins a acc) rows acc)
  = match Pandas.assoc k acc with
    | Some v =>
        Some (fold_left step
                (List.filter (fun a => keqb k (key a)) rows) v)
    | None => Pandas.agg_of init step (List.filter (fun a => keqb k (key a)) rows)
    end.
Proof.
  revert acc. induction rows as [| a rows IH]; simpl; intros acc Hs.
  - destruct (Pandas.assoc k acc); reflexivity.
  - rewrite IH.
    + rewrite (assoc_gb_insert a acc k Hs).
      destruct (keqb k (key a)); simpl; [| reflexivity].
      destruct (Pandas.assoc k acc); reflexivity.
    + apply Sorted_StronglySorted; [intros x y z; apply kcmp_trans |].
      apply gb_insert_sorted. now apply StronglySorted_Sorted.
Qed.

(** The entry of a key aggregates the rows that carry it. *)
Lemma assoc_groupby (rows : list A) (k : K) :
  Pandas.assoc k (Pandas.groupby key init step rows)
  = Pandas.agg_of init step (List.filter (fun a => keqb k (key a)) rows).
Proof.
  unfold Pandas.groupby. rewrite fold_gb_insert_assoc; [reflexivity |].
  constructor.
Qed.

End GroupByFacts.

(** ** Sorting by decreasing key, slices *)

Section SortFacts.
Context {A T : Type}.
Variable ltb : T -> T -> bool.
Variable key : A -> T.
(** [ge a b]: a key [a] may stand before a key [b]; [good] holds of the
    keys on which [ltb] is a total order (every key but NaN). *)
Variable ge : T -> T -> Prop.
Variable good : T -> Prop.
Hypothesis ge_trans :
  forall a b c, good a -> good b -> good c -> ge a b -> ge b c -> ge a c.
Hypothesis ltb_true : forall a b, good a -> good b -> ltb a b = true -> ge b a.
Hypothesis ltb_false :
  forall a b, good a -> good b -> ltb a b = false -> ge a b.

Local Abbreviation before := (fun x y : A => ge (key x) (key y)).

Lemma insert_desc_Permutation (x : A) (l : list A) :
  Permutation (x :: l) (Pandas.insert_desc ltb key x l).
Proof.
  induction l as [| y l IH]; simpl; [reflexivity |].
  destruct (ltb (key x) (key y)); [| reflexivity].
  rewrite perm_swap. now apply perm_skip.
Qed.

Lemma sort_desc_Permutation (l : list A) :
  Permutation l (Pandas.sort_desc ltb key l).
Proof.
  induction l as [| x l IH]; simpl; [reflexivity |].
  rewrite <- insert_desc_Permutation. now apply perm_skip.
Qed.

Lemma sort_desc_In (l : list A) (x : A) :
  In x (Pandas.sort_desc ltb key l) <-> In x l.
Proof.
  split; apply Permutation_in;
    [symmetry |]; apply sort_desc_Permutation.
Qed.

Lemma insert_desc_sorted (x : A) (l : list A) :
  good (key x) -> List.Forall (fun y => good (key y)) l ->
  StronglySorted before l ->
  StronglySorted before (Pandas.insert_desc ltb key x l).
Proof.
  intros Hx Hgood Hs.
  induction Hs as [| y l Hs IH Hall]; simpl.
  - repeat constructor.
  - inversion Hgood as [| ? ? Hy Hl]; subst.
    destruct (ltb (key x) (key y)) eqn:E.
    + constructor; [now apply IH |].
      apply List.Forall_forall. intros z Hz.
      apply (Permutation_in _ (Permutation_sym (insert_desc_Permutation x l)))
        in Hz.
      destruct Hz as [<- | Hz].
      * now apply ltb_true.
      * rewrite List.Forall_forall in Hall. now apply Hall.
    + constructor; [now constructor |].
      constructor; [now apply ltb_false |].
      apply List.Forall_forall. intros z Hz.
      rewrite List.Forall_forall in Hall, Hl.
      apply (ge_trans _ (key y)); auto.
Qed.

Lemma sort_desc_sorted (l : list A) :
  List.Forall (fun y => good (key y)) l ->
  StronglySorted before (Pandas.sort_desc ltb key l).
Proof.
  induction l as [| x l IH]; simpl; intros Hgood; [constructor |].
  inversion Hgood as [| ? ? Hx Hl]; subst.
  apply insert_desc_sorted; auto.
  apply List.Forall_forall. intros y Hy.
  apply (proj1 (sort_desc_In l y)) in Hy.
  rewrite List.Forall_forall in Hl. now apply Hl.
Qed.

End SortFacts.

Section SliceFacts.
Context {A : Type}.

Lemma slice_to_firstn (n : Z) (l : list A) :
  0 <= n -> Pandas.slice_to n l = firstn (Z.to_nat n) l.
Proof.
  intros Hn. unfold Pandas.slice_to.
  destruct (Z.leb_spec 0 n); [reflexivity | lia].
Qed.

Lemma slice_to_length (n : Z) (l : list A) :
  0 <= n -> Z.of_nat (length (Pandas.slice_to n l)) <= n.
Proof.
  intros Hn. rewrite slice_to_firstn by exact Hn.
  pose proof (List.firstn_le_length (Z.to_nat n) l).
  rewrite List.length_firstn. lia.
Qed.

Lemma firstn_In (n : nat) (l : list A) (x : A) :
  In x (firstn n l) -> In x l.
Proof.
  intros Hin. rewrite <- (List.firstn_skipn n l).
  apply List.in_or_app. now left.
Qed.

Lemma firstn_StronglySorted (R : A -> A -> Prop) (n : nat) (l : list A) :
  StronglySorted R l -> StronglySorted R (firstn n l).
Proof.
  intros Hs. revert n.
  induction Hs as [| x l Hs IH Hall]; intros [| n]; simpl;
    try constructor.
  - apply IH.
  - apply List.Forall_forall. intros y Hy. apply firstn_In in Hy.
    rewrite List.Forall_forall in Hall. now apply Hall.
Qed.

End SliceFacts.

(** ** The order of floats away from NaN *)

Section FnumOrderFacts.
Local Open Scope Q_scope.

Lemma Qle_bool_trans (a b c : Q) :
  Qle_bool a b = true -> Qle_bool b c = true -> Qle_bool a c = true.
Proof. rewrite !Qle_bool_iff. intros. lra. Qed.

Lemma fle_trans (a b c : fnum) :
  fle a b = true -> fle b c = true -> fle a c = true.
Proof.
  destruct a, b, c; simpl; try congruence. apply Qle_bool_trans.
Qed.

Lemma flt_fle (a b : fnum) : flt a b = true -> fle a b = true.
Proof.
  destruct a, b; simpl; try congruence.
  rewrite Qltb_lt, Qle_bool_iff. intros. lra.
Qed.

Lemma not_flt_fle (a b : fnum) :
  not_nan a -> not_nan b -> flt a b = false -> fle b a = true.
Proof.
  unfold not_nan. destruct a, b; simpl; try congruence.
  rewrite Qltb_ge, Qle_bool_iff. tauto.
Qed.

Lemma fabs_not_nan (x : fnum) : not_nan x -> not_nan (fabs x).
Proof. destruct x; simpl; auto. Qed.

Lemma round1_not_nan (x : fnum) : not_nan x -> not_nan (round1 x).
Proof. destruct x; simpl; auto. Qed.

Lemma fillna0_not_nan (x : fnum) : not_nan (DataProcessor.fillna0 x).
Proof. destruct x; reflexivity. Qed.

End FnumOrderFacts.

Section GroupByValues.
Context {K A V : Type} `{KeyOrd K}.
Variable key : A -> K.
Variable init : A -> V.
Variable step : V -> A -> V.
Variable P : V -> Prop.
Hypothesis P_init : forall a, P (init a).
Hypothesis P_step : forall v a, P v -> P (step v a).



End GroupByValues.

(** ** The anomaly detectors *)

Section AnomalyFacts.
Local Open Scope Q_scope.

(** *** generate_anomalies *)

Lemma gen_emitted_In (deviation : Z -> Z -> Q)
    (bio_df : list GenerateData.Bio.row)
    (demo_df : list GenerateData.Demo.row) (a : GenerateData.Anomaly.row) :
  In a (GenerateData.emitted_anomalies_with deviation bio_df demo_df)
  <-> exists m, In m (GenerateData.merged bio_df demo_df)
        /\ 40 < Qabs (GenerateData.merged_deviation_with deviation m)
        /\ a = GenerateData.anomaly_with deviation m.
Proof.
  unfold GenerateData.emitted_anomalies_with.
  rewrite List.in_map_iff. split.
  - intros [m [<- Hm]]. apply List.filter_In in Hm as [Hin Hd].
    apply Qltb_lt in Hd. eauto.
  - intros [m (Hin & Hd & ->)]. exists m. split; [reflexivity |].
    apply List.filter_In. split; [exact Hin | now apply Qltb_lt].
Qed.

Lemma gen_anomaly_class (deviation : Z -> Z -> Q)
    (m : GenerateData.Bio.row * GenerateData.Demo.row) :
  let a := GenerateData.anomaly_with deviation m in
  let d := GenerateData.merged_deviation_with deviation m in
  GenerateData.Anomaly.deviation a = d
  /\ (0 < d -> GenerateData.Anomaly.type a = "surge")
  /\ (d < 0 -> GenerateData.Anomaly.type a = "drop")
  /\ (80 < Qabs d -> GenerateData.Anomaly.severity a = "critical")
  /\ (Qabs d <= 80 -> GenerateData.Anomaly.severity a = "warning").
Proof.
  cbv zeta. unfold GenerateData.anomaly_with.
  cbn [GenerateData.Anomaly.deviation GenerateData.Anomaly.type
       GenerateData.Anomaly.severity].
  set (d := GenerateData.merged_deviation_with deviation m).
  destruct (Qltb_spec 0 d), (Qltb_spec 80 (Qabs d));
    repeat split; intros; try reflexivity; lra.
Qed.

Lemma gen_ranked (deviation : Z -> Z -> Q)
    (bio_df : list GenerateData.Bio.row)
    (demo_df : list GenerateData.Demo.row) :
  exists ranked,
    Permutation ranked
      (GenerateData.emitted_anomalies_with deviation bio_df demo_df)
    /\ StronglySorted
         (fun x y => Qabs (GenerateData.Anomaly.deviation y)
                     <= Qabs (GenerateData.Anomaly.deviation x)) ranked
    /\ GenerateData.generate_anomalies_with deviation bio_df demo_df
       = firstn 20 ranked.
Proof.
  exists (Pandas.sort_desc Qltb
            (fun a => Qabs (GenerateData.Anomaly.deviation a))
            (GenerateData.emitted_anomalies_with deviation bio_df demo_df)).
  split; [| split].
  - symmetry. apply sort_desc_Permutation.
  - apply (sort_desc_sorted Qltb _ (fun a b => b <= a) (fun _ => True)).
    + intros a b c _ _ _ Hab Hbc. lra.
    + intros a b _ _ Hlt. apply Qltb_lt in Hlt. lra.
    + intros a b _ _ Hge. now apply Qltb_ge in Hge.
    + apply List.Forall_forall. intros; exact I.
  - reflexivity.
Qed.

(** *** detect_anomalies *)



Lemma dp_emitted_In (df : list Biometric.row) (a : DataProcessor.Anomaly.row) :
  In a (DataProcessor.emitted_anomalies df)
  <-> exists g, In g (DataProcessor.biometric_groups df)
        /\ fgt (fabs (DataProcessor.deviation_of (fst (snd g)) (snd (snd g))))
               (Fin 40) = true
        /\ a = DataProcessor.anomaly_of g.
Proof.
  unfold DataProcessor.emitted_anomalies.
  rewrite List.in_map_iff. split.
  - intros [g [<- Hg]]. apply List.filter_In in Hg as [Hin Hd]. eauto.
  - intros [g (Hin & Hd & ->)]. exists g. split; [reflexivity |].
    apply List.filter_In. split; assumption.
Qed.


Lemma dp_emitted_not_nan (df : list Biometric.row) :
  List.Forall
    (fun a => not_nan (fabs (DataProcessor.Anomaly.deviation a)))
    (DataProcessor.emitted_anomalies df).
Proof.
  apply List.Forall_forall. intros a Ha.
  apply dp_emitted_In in Ha as [[[st di] [total count]] (_ & _ & ->)].
  simpl. apply fabs_not_nan, round1_not_nan, fillna0_not_nan.
Qed.

Lemma dp_ranked (self : DataProcessor.processor) (df : list Biometric.row) :
  DataProcessor.biometric_df self = Some df ->
  exists ranked,
    Permutation ranked (DataProcessor.emitted_anomalies df)
    /\ StronglySorted
         (fun x y => fle (fabs (DataProcessor.Anomaly.deviation y))
                         (fabs (DataProcessor.Anomaly.deviation x)) = true)
         ranked
    /\ DataProcessor.detect_anomalies self = firstn 10 ranked.
Proof.
  intros Hdf.
  exists (Pandas.sort_desc flt
            (fun x => fabs (DataProcessor.Anomaly.deviation x))
            (DataProcessor.emitted_anomalies df)).
  split; [| split].
  - symmetry. apply sort_desc_Permutation.
  - apply (sort_desc_sorted flt _ (fun a b => fle b a = true) not_nan).
    + intros a b c _ _ _ Hab Hbc. exact (fle_trans _ _ _ Hbc Hab).
    + intros a b _ _. apply flt_fle.
    + intros a b. apply not_flt_fle.
    + apply dp_emitted_not_nan.
  - unfold DataProcessor.detect_anomalies. rewrite Hdf. reflexivity.
Qed.

End AnomalyFacts.

(** C4.  [generate_anomalies] labels a deviation critical above 80 per
    cent, not above 60: with 100 expected updates (5 per cent of 2000
    inhabitants), 170 actual updates deviate by 70 per cent and the
    record is emitted with the severity warning; 145 actual updates
    deviate by 45 per cent, a warning as well.  Both records are
    surges and the larger deviation comes first. *)
Theorem C4_generate_anomalies_cutoff :
  let anomalies :=
    GenerateData.generate_anomalies
      (GenerateData.aggregate_biometric Fixtures.anomaly_bio)
      (GenerateData.aggregate_demographic Fixtures.anomaly_demo) in
  List.map (fun d => (GenerateData.Demo.district d,
                      GenerateData.Demo.total_population d))
    (GenerateData.aggregate_demographic Fixtures.anomaly_demo)
  = [("A", 2000); ("B", 2000)]
  /\ List.map (fun b => (GenerateData.Bio.district b,
                         GenerateData.Bio.total_updates b))
       (GenerateData.aggregate_biometric Fixtures.anomaly_bio)
     = [("A", 170); ("B", 145)]
  /\ (GenerateData.expected_of 2000 == 100)%Q
  /\ (GenerateData.exact_deviation 170 2000 == 70)%Q
  /\ (GenerateData.exact_deviation 145 2000 == 45)%Q
  /\ anomalies
     = [ {| GenerateData.Anomaly.state := "S";
            GenerateData.Anomaly.district := "A";
            GenerateData.Anomaly.deviation := 70.0;
            GenerateData.Anomaly.type := "surge";
            GenerateData.Anomaly.severity := "warning" |};
         {| GenerateData.Anomaly.state := "S";
            GenerateData.Anomaly.district := "B";
            GenerateData.Anomaly.deviation := 45.0;
            GenerateData.Anomaly.type := "surge";
            GenerateData.Anomaly.severity := "warning" |} ]
  /\ ~ List.Forall
         (fun a => Spec.severity_rule (GenerateData.Anomaly.deviation a)
                     (GenerateData.Anomaly.severity a))
         anomalies.
Proof.
  cbv zeta.
  assert (Hout : GenerateData.generate_anomalies
       (GenerateData.aggregate_biometric Fixtures.anomaly_bio)
       (GenerateData.aggregate_demographic Fixtures.anomaly_demo)
     = [ {| GenerateData.Anomaly.state := "S";
            GenerateData.Anomaly.district := "A";
            GenerateData.Anomaly.deviation := 70.0;
            GenerateData.Anomaly.type := "surge";
            GenerateData.Anomaly.severity := "warning" |};
         {| GenerateData.Anomaly.state := "S";
            GenerateData.Anomaly.district := "B";
            GenerateData.Anomaly.deviation := 45.0;
            GenerateData.Anomaly.type := "surge";
            GenerateData.Anomaly.severity := "warning" |} ])
    by (vm_compute; reflexivity).
  repeat (split; [vm_compute; reflexivity |]).
  rewrite Hout. intros Hall.
  inversion Hall as [| ? ? [Hcrit _] _]; subst.
  cbn [GenerateData.Anomaly.deviation GenerateData.Anomaly.severity] in Hcrit.
  assert (H60 : (60 < Qabs 70.0)%Q) by (vm_compute; reflexivity).
  specialize (Hcrit H60). discriminate.
Qed.

(** ** calculate_dsi without data *)

Section NoDataFacts.
Import DataProcessor.

Lemma filter_nil {A} (f : A -> bool) (l : list A) :
  (forall x, In x l -> f x = false) -> List.filter f l = [].
Proof.
  induction l as [| x l IH]; simpl; intros Hf; [reflexivity |].
  rewrite (Hf x (or_introl eq_refl)). apply IH. auto.
Qed.

Lemma select_unknown_district (df : list Demographic.row)
    (district : string) (state : option string) :
  (forall r, In r df -> Demographic.district r <> district) ->
  select df district state = [].
Proof.
  intros Hno. unfold select.
  destruct (truthy state); apply filter_nil; intros r Hr;
    specialize (Hno r Hr); apply String.eqb_neq in Hno; now rewrite Hno.
Qed.

Lemma short_dict_fields (status : string) :
  let result : gmap string pyval :=
    {[ "dsi" := VInt 0; "status" := VStr status ]} in
  result !! "dsi" = Some (VInt 0)
  /\ result !! "status" = Some (VStr status)
  /\ result !! "volume" = None
  /\ result !! "capacity" = None
  /\ result !! "adult_percent" = None.
Proof. cbv zeta. repeat split; by simplify_map_eq. Qed.

End NoDataFacts.

(** C9.  [calculate_dsi] answers [{dsi: 0, status: 'no_data'}] when no
    demographic table is loaded and [{dsi: 0, status: 'not_found'}] for a
    district that no row of the table carries; either status is outside
    low, medium, critical, and the dict has no [volume], [capacity] or
    [adult_percent] key. *)
Theorem C9_calculate_dsi_without_data
    (self : DataProcessor.processor) (df : list Demographic.row)
    (district : string) (state : option string) :
  (DataProcessor.demographic_df self = None ->
     let result := DataProcessor.calculate_dsi self district state in
     result = {[ "dsi" := DataProcessor.VInt 0;
                 "status" := DataProcessor.VStr "no_data" ]}
     /\ result !! "dsi" = Some (DataProcessor.VInt 0)
     /\ result !! "status" = Some (DataProcessor.VStr "no_data")
     /\ result !! "volume" = None
     /\ result !! "capacity" = None
     /\ result !! "adult_percent" = None)
  /\ (DataProcessor.demographic_df self = Some df ->
      (forall r, In r df -> Demographic.district r <> district) ->
      let result := DataProcessor.calculate_dsi self district state in
      result = {[ "dsi" := DataProcessor.VInt 0;
                  "status" := DataProcessor.VStr "not_found" ]}
      /\ result !! "dsi" = Some (DataProcessor.VInt 0)
      /\ result !! "status" = Some (DataProcessor.VStr "not_found")
      /\ result !! "volume" = None
      /\ result !! "capacity" = None
      /\ result !! "adult_percent" = None)
  /\ ~ In "no_data" ["low"; "medium"; "critical"]
  /\ ~ In "not_found" ["low"; "medium"; "critical"].
Proof.
  split; [| split; [| split]].
  - intros Hnone. cbv zeta.
    assert (E : DataProcessor.calculate_dsi self district state
                = {[ "dsi" := DataProcessor.VInt 0;
                     "status" := DataProcessor.VStr "no_data" ]}).
    { unfold DataProcessor.calculate_dsi. now rewrite Hnone. }
    rewrite E. split; [reflexivity |]. apply short_dict_fields.
  - intros Hdf Hno. cbv zeta.
    assert (E : DataProcessor.calculate_dsi self district state
                = {[ "dsi" := DataProcessor.VInt 0;
                     "status" := DataProcessor.VStr "not_found" ]}).
    { unfold DataProcessor.calculate_dsi. rewrite Hdf.
      now rewrite (select_unknown_district df district state Hno). }
    rewrite E. split; [reflexivity |]. apply short_dict_fields.
  - simpl. intros [H | [H | [H | []]]]; discriminate.
  - simpl. intros [H | [H | [H | []]]]; discriminate.
Qed.

Lemma C9_calculate_dsi_without_data_witness :
  DataProcessor.calculate_dsi Fixtures.small_processor "Q" None
    !! "status" = Some (DataProcessor.VStr "not_found")
  /\ DataProcessor.calculate_dsi
       (DataProcessor._load_data
          {| master_demographic_data := None;
             master_enrolment_data := None;
             master_biometric_data := None |}) "A" (Some "S")
     !! "status" = Some (DataProcessor.VStr "no_data").
Proof.
  split.
  - destruct (C9_calculate_dsi_without_data Fixtures.small_processor
                Fixtures.small_demo "Q" None) as (_ & Hfound & _).
    apply Hfound.
    + reflexivity.
    + intros r [<- | []]. discriminate.
  - destruct (C9_calculate_dsi_without_data
                (DataProcessor._load_data
                   {| master_demographic_data := None;
                      master_enrolment_data := None;
                      master_biometric_data := None |})
                [] "A" (Some "S")) as (Hnone & _).
    apply Hnone. reflexivity.
Defined.

(** ** The ranking of stressed districts *)

Section RankingFacts.
Local Open Scope Q_scope.
Import DataProcessor.

(** A result dict names the district and state it was asked for. *)
Lemma calculate_dsi_names (self : processor) (district state st di : string) :
  calculate_dsi self district (Some state) !! "state" = Some (VStr st) ->
  calculate_dsi self district (Some state) !! "district" = Some (VStr di) ->
  st = state /\ di = district.
Proof.
  unfold calculate_dsi.
  destruct (demographic_df self) as [df |]; [| intros; simplify_map_eq].
  destruct (select df district (Some state)); intros Hs Hd;
    simplify_map_eq; auto.
Qed.

Lemma stressed_results_In (self : processor)
    (agg : list ((string * string) * (Z * Z))) (x : gmap string pyval) :
  In x (stressed_results self agg)
  <-> exists g, In g (firstn 100 agg)
        /\ x = calculate_dsi self (snd (fst g)) (Some (fst (fst g)))
        /\ 0 < pynum (x !! "dsi").
Proof.
  unfold stressed_results. rewrite List.filter_In, List.in_map_iff. split.
  - intros [[g [<- Hg]] Hpos]. apply Qltb_lt in Hpos. eauto.
  - intros [g (Hg & -> & Hpos)]. split; [eauto | now apply Qltb_lt].
Qed.

Lemma stressed_ranked (self : processor) (df : list Demographic.row)
    (limit : Z) :
  demographic_df self = Some df -> (0 <= limit)%Z ->
  exists ranked,
    Permutation ranked (stressed_results self (demographic_groups df))
    /\ StronglySorted
         (fun x y => pynum (y !! "dsi") <= pynum (x !! "dsi")) ranked
    /\ get_top_stressed_districts self limit
       = firstn (Z.to_nat limit) ranked.
Proof.
  intros Hdf Hlimit.
  exists (Pandas.sort_desc Qltb (fun x : gmap string pyval => pynum (x !! "dsi"))
            (stressed_results self (demographic_groups df))).
  split; [| split].
  - symmetry. apply sort_desc_Permutation.
  - apply (sort_desc_sorted Qltb _ (fun a b => b <= a) (fun _ => True)).
    + intros a b c _ _ _ Hab Hbc. lra.
    + intros a b _ _ Hlt. apply Qltb_lt in Hlt. lra.
    + intros a b _ _ Hge. now apply Qltb_ge in Hge.
    + apply List.Forall_forall. intros; exact I.
  - unfold get_top_stressed_districts. rewrite Hdf.
    now apply slice_to_firstn.
Qed.

End RankingFacts.

(** C10.  [get_top_stressed_districts] computes the index of the first
    100 groups of the (state, district) aggregation, which come in
    ascending key order, keeps the results whose reported index is above
    0, and returns the first [limit] of them in decreasing order of the
    index; a district outside the first 100 groups is in no result,
    whatever its index. *)
Theorem C10_top_stressed_districts
    (self : DataProcessor.processor) (df : list Demographic.row) (limit : Z) :
  DataProcessor.demographic_df self = Some df ->
  0 <= limit ->
  let agg := DataProcessor.demographic_groups df in
  let out := DataProcessor.get_top_stressed_districts self limit in
  StronglySorted klt (List.map fst agg)
  /\ (exists ranked,
        Permutation ranked (DataProcessor.stressed_results self agg)
        /\ StronglySorted
             (fun x y => (DataProcessor.pynum (y !! "dsi")
                          <= DataProcessor.pynum (x !! "dsi"))%Q) ranked
        /\ out = firstn (Z.to_nat limit) ranked)
  /\ (forall x,
        In x (DataProcessor.stressed_results self agg)
        <-> exists g, In g (firstn 100 agg)
              /\ x = DataProcessor.calculate_dsi self (snd (fst g))
                       (Some (fst (fst g)))
              /\ (0 < DataProcessor.pynum (x !! "dsi"))%Q)
  /\ (forall x, In x out ->
        (exists g, In g (firstn 100 agg)
           /\ x = DataProcessor.calculate_dsi self (snd (fst g))
                    (Some (fst (fst g))))
        /\ ~ (DataProcessor.pynum (x !! "dsi") == 0)%Q)
  /\ Z.of_nat (length out) <= limit
  /\ StronglySorted
       (fun x y => (DataProcessor.pynum (y !! "dsi")
                    <= DataProcessor.pynum (x !! "dsi"))%Q) out
  /\ (forall st di,
        ~ In (st, di) (List.map fst (firstn 100 agg)) ->
        forall x, In x out ->
          ~ (x !! "state" = Some (DataProcessor.VStr st)
             /\ x !! "district" = Some (DataProcessor.VStr di))).
Proof.
  intros Hdf Hlimit agg out.
  destruct (stressed_ranked self df limit Hdf Hlimit)
    as (ranked & Hperm & Hsorted & Hout).
  fold agg in Hperm. fold out in Hout.
  assert (Hin : forall x, In x out ->
            exists g, In g (firstn 100 agg)
              /\ x = DataProcessor.calculate_dsi self (snd (fst g))
                       (Some (fst (fst g)))
              /\ (0 < DataProcessor.pynum (x !! "dsi"))%Q).
  { intros x Hx. rewrite Hout in Hx. apply firstn_In in Hx.
    apply (Permutation_in _ Hperm) in Hx.
    now apply stressed_results_In in Hx. }
  split; [apply groupby_sorted |].
  split; [now exists ranked |].
  split; [apply stressed_results_In |].
  split; [| split; [| split]].
  - intros x Hx. destruct (Hin x Hx) as (g & Hg & Hx' & Hpos).
    split; [eauto | lra].
  - unfold out, DataProcessor.get_top_stressed_districts. rewrite Hdf.
    now apply slice_to_length.
  - rewrite Hout. now apply firstn_StronglySorted.
  - intros st di Hnot x Hx [Hst Hdi].
    destruct (Hin x Hx) as ([[st' di'] sums] & Hg & -> & _).
    simpl in Hst, Hdi.
    destruct (calculate_dsi_names self di' st' st di Hst Hdi) as [-> ->].
    apply Hnot. apply List.in_map_iff. exists ((st', di'), sums). auto.
Qed.

Lemma C10_top_stressed_districts_witness :
  Z.of_nat (length (DataProcessor.get_top_stressed_districts
                      Fixtures.many_districts_processor 20)) <= 20
  /\ forall x,
       In x (DataProcessor.get_top_stressed_districts
               Fixtures.many_districts_processor 20) ->
       ~ (x !! "state" = Some (DataProcessor.VStr "S")
          /\ x !! "district"
             = Some (DataProcessor.VStr (Fixtures.district_name 100))).
Proof.
  destruct (C10_top_stressed_districts Fixtures.many_districts_processor
              Fixtures.many_districts 20 eq_refl)
    as (_ & _ & _ & _ & Hlen & _ & Hout).
  - lia.
  - split; [exact Hlen |].
    apply Hout. vm_compute.
    intros H. repeat (destruct H as [H | H]; [discriminate H |]).
    exact H.
Defined.

(** The district with 1000 adults has the reported index 10, the cap,
    yet is not ranked: it is the 101st group. *)
Example top_stressed_skips_group_101 :
  DataProcessor.calculate_dsi Fixtures.many_districts_processor
    (Fixtures.district_name 100) (Some "S") !! "dsi"
  = Some (DataProcessor.VFloat (1000 # 100))
  /\ List.map (fun x => x !! "dsi")
       (DataProcessor.get_top_stressed_districts
          Fixtures.many_districts_processor 3)
     = [ Some (DataProcessor.VFloat (100 # 100));
         Some (DataProcessor.VFloat (100 # 100));
         Some (DataProcessor.VFloat (100 # 100)) ].
Proof. split; vm_compute; reflexivity. Qed.

(** ** Migration corridors *)

Section CorridorFacts.
Local Open Scope Q_scope.
Import GenerateData.






End CorridorFacts.



(** ** The seven-day forecast *)

Section ForecastFacts.
Local Open Scope Q_scope.
Import AiForecaster.


Variable random_sample : Z -> Q.
Hypothesis random_sample_range : forall seed, 0 <= random_sample seed < 1.

Lemma uniform_range (seed : Z) :
  0.95 <= uniform_after_seed random_sample seed 0.95 1.05 <= 1.05.
Proof.
  unfold uniform_after_seed.
  destruct (random_sample_range seed). split; lra.
Qed.




End ForecastFacts.

(** Whatever the generator draws, with a base of 4.5 a day the predicted
    value for Monday 6 January 2025 lies between 6.14 and 6.80: the point
    is 6 transactions with estimates 5 and 7. *)
Lemma forecast_for_any_draw (random_sample : Z -> Q) :
  (forall seed, 0 <= random_sample seed < 1)%Q ->
  exists r rest,
    AiForecaster.generate_7day_forecast random_sample
      Fixtures.monday_2025_01_06 Fixtures.base_4_5 = r :: rest
    /\ AiForecaster.Forecast.predicted_transactions r = 6
    /\ AiForecaster.Forecast.low_estimate r = 5
    /\ AiForecaster.Forecast.high_estimate r = 7.
Proof.
  intros Hrange.
  eexists. eexists. split; [reflexivity |].
  unfold AiForecaster.forecast_of. cbv zeta.
  cbn [AiForecaster.Forecast.high_estimate AiForecaster.Forecast.low_estimate
       AiForecaster.Forecast.predicted_transactions].
  set (p := AiForecaster.predicted_demand_of random_sample
              Fixtures.monday_2025_01_06 Fixtures.base_4_5 0).
  assert (Hp : (6.14 <= p /\ p <= 6.80)%Q).
  { unfold p, AiForecaster.predicted_demand_of. cbv zeta.
    pose proof (uniform_range random_sample Hrange
                  (0 + AiForecaster.day Fixtures.monday_2025_01_06)) as [H1 H2].
    set (v := AiForecaster.uniform_after_seed _ _ _ _) in *. clearbody v.
    change (AiForecaster.base_daily_of Fixtures.base_4_5) with (135 / 30)%Q.
    change (AiForecaster.dow_factors
              (AiForecaster.weekday
                 (AiForecaster.toordinal Fixtures.monday_2025_01_06 + 0)))
      with 1.15%Q.
    change (AiForecaster.seasonal_factor_of
              (AiForecaster.month Fixtures.monday_2025_01_06)) with 1.25%Q.
    change (inject_Z 0) with 0%Q.
    qconst_inv. split; lra. }
  destruct Hp as [Hlo Hhi]. clearbody p.
  assert (Hfloor : forall (x : Q) (n : Z),
            (0 <= n)%Z ->
            (inject_Z n <= x)%Q -> (x < inject_Z (n + 1))%Q -> Qtrunc x = n).
  { intros x n Hn0 H1 H2.
    assert (H0 : (0 <= x)%Q).
    { assert ((inject_Z 0 <= inject_Z n)%Q) by now rewrite <- Zle_Qle.
      change (inject_Z 0) with 0%Q in *. lra. }
    rewrite (Qtrunc_nonneg x H0).
    pose proof (Qfloor_le x) as Hfl. pose proof (Qlt_floor x) as Hfu.
    assert (Ha : (inject_Z (Qfloor x) < inject_Z (n + 1))%Q) by lra.
    assert (Hb : (inject_Z n < inject_Z (Qfloor x + 1))%Q) by lra.
    rewrite <- Zlt_Qlt in Ha, Hb. lia. }
  repeat split; apply Hfloor; try lia;
    change (inject_Z (6 + 1)) with 7%Q; change (inject_Z (5 + 1)) with 6%Q;
    change (inject_Z (7 + 1)) with 8%Q; change (inject_Z 6) with 6%Q;
    change (inject_Z 5) with 5%Q; change (inject_Z 7) with 7%Q; lra.
Qed.


(** The scenario of the specification, a base of 1000 a day, with a draw
    that makes the perturbation 1: the predicted value is 1437.5. *)
Example forecast_base_1000 :
  List.map (fun r => (AiForecaster.Forecast.predicted_transactions r,
                      AiForecaster.Forecast.low_estimate r,
                      AiForecaster.Forecast.high_estimate r))
    (firstn 1 (AiForecaster.generate_7day_forecast Fixtures.draw_half
                 Fixtures.monday_2025_01_06 Fixtures.base_1000))
  = [ (1437, 1221, 1653) ].
Proof. vm_compute. reflexivity. Qed.

Section ForecastRows.
Local Open Scope Q_scope.
Import AiForecaster.

Variable random_sample : Z -> Q.
Hypothesis random_sample_range : forall seed, 0 <= random_sample seed < 1.


End ForecastRows.



(** ** Quantiles *)

Section QuantileFacts.
Local Open Scope Q_scope.

Lemma insert_asc_Permutation (x : Q) (l : list Q) :
  Permutation (x :: l) (Pandas.insert_asc x l).
Proof.
  induction l as [| y l IH]; simpl; [reflexivity |].
  destruct (Qltb x y); [reflexivity |].
  rewrite perm_swap. now apply perm_skip.
Qed.


Lemma insert_asc_sorted (x : Q) (l : list Q) :
  StronglySorted Qle l -> StronglySorted Qle (Pandas.insert_asc x l).
Proof.
  induction 1 as [| y l Hs IH Hall]; simpl.
  - repeat constructor.
  - destruct (Qltb_spec x y) as [Hlt | Hge].
    + constructor; [now constructor |].
      constructor; [lra |].
      apply List.Forall_forall. intros z Hz.
      rewrite List.Forall_forall in Hall. specialize (Hall z Hz). lra.
    + constructor; [exact IH |].
      apply List.Forall_forall. intros z Hz.
      apply (Permutation_in _ (Permutation_sym (insert_asc_Permutation x l)))
        in Hz.
      destruct Hz as [<- | Hz]; [lra |].
      rewrite List.Forall_forall in Hall. now apply Hall.
Qed.

(** The values are interpolated in ascending order. *)
Lemma sort_asc_sorted (l : list Q) : StronglySorted Qle (Pandas.sort_asc l).
Proof.
  induction l as [| x l IH]; simpl; [constructor |].
  now apply insert_asc_sorted.
Qed.

(** Position [0.8 * 5 = 4] among 1..6 is the value 5; position
    [0.2 * 3 = 0.6] among 0, 0, 10, 20 is 0. *)
Example quantile_examples :
  feq (Pandas.quantile 0.80 [3; 1; 6; 2; 5; 4]) (Fin 5)
  /\ feq (Pandas.quantile 0.20 [10; 0; 20; 0]) (Fin 0)
  /\ Pandas.quantile 0.80 [] = NaN.
Proof. repeat split; vm_compute; reflexivity. Qed.

End QuantileFacts.

(** ** The zone classifier *)

Section DropDuplicatesFacts.
Context {K A : Type} `{KeyOrdLaws K}.
Variable key : A -> K.

Lemma filter_filter_implied (P Q : A -> bool) (l : list A) :
  (forall x, P x = true -> Q x = true) ->
  List.filter P (List.filter Q l) = List.filter P l.
Proof.
  intros HPQ. induction l as [| x l IH]; simpl; [reflexivity |].
  destruct (Q x) eqn:EQ; simpl.
  - destruct (P x); now rewrite IH.
  - destruct (P x) eqn:EP; [| exact IH].
    rewrite (HPQ x EP) in EQ. discriminate.
Qed.

Lemma filter_filter_excluded (P Q : A -> bool) (l : list A) :
  (forall x, P x = true -> Q x = false) ->
  List.filter P (List.filter Q l) = [].
Proof.
  intros HPQ. induction l as [| x l IH]; simpl; [reflexivity |].
  destruct (Q x) eqn:EQ; simpl; [| exact IH].
  destruct (P x) eqn:EP; [| exact IH].
  rewrite (HPQ x EP) in EQ. discriminate.
Qed.

(** After [drop_duplicates] a key is carried by its first row only. *)
Lemma filter_key_drop_duplicates (k : K) (l : list A) :
  List.filter (fun y => keqb k (key y)) (Pandas.drop_duplicates key l)
  = match List.find (fun y => keqb k (key y)) l with
    | Some x => [x]
    | None => []
    end.
Proof.
  induction l as [| x l IH]; simpl; [reflexivity |].
  destruct (keqb k (key x)) eqn:E.
  - f_equal. apply filter_filter_excluded. intros y Hy.
    apply keqb_eq in E, Hy. subst. rewrite <- Hy.
    now rewrite keqb_refl.
  - rewrite filter_filter_implied; [exact IH |].
    intros y Hy. apply keqb_eq in Hy. apply negb_true_iff, keqb_neq.
    intros Heq. apply keqb_neq in E. apply E. congruence.
Qed.

Lemma find_app (P : A -> bool) (l1 l2 : list A) :
  List.find P (l1 ++ l2)
  = match List.find P l1 with
    | Some x => Some x
    | None => List.find P l2
    end.
Proof.
  induction l1 as [| x l1 IH]; simpl; [reflexivity |].
  destruct (P x); [reflexivity | exact IH].
Qed.

End DropDuplicatesFacts.

Section SelectionFacts.
Context {K A B : Type} `{KeyOrdLaws K}.
Variable key : A -> K.
Variable key' : B -> K.
Variable tag : A -> B.
Hypothesis key_tag : forall a, key' (tag a) = key a.

(** Among rows with pairwise distinct keys, the selection holds the
    tagged copy of a row exactly when the row is selected. *)
Lemma find_in_selection (sel : A -> bool) (l : list A) (r : A) :
  List.NoDup (List.map key l) -> In r l ->
  List.find (fun z => keqb (key r) (key' z))
    (List.map tag (List.filter sel l))
  = if sel r then Some (tag r) else None.
Proof.
  induction l as [| x l IH]; simpl; intros Hnd Hin; [contradiction |].
  inversion Hnd as [| ? ? Hx Hl]; subst.
  destruct Hin as [-> | Hin].
  - destruct (sel r) eqn:Es; simpl.
    + now rewrite key_tag, keqb_refl.
    + assert (Hnone : forall l', ~ In (key r) (List.map key l') ->
                List.find (fun z => keqb (key r) (key' z))
                  (List.map tag (List.filter sel l')) = None).
      { induction l' as [| y l' IH']; simpl; intros Hnot; [reflexivity |].
        destruct (sel y); simpl.
        - rewrite key_tag.
          assert (E : keqb (key r) (key y) = false)
            by (apply keqb_neq; intros Heq; apply Hnot; now left).
          rewrite E. apply IH'. tauto.
        - apply IH'. tauto. }
      now apply Hnone.
  - assert (Hne : keqb (key r) (key x) = false).
    { apply keqb_neq. intros Heq. apply Hx. rewrite <- Heq.
      now apply List.in_map. }
    destruct (sel x); simpl.
    + rewrite key_tag, Hne. now apply IH.
    + now apply IH.
Qed.

End SelectionFacts.

Section ZoneFacts.
Local Open Scope Q_scope.
Import AiForecaster.

Lemma quantile_finite (q : Q) (values : list Q) :
  values <> [] -> exists t, Pandas.quantile q values = Fin t.
Proof.
  destruct values as [| v values]; [congruence |].
  intros _. unfold Pandas.quantile. eauto.
Qed.

Lemma district_keys (demo_df : list Demographic.row)
    (bio_df : list Biometric.row) (enrol_df : list Enrolment.row) :
  List.map district_key (district_data_of demo_df bio_df enrol_df)
  = List.map fst
      (Pandas.groupby DataProcessor.demo_key
         (fun r => (Demographic.demo_age_5_17 r, Demographic.demo_age_17_ r))
         (fun s r => ((fst s + Demographic.demo_age_5_17 r)%Z,
                      (snd s + Demographic.demo_age_17_ r)%Z))
         demo_df).
Proof.
  unfold district_data_of. rewrite List.map_map.
  apply List.map_ext. intros [[st di] [s1 s2]]. reflexivity.
Qed.

(** One row per district. *)
Lemma district_data_NoDup (demo_df : list Demographic.row)
    (bio_df : list Biometric.row) (enrol_df : list Enrolment.row) :
  List.NoDup
    (List.map district_key (district_data_of demo_df bio_df enrol_df)).
Proof. rewrite district_keys. apply groupby_NoDup. Qed.

Lemma thresholds_finite (dd : list District.row) (r : District.row) :
  In r dd ->
  exists p80 p20,
    senior_threshold dd = Fin p80 /\ activity_threshold dd = Fin p20.
Proof.
  intros Hin. unfold senior_threshold, activity_threshold.
  destruct dd as [| x dd]; [contradiction |].
  destruct (quantile_finite 0.80 (List.map District.adult_ratio (x :: dd)))
    as [p80 H80]; [discriminate |].
  destruct (quantile_finite 0.20
              (List.map District.activity_per_capita (x :: dd)))
    as [p20 H20]; [discriminate |].
  eauto.
Qed.

Lemma blue_zones_In (dd : list District.row) (z : Zone.row) :
  In z (blue_zones_of dd)
  <-> exists r, In r dd /\ is_blue dd r = true /\ z = as_blue_zone r.
Proof.
  unfold blue_zones_of. rewrite List.in_map_iff. split.
  - intros [r [<- Hr]]. apply List.filter_In in Hr as [Hin Hb]. eauto.
  - intros [r (Hin & Hb & ->)]. exists r. split; [reflexivity |].
    now apply List.filter_In.
Qed.

Lemma dez_zones_In (dd : list District.row) (z : Zone.row) :
  In z (dez_zones_of dd)
  <-> exists r, In r dd /\ is_dez dd r = true /\ z = as_dez r.
Proof.
  unfold dez_zones_of. rewrite List.in_map_iff. split.
  - intros [r [<- Hr]]. apply List.filter_In in Hr as [Hin Hb]. eauto.
  - intros [r (Hin & Hb & ->)]. exists r. split; [reflexivity |].
    now apply List.filter_In.
Qed.

(** The rows of a district in the combined output. *)
Lemma zones_of_district (dd : list District.row) (r : District.row) :
  List.NoDup (List.map district_key dd) -> In r dd ->
  List.filter (fun z => keqb (district_key r) (zone_key z)) (zones_of dd)
  = if is_blue dd r then [as_blue_zone r]
    else if is_dez dd r then [as_dez r]
    else [].
Proof.
  intros Hnd Hin. unfold zones_of.
  rewrite filter_key_drop_duplicates, find_app.
  unfold blue_zones_of, dez_zones_of.
  rewrite (find_in_selection district_key zone_key as_blue_zone
             (fun a => eq_refl) (is_blue dd) dd r Hnd Hin).
  destruct (is_blue dd r); [reflexivity |].
  rewrite (find_in_selection district_key zone_key as_dez
             (fun a => eq_refl) (is_dez dd) dd r Hnd Hin).
  destruct (is_dez dd r); reflexivity.
Qed.

End ZoneFacts.

(** C5.  For a district of the run, with [p80] the 0.80 quantile of all
    adult ratios and [p20] the 0.20 quantile of all activities per capita:
    the district is in [blue_zones] exactly when its adult ratio is at
    least [p80] and in [dez_zones] exactly when its activity per capita is
    at most [p20]; every row of [blue_zones] is tagged blue_zone and
    every row of [dez_zones] dez; in the combined output the district has
    at most one row, its blue_zone row whenever it is in [blue_zones],
    also when it is in [dez_zones] too. *)
Theorem C5_zone_classifier
    (demo_df : list Demographic.row) (bio_df : list Biometric.row)
    (enrol_df : list Enrolment.row) (r : AiForecaster.District.row) :
  let dd := AiForecaster.district_data_of demo_df bio_df enrol_df in
  let zones := AiForecaster.calculate_blue_zone_dez demo_df bio_df enrol_df in
  let rows_of_r :=
    List.filter
      (fun z => keqb (AiForecaster.district_key r) (AiForecaster.zone_key z))
      zones in
  In r dd ->
  exists p80 p20 : Q,
    AiForecaster.senior_threshold dd = Fin p80
    /\ AiForecaster.activity_threshold dd = Fin p20
    /\ AiForecaster.senior_threshold dd
       = Pandas.quantile 0.80
           (List.map AiForecaster.District.adult_ratio dd)
    /\ AiForecaster.activity_threshold dd
       = Pandas.quantile 0.20
           (List.map AiForecaster.District.activity_per_capita dd)
    /\ (In (AiForecaster.as_blue_zone r) (AiForecaster.blue_zones_of dd)
        <-> (p80 <= AiForecaster.District.adult_ratio r)%Q)
    /\ (In (AiForecaster.as_dez r) (AiForecaster.dez_zones_of dd)
        <-> (AiForecaster.District.activity_per_capita r <= p20)%Q)
    /\ (forall z, In z (AiForecaster.blue_zones_of dd) ->
          AiForecaster.Zone.zone_type z = "blue_zone"
          /\ In (AiForecaster.Zone.data z) dd
          /\ (p80 <= AiForecaster.District.adult_ratio
                       (AiForecaster.Zone.data z))%Q)
    /\ (forall z, In z (AiForecaster.dez_zones_of dd) ->
          AiForecaster.Zone.zone_type z = "dez"
          /\ In (AiForecaster.Zone.data z) dd
          /\ (AiForecaster.District.activity_per_capita
                (AiForecaster.Zone.data z) <= p20)%Q)
    /\ ((p80 <= AiForecaster.District.adult_ratio r)%Q ->
        rows_of_r = [AiForecaster.as_blue_zone r])
    /\ ((AiForecaster.District.adult_ratio r < p80)%Q ->
        (AiForecaster.District.activity_per_capita r <= p20)%Q ->
        rows_of_r = [AiForecaster.as_dez r])
    /\ ((AiForecaster.District.adult_ratio r < p80)%Q ->
        (p20 < AiForecaster.District.activity_per_capita r)%Q ->
        rows_of_r = [])
    /\ zones
       = Pandas.drop_duplicates AiForecaster.zone_key
           (AiForecaster.blue_zones_of dd ++ AiForecaster.dez_zones_of dd).
Proof.
  intros dd zones rows_of_r Hin.
  destruct (thresholds_finite dd r Hin) as (p80 & p20 & H80 & H20).
  pose proof (district_data_NoDup demo_df bio_df enrol_df) as Hnd.
  fold dd in Hnd.
  assert (Hblue : forall x,
            AiForecaster.is_blue dd x = true
            <-> (p80 <= AiForecaster.District.adult_ratio x)%Q).
  { intros x. unfold AiForecaster.is_blue, fge. rewrite H80. simpl.
    apply Qle_bool_iff. }
  assert (Hdez : forall x,
            AiForecaster.is_dez dd x = true
            <-> (AiForecaster.District.activity_per_capita x <= p20)%Q).
  { intros x. unfold AiForecaster.is_dez. rewrite H20. simpl.
    apply Qle_bool_iff. }
  assert (Hrows : rows_of_r
                  = if AiForecaster.is_blue dd r
                    then [AiForecaster.as_blue_zone r]
                    else if AiForecaster.is_dez dd r
                         then [AiForecaster.as_dez r]
                         else []).
  { apply zones_of_district; assumption. }
  exists p80, p20.
  split; [exact H80 |]. split; [exact H20 |].
  split; [reflexivity |]. split; [reflexivity |].
  split; [| split; [| split; [| split; [| split; [| split; [| split]]]]]].
  - rewrite blue_zones_In, <- Hblue. split.
    + intros [x (_ & Hb & Heq)].
      apply (f_equal AiForecaster.Zone.data) in Heq. simpl in Heq.
      now subst x.
    + intros Hb. exists r. auto.
  - rewrite dez_zones_In, <- Hdez. split.
    + intros [x (_ & Hb & Heq)].
      apply (f_equal AiForecaster.Zone.data) in Heq. simpl in Heq.
      now subst x.
    + intros Hb. exists r. auto.
  - intros z Hz. apply blue_zones_In in Hz as [x (Hx & Hb & ->)].
    simpl. repeat split; [assumption | now apply Hblue].
  - intros z Hz. apply dez_zones_In in Hz as [x (Hx & Hb & ->)].
    simpl. repeat split; [assumption | now apply Hdez].
  - intros Hge. rewrite Hrows.
    now rewrite (proj2 (Hblue r) Hge).
  - intros Hlt Hle. rewrite Hrows.
    destruct (AiForecaster.is_blue dd r) eqn:Eb.
    + apply Hblue in Eb. lra.
    + now rewrite (proj2 (Hdez r) Hle).
  - intros Hlt Hgt. rewrite Hrows.
    destruct (AiForecaster.is_blue dd r) eqn:Eb.
    + apply Hblue in Eb. lra.
    + destruct (AiForecaster.is_dez dd r) eqn:Ed; [| reflexivity].
      apply Hdez in Ed. lra.
  - reflexivity.
Qed.

Lemma C5_zone_classifier_witness :
  AiForecaster.district_key Fixtures.district_S_A = ("S", "A")
  /\ In (AiForecaster.as_blue_zone Fixtures.district_S_A)
       (AiForecaster.blue_zones_of
          (AiForecaster.district_data_of Fixtures.zone_demo
             Fixtures.zone_bio []))
  /\ In (AiForecaster.as_dez Fixtures.district_S_A)
       (AiForecaster.dez_zones_of
          (AiForecaster.district_data_of Fixtures.zone_demo
             Fixtures.zone_bio []))
  /\ List.filter
       (fun z => keqb (AiForecaster.district_key Fixtures.district_S_A)
                   (AiForecaster.zone_key z))
       (AiForecaster.calculate_blue_zone_dez Fixtures.zone_demo
          Fixtures.zone_bio [])
     = [AiForecaster.as_blue_zone Fixtures.district_S_A].
Proof.
  destruct (C5_zone_classifier Fixtures.zone_demo Fixtures.zone_bio []
              Fixtures.district_S_A)
    as (p80 & p20 & H80 & H20 & _ & _ & Hblue & Hdez & _ & _ & Hboth & _).
  - vm_compute. left. reflexivity.
  - vm_compute in H80. injection H80 as <-.
    vm_compute in H20. injection H20 as <-.
    split; [reflexivity |].
    split; [apply Hblue; vm_compute; discriminate |].
    split; [apply Hdez; vm_compute; discriminate |].
    apply Hboth. vm_compute. discriminate.
Defined.

(** * Further properties of the pipeline *)

(** ** Groups and the rows they aggregate *)

Section AssocFacts.
Context {K V : Type} `{KeyOrdLaws K}.

(** In a table without repeated keys a lookup finds exactly the entries
    of the table. *)
Lemma assoc_In (l : list (K * V)) (k : K) (v : V) :
  List.NoDup (List.map fst l) ->
  Pandas.assoc k l = Some v <-> In (k, v) l.
Proof.
  induction l as [|[k' v'] l IH]; simpl; intros Hnd.
  - split; [discriminate | tauto].
  - inversion Hnd as [|? ? Hnotin Hnd']; subst.
    destruct (keqb k k') eqn:E.
    + apply keqb_eq in E; subst k'. split.
      * intros [= ->]. now left.
      * intros [[= ->]|Hin]; [reflexivity|].
        exfalso; apply Hnotin. apply List.in_map_iff. now exists (k, v).
    + apply keqb_neq in E. rewrite IH by assumption. split.
      * tauto.
      * intros [[= -> ->]|Hin]; [congruence | assumption].
Qed.


End AssocFacts.

Section GroupRows.
Context {K A V : Type} `{KeyOrdLaws K}.
Variable key : A -> K.
Variable init : A -> V.
Variable step : V -> A -> V.

(** The entries of a grouped table are the aggregates of the rows of
    each key. *)
Lemma groupby_In (rows : list A) (k : K) (v : V) :
  In (k, v) (Pandas.groupby key init step rows)
  <-> Pandas.agg_of init step (List.filter (fun a => keqb k (key a)) rows)
      = Some v.
Proof.
  rewrite <- (assoc_groupby key init step rows k).
  symmetry. apply assoc_In. apply groupby_NoDup.
Qed.

End GroupRows.

Section ColumnSums.
Context {A : Type}.

Lemma sum_of_sumZ (col : A -> Z) (l : list A) :
  Pandas.sum_of col l = DataProcessor.sumZ col l.
Proof. reflexivity. Qed.

Lemma sumZ_app (col : A -> Z) (l1 l2 : list A) :
  DataProcessor.sumZ col (l1 ++ l2)
  = DataProcessor.sumZ col l1 + DataProcessor.sumZ col l2.
Proof. induction l1 as [|x l1 IH]; simpl; [reflexivity | rewrite IH; lia]. Qed.

Lemma sumZ_nonneg (col : A -> Z) (l : list A) :
  List.Forall (fun r => 0 <= col r) l -> 0 <= DataProcessor.sumZ col l.
Proof. induction 1; simpl; lia. Qed.

Lemma sumZ_ones (l : list A) :
  DataProcessor.sumZ (fun _ => 1) l = Z.of_nat (length l).
Proof. induction l as [|x l IH]; simpl length; simpl DataProcessor.sumZ; lia. Qed.

Lemma fold_left_pair_sums (f g : A -> Z) (l : list A) (x y : Z) :
  fold_left (fun s r => (fst s + f r, snd s + g r)) l (x, y)
  = (x + DataProcessor.sumZ f l, y + DataProcessor.sumZ g l).
Proof.
  revert x y; induction l as [|a l IH]; intros x y; simpl.
  - f_equal; lia.
  - rewrite IH. f_equal; lia.
Qed.

(** The aggregate of two summed columns. *)
Lemma agg_of_sums (f g : A -> Z) (l : list A) :
  Pandas.agg_of (fun r => (f r, g r))
    (fun s r => (fst s + f r, snd s + g r)) l
  = match l with
    | [] => None
    | _ => Some (DataProcessor.sumZ f l, DataProcessor.sumZ g l)
    end.
Proof.
  destruct l as [|a l]; [reflexivity|].
  unfold Pandas.agg_of. rewrite fold_left_pair_sums. reflexivity.
Qed.



End ColumnSums.

(** A grouped table holds what the rows hold: a quantity that each row
    adds to its group sums to the same total over the groups and over
    the rows. *)
Section GroupTotals.
Context {K A V : Type} `{KeyOrd K}.
Variable key : A -> K.
Variable init : A -> V.
Variable step : V -> A -> V.
Variable value : V -> Z.
Variable weight : A -> Z.
Hypothesis value_init : forall a, value (init a) = weight a.
Hypothesis value_step : forall v a, value (step v a) = value v + weight a.

Local Abbreviation total acc :=
  (DataProcessor.sumZ (fun g : K * V => value (snd g)) acc).

Lemma gb_insert_total (a : A) (acc : list (K * V)) :
  total (Pandas.gb_insert key init step a acc) = total acc + weight a.
Proof.
  induction acc as [|[k' v] rest IH]; simpl.
  - rewrite value_init. lia.
  - destruct (kcmp (key a) k'); simpl.
    + rewrite value_step. lia.
    + rewrite value_init. lia.
    + rewrite IH. lia.
Qed.

Lemma groupby_total (rows : list A) :
  total (Pandas.groupby key init step rows) = DataProcessor.sumZ weight rows.
Proof.
  unfold Pandas.groupby.
  assert (Hgen : forall acc,
    total (fold_left (fun acc a => Pandas.gb_insert key init step a acc)
             rows acc)
    = total acc + DataProcessor.sumZ weight rows).
  { induction rows as [|a rows IH]; intros acc; simpl.
    - lia.
    - rewrite IH, gb_insert_total. lia. }
  rewrite Hgen. simpl. lia.
Qed.

End GroupTotals.

Lemma sumZ_map {A B} (f : A -> B) (col : B -> Z) (l : list A) :
  DataProcessor.sumZ col (List.map f l)
  = DataProcessor.sumZ (fun a => col (f a)) l.
Proof. induction l as [|x l IH]; simpl; [reflexivity | now rewrite IH]. Qed.

Lemma sumZ_ext {A} (f g : A -> Z) (l : list A) :
  (forall a, f a = g a) -> DataProcessor.sumZ f l = DataProcessor.sumZ g l.
Proof. intros E; induction l as [|x l IH]; simpl; [reflexivity | now rewrite E, IH]. Qed.

Lemma sumZ_plus {A} (f g : A -> Z) (l : list A) :
  DataProcessor.sumZ (fun a => f a + g a) l
  = DataProcessor.sumZ f l + DataProcessor.sumZ g l.
Proof. induction l as [|x l IH]; simpl; [reflexivity | rewrite IH; lia]. Qed.

(** ** The aggregated frames of generate_data *)

Section AggregatedFrames.
Import GenerateData.

Lemma demo_row_of_key (g : (string * string) * (Z * Z)) :
  (Demo.state (demo_row_of g), Demo.district (demo_row_of g)) = fst g.
Proof. destruct g as [[st di] [a b]]; reflexivity. Qed.

Lemma aggregate_demographic_keys (df : list Demographic.row) :
  List.map (fun r => (Demo.state r, Demo.district r))
    (aggregate_demographic df)
  = List.map fst
      (Pandas.groupby demo_key
         (fun r => (Demographic.demo_age_5_17 r, Demographic.demo_age_17_ r))
         (fun s r => ((fst s + Demographic.demo_age_5_17 r)%Z,
                      (snd s + Demographic.demo_age_17_ r)%Z))
         df).
Proof.
  unfold aggregate_demographic. rewrite List.map_map.
  apply List.map_ext. intros g. apply demo_row_of_key.
Qed.

(** Every row of the aggregated demographic frame is the row derived
    from the two column sums of a group of CSV rows that is not
    empty. *)
Lemma aggregate_demographic_In (df : list Demographic.row) (r : Demo.row) :
  In r (aggregate_demographic df)
  <-> exists st di,
        let rows :=
          List.filter (fun x => keqb (st, di) (demo_key x)) df in
        rows <> []
        /\ r = demo_row_of
                 ((st, di),
                  (DataProcessor.sumZ Demographic.demo_age_5_17 rows,
                   DataProcessor.sumZ Demographic.demo_age_17_ rows)).
Proof.
  unfold aggregate_demographic. rewrite List.in_map_iff. split.
  - intros [[[st di] [a b]] [<- Hin]]. exists st, di.
    apply groupby_In in Hin. rewrite agg_of_sums in Hin.
    destruct (List.filter _ df) as [|x rows] eqn:E; [discriminate|].
    injection Hin as <- <-. split; [discriminate | reflexivity].
  - intros (st & di & Hne & ->).
    eexists; split; [reflexivity|].
    apply groupby_In. rewrite agg_of_sums.
    destruct (List.filter _ df) as [|x rows] eqn:E; [now contradiction Hne|].
    reflexivity.
Qed.

End AggregatedFrames.

(** ** Sums of counts in 64-bit arithmetic *)

Section Int64Sums.
Context {A : Type}.

Lemma wrap_int64_small (z : Z) :
  - 2 ^ 63 <= z < 2 ^ 63 -> Pandas.wrap_int64 z = z.
Proof.
  intros Hz. unfold Pandas.wrap_int64.
  change (2 ^ 64) with (2 * 2 ^ 63) in *.
  rewrite Z.mod_small by lia. lia.
Qed.

Lemma sumZ_le (f g : A -> Z) (l : list A) :
  (forall a, f a <= g a) ->
  DataProcessor.sumZ f l <= DataProcessor.sumZ g l.
Proof.
  intros Hfg. induction l as [|x l IH]; simpl; [lia|].
  specialize (Hfg x). lia.
Qed.

Lemma sumZ_filter_le (f : A -> Z) (p : A -> bool) (l : list A) :
  (forall a, 0 <= f a) ->
  DataProcessor.sumZ f (List.filter p l) <= DataProcessor.sumZ f l.
Proof.
  intros Hf. induction l as [|x l IH]; simpl; [lia|].
  specialize (Hf x). destruct (p x); simpl; lia.
Qed.

Lemma sumZ_abs (col : A -> Z) (l : list A) :
  Z.abs (DataProcessor.sumZ col l)
  <= DataProcessor.sumZ (fun r => Z.abs (col r)) l.
Proof. induction l as [|x l IH]; simpl; lia. Qed.

(** A sum whose terms stay below [2^63] in absolute value, all
    together, is the same in [int64] arithmetic and in the integers. *)
Lemma sum_int64_exact (col : A -> Z) (l : list A) :
  DataProcessor.sumZ (fun r => Z.abs (col r)) l < 2 ^ 63 ->
  Pandas.sum_int64 col l = DataProcessor.sumZ col l.
Proof.
  unfold Pandas.sum_int64.
  assert (Hgen : forall s,
    Z.abs s + DataProcessor.sumZ (fun r => Z.abs (col r)) l < 2 ^ 63 ->
    fold_left (fun s r => Pandas.wrap_int64 (s + col r)) l s
    = s + DataProcessor.sumZ col l).
  { induction l as [|x l IH]; intros s Hs; simpl in *; [lia|].
    assert (H0 : 0 <= DataProcessor.sumZ (fun r => Z.abs (col r)) l)
      by (apply sumZ_nonneg, List.Forall_forall; intros; lia).
    rewrite wrap_int64_small by lia.
    rewrite IH by lia. lia. }
  intros Hl. rewrite Hgen by (simpl; lia). lia.
Qed.

End Int64Sums.

(** The totals of the groups are bounded by the total of what the rows
    weigh. *)
Section GroupBounds.
Context {K A V : Type} `{KeyOrd K}.
Variable key : A -> K.
Variable init : A -> V.
Variable step : V -> A -> V.
Variable size : V -> Z.
Variable weight : A -> Z.
Hypothesis size_init : forall a, size (init a) <= weight a.
Hypothesis size_step : forall v a, size (step v a) <= size v + weight a.

Local Abbreviation sizes acc :=
  (DataProcessor.sumZ (fun g : K * V => size (snd g)) acc).

Lemma gb_insert_bound (a : A) (acc : list (K * V)) :
  sizes (Pandas.gb_insert key init step a acc) <= sizes acc + weight a.
Proof.
  induction acc as [|[k' v] rest IH]; simpl.
  - specialize (size_init a). lia.
  - destruct (kcmp (key a) k'); simpl.
    + specialize (size_step v a). lia.
    + specialize (size_init a). lia.
    + lia.
Qed.

Lemma groupby_bound (rows : list A) :
  sizes (Pandas.groupby key init step rows)
  <= DataProcessor.sumZ weight rows.
Proof.
  unfold Pandas.groupby.
  assert (Hgen : forall acc,
    sizes (fold_left (fun acc a => Pandas.gb_insert key init step a acc)
             rows acc)
    <= sizes acc + DataProcessor.sumZ weight rows).
  { induction rows as [|a rows IH]; intros acc; simpl.
    - lia.
    - etransitivity; [apply IH|]. pose proof (gb_insert_bound a acc). lia. }
  etransitivity; [apply Hgen|]. simpl. lia.
Qed.

End GroupBounds.

(** The rows of one group weigh no more than the table. *)
Lemma fits_int64_rows {A} (a b : A -> Z) (p : A -> bool) (df : list A) :
  fits_int64 [a; b] df ->
  DataProcessor.sumZ (fun r => Z.abs (a r)) (List.filter p df)
  + DataProcessor.sumZ (fun r => Z.abs (b r)) (List.filter p df)
  < 2 ^ 63.
Proof.
  unfold fits_int64. rewrite sum_of_sumZ. intros Hfit.
  rewrite <- sumZ_plus.
  eapply Z.le_lt_trans; [| exact Hfit].
  etransitivity; [apply sumZ_filter_le; intros; lia|].
  apply sumZ_le. intros r. simpl. lia.
Qed.

(** X1.  process_demographic_data, on a table whose counts fit [int64]
    sums: the aggregated frame has one row for each (state, district)
    pair of the CSV, in ascending order of the pair; the two age columns
    of a row are the [int64] sums over the CSV rows of its pair and
    [total_population] is their [int64] sum, and none of them wraps:
    they are the sums of the counts as integers. *)
Theorem demographic_frame_groups (df : list Demographic.row) :
  fits_int64 [Demographic.demo_age_5_17; Demographic.demo_age_17_] df ->
  let agg := GenerateData.aggregate_demographic df in
  let key_of := fun r : GenerateData.Demo.row =>
    (GenerateData.Demo.state r, GenerateData.Demo.district r) in
  StronglySorted klt (List.map key_of agg)
  /\ List.NoDup (List.map key_of agg)
  /\ (forall k, In k (List.map key_of agg)
        <-> exists x, In x df /\ GenerateData.demo_key x = k)
  /\ (forall r, In r agg ->
        let rows :=
          List.filter (fun x => keqb (key_of r) (GenerateData.demo_key x))
            df in
        rows <> []
        /\ GenerateData.Demo.demo_age_5_17 r
           = Pandas.sum_int64 Demographic.demo_age_5_17 rows
        /\ GenerateData.Demo.demo_age_17_ r
           = Pandas.sum_int64 Demographic.demo_age_17_ rows
        /\ GenerateData.Demo.total_population r
           = Pandas.wrap_int64
               (GenerateData.Demo.demo_age_5_17 r
                + GenerateData.Demo.demo_age_17_ r)
        /\ GenerateData.Demo.demo_age_5_17 r
           = DataProcessor.sumZ Demographic.demo_age_5_17 rows
        /\ GenerateData.Demo.demo_age_17_ r
           = DataProcessor.sumZ Demographic.demo_age_17_ rows
        /\ GenerateData.Demo.total_population r
           = DataProcessor.sumZ Demographic.demo_age_5_17 rows
             + DataProcessor.sumZ Demographic.demo_age_17_ rows).
Proof.
  intros Hfit. cbv zeta. rewrite aggregate_demographic_keys.
  split; [apply groupby_sorted|].
  split; [apply groupby_NoDup|].
  split; [intros k; apply groupby_keys_In|].
  intros r Hr. apply aggregate_demographic_In in Hr.
  destruct Hr as (st & di & Hne & ->). cbn [GenerateData.demo_row_of
    GenerateData.Demo.state GenerateData.Demo.district
    GenerateData.Demo.demo_age_5_17 GenerateData.Demo.demo_age_17_
    GenerateData.Demo.total_population].
  pose proof (fits_int64_rows _ _
                (fun x => keqb (st, di) (GenerateData.demo_key x)) df Hfit)
    as Hrows.
  set (rows := List.filter _ df) in *.
  pose proof (sumZ_abs Demographic.demo_age_5_17 rows) as Ha.
  pose proof (sumZ_abs Demographic.demo_age_17_ rows) as Hb.
  assert (H0a : 0 <= DataProcessor.sumZ
                       (fun r => Z.abs (Demographic.demo_age_5_17 r)) rows)
    by (apply sumZ_nonneg, List.Forall_forall; intros; lia).
  assert (H0b : 0 <= DataProcessor.sumZ
                       (fun r => Z.abs (Demographic.demo_age_17_ r)) rows)
    by (apply sumZ_nonneg, List.Forall_forall; intros; lia).
  split; [exact Hne|].
  split; [symmetry; apply sum_int64_exact; lia|].
  split; [symmetry; apply sum_int64_exact; lia|].
  split; [symmetry; apply wrap_int64_small; lia|].
  repeat split; reflexivity.
Qed.

Lemma demographic_frame_groups_witness :
  fits_int64 [Demographic.demo_age_5_17; Demographic.demo_age_17_]
    Fixtures.zone_demo
  /\ List.map (fun r => (GenerateData.Demo.state r,
                         GenerateData.Demo.district r,
                         GenerateData.Demo.total_population r))
       (GenerateData.aggregate_demographic Fixtures.zone_demo)
     = [("S", "A", 100); ("S", "B", 100); ("S", "C", 100);
        ("T", "A", 100)]
  /\ List.NoDup
       (List.map (fun r => (GenerateData.Demo.state r,
                            GenerateData.Demo.district r))
          (GenerateData.aggregate_demographic Fixtures.zone_demo)).
Proof.
  split; [vm_compute; reflexivity|].
  split; [vm_compute; reflexivity|].
  apply (demographic_frame_groups Fixtures.zone_demo).
  vm_compute; reflexivity.
Defined.

(** Grouping loses nothing: the total of an aggregated frame is the
    total of the CSV columns it sums. *)
Lemma aggregate_demographic_total (demo : list Demographic.row) :
  Pandas.sum_of GenerateData.Demo.total_population
    (GenerateData.aggregate_demographic demo)
  = Pandas.sum_of Demographic.demo_age_5_17 demo
    + Pandas.sum_of Demographic.demo_age_17_ demo.
Proof.
  rewrite !sum_of_sumZ. unfold GenerateData.aggregate_demographic.
  rewrite sumZ_map.
  rewrite (sumZ_ext _ (fun g : (string * string) * (Z * Z) =>
                         (fun v => fst v + snd v) (snd g)))
    by (intros [[st di] [a b]]; reflexivity).
  rewrite (groupby_total _ _ _ (fun v => fst v + snd v)
             (fun r => Demographic.demo_age_5_17 r
                       + Demographic.demo_age_17_ r)).
  - apply sumZ_plus.
  - reflexivity.
  - intros v a; simpl; lia.
Qed.

Lemma aggregate_biometric_total (bio : list Biometric.row) :
  Pandas.sum_of GenerateData.Bio.total_updates
    (GenerateData.aggregate_biometric bio)
  = Pandas.sum_of Biometric.bio_age_5_17 bio
    + Pandas.sum_of Biometric.bio_age_17_ bio.
Proof.
  rewrite !sum_of_sumZ. unfold GenerateData.aggregate_biometric.
  rewrite sumZ_map.
  rewrite (sumZ_ext _ (fun g : (string * string) * (Z * Z) =>
                         (fun v => fst v + snd v) (snd g)))
    by (intros [[st di] [a b]]; reflexivity).
  rewrite (groupby_total _ _ _ (fun v => fst v + snd v)
             (fun r => Biometric.bio_age_5_17 r + Biometric.bio_age_17_ r)).
  - apply sumZ_plus.
  - reflexivity.
  - intros v a; simpl; lia.
Qed.

Lemma aggregate_enrolment_total (enrol : list Enrolment.row) :
  Pandas.sum_of GenerateData.Enrol.total_enrolments
    (GenerateData.aggregate_enrolment enrol)
  = Pandas.sum_of Enrolment.age_0_5 enrol
    + Pandas.sum_of Enrolment.age_5_17 enrol
    + Pandas.sum_of Enrolment.age_18_greater enrol.
Proof.
  rewrite !sum_of_sumZ. unfold GenerateData.aggregate_enrolment.
  rewrite sumZ_map.
  rewrite (sumZ_ext _ (fun g : (string * string) * (Z * Z * Z) =>
                         (fun v => fst (fst v) + snd (fst v) + snd v)
                           (snd g)))
    by (intros [[st di] [[a b] c]]; reflexivity).
  rewrite (groupby_total _ _ _
             (fun v => fst (fst v) + snd (fst v) + snd v)
             (fun r => Enrolment.age_0_5 r + Enrolment.age_5_17 r
                       + Enrolment.age_18_greater r)).
  - rewrite !sumZ_plus. reflexivity.
  - reflexivity.
  - intros v a; simpl; lia.
Qed.

(** The absolute values of the totals of an aggregated frame add up to
    no more than those of the CSV columns. *)
Lemma aggregate_demographic_bound (demo : list Demographic.row) :
  DataProcessor.sumZ
    (fun r => Z.abs (GenerateData.Demo.total_population r))
    (GenerateData.aggregate_demographic demo)
  <= DataProcessor.sumZ
       (fun r => Z.abs (Demographic.demo_age_5_17 r)
                 + Z.abs (Demographic.demo_age_17_ r)) demo.
Proof.
  unfold GenerateData.aggregate_demographic. rewrite sumZ_map.
  etransitivity.
  - apply (sumZ_le _
             (fun g : (string * string) * (Z * Z) =>
                (fun v : Z * Z => Z.abs (fst v) + Z.abs (snd v)) (snd g))).
    intros [[st di] [a b]]. simpl. lia.
  - apply (groupby_bound _ _ _
             (fun v : Z * Z => Z.abs (fst v) + Z.abs (snd v))).
    + intros a. simpl. lia.
    + intros v a. simpl. lia.
Qed.

Lemma aggregate_biometric_bound (bio : list Biometric.row) :
  DataProcessor.sumZ
    (fun r => Z.abs (GenerateData.Bio.total_updates r))
    (GenerateData.aggregate_biometric bio)
  <= DataProcessor.sumZ
       (fun r => Z.abs (Biometric.bio_age_5_17 r)
                 + Z.abs (Biometric.bio_age_17_ r)) bio.
Proof.
  unfold GenerateData.aggregate_biometric. rewrite sumZ_map.
  etransitivity.
  - apply (sumZ_le _
             (fun g : (string * string) * (Z * Z) =>
                (fun v : Z * Z => Z.abs (fst v) + Z.abs (snd v)) (snd g))).
    intros [[st di] [a b]]. simpl. lia.
  - apply (groupby_bound _ _ _
             (fun v : Z * Z => Z.abs (fst v) + Z.abs (snd v))).
    + intros a. simpl. lia.
    + intros v a. simpl. lia.
Qed.

Lemma aggregate_enrolment_bound (enrol : list Enrolment.row) :
  DataProcessor.sumZ
    (fun r => Z.abs (GenerateData.Enrol.total_enrolments r))
    (GenerateData.aggregate_enrolment enrol)
  <= DataProcessor.sumZ
       (fun r => Z.abs (Enrolment.age_0_5 r)
                 + Z.abs (Enrolment.age_5_17 r)
                 + Z.abs (Enrolment.age_18_greater r)) enrol.
Proof.
  unfold GenerateData.aggregate_enrolment. rewrite sumZ_map.
  etransitivity.
  - apply (sumZ_le _
             (fun g : (string * string) * (Z * Z * Z) =>
                (fun v : Z * Z * Z =>
                   Z.abs (fst (fst v)) + Z.abs (snd (fst v))
                   + Z.abs (snd v)) (snd g))).
    intros [[st di] [[a b] c]]. simpl. lia.
  - apply (groupby_bound _ _ _
             (fun v : Z * Z * Z =>
                Z.abs (fst (fst v)) + Z.abs (snd (fst v))
                + Z.abs (snd v))).
    + intros a. simpl. lia.
    + intros v a. simpl. lia.
Qed.

(** X2.  process_demographic_data, process_biometric_data and
    process_enrolment_data, on tables whose counts fit [int64] sums:
    grouping loses nothing, the totals of the aggregated frames are the
    totals of the CSV columns, and summing the frames in [int64]
    arithmetic gives these totals without wrapping. *)
Theorem aggregated_totals_conserved
    (demo : list Demographic.row) (bio : list Biometric.row)
    (enrol : list Enrolment.row) :
  fits_int64 [Demographic.demo_age_5_17; Demographic.demo_age_17_] demo ->
  fits_int64 [Biometric.bio_age_5_17; Biometric.bio_age_17_] bio ->
  fits_int64 [Enrolment.age_0_5; Enrolment.age_5_17;
              Enrolment.age_18_greater] enrol ->
  (Pandas.sum_of GenerateData.Demo.total_population
     (GenerateData.aggregate_demographic demo)
   = Pandas.sum_of Demographic.demo_age_5_17 demo
     + Pandas.sum_of Demographic.demo_age_17_ demo
   /\ Pandas.sum_int64 GenerateData.Demo.total_population
        (GenerateData.aggregate_demographic demo)
      = Pandas.sum_of Demographic.demo_age_5_17 demo
        + Pandas.sum_of Demographic.demo_age_17_ demo)
  /\ (Pandas.sum_of GenerateData.Bio.total_updates
        (GenerateData.aggregate_biometric bio)
      = Pandas.sum_of Biometric.bio_age_5_17 bio
        + Pandas.sum_of Biometric.bio_age_17_ bio
      /\ Pandas.sum_int64 GenerateData.Bio.total_updates
           (GenerateData.aggregate_biometric bio)
         = Pandas.sum_of Biometric.bio_age_5_17 bio
           + Pandas.sum_of Biometric.bio_age_17_ bio)
  /\ (Pandas.sum_of GenerateData.Enrol.total_enrolments
        (GenerateData.aggregate_enrolment enrol)
      = Pandas.sum_of Enrolment.age_0_5 enrol
        + Pandas.sum_of Enrolment.age_5_17 enrol
        + Pandas.sum_of Enrolment.age_18_greater enrol
      /\ Pandas.sum_int64 GenerateData.Enrol.total_enrolments
           (GenerateData.aggregate_enrolment enrol)
         = Pandas.sum_of Enrolment.age_0_5 enrol
           + Pandas.sum_of Enrolment.age_5_17 enrol
           + Pandas.sum_of Enrolment.age_18_greater enrol).
Proof.
  unfold fits_int64. rewrite !sum_of_sumZ. intros Hd Hb He.
  split; [| split].
  - split; [apply aggregate_demographic_total|].
    rewrite sum_int64_exact; [apply aggregate_demographic_total|].
    eapply Z.le_lt_trans; [apply aggregate_demographic_bound|].
    eapply Z.le_lt_trans; [| exact Hd].
    apply sumZ_le. intros r. simpl. lia.
  - split; [apply aggregate_biometric_total|].
    rewrite sum_int64_exact; [apply aggregate_biometric_total|].
    eapply Z.le_lt_trans; [apply aggregate_biometric_bound|].
    eapply Z.le_lt_trans; [| exact Hb].
    apply sumZ_le. intros r. simpl. lia.
  - split; [apply aggregate_enrolment_total|].
    rewrite sum_int64_exact; [apply aggregate_enrolment_total|].
    eapply Z.le_lt_trans; [apply aggregate_enrolment_bound|].
    eapply Z.le_lt_trans; [| exact He].
    apply sumZ_le. intros r. simpl. lia.
Qed.

Lemma aggregated_totals_conserved_witness :
  fits_int64 [Biometric.bio_age_5_17; Biometric.bio_age_17_]
    Fixtures.repeated_bio
  /\ Pandas.sum_int64 GenerateData.Bio.total_updates
       (GenerateData.aggregate_biometric Fixtures.repeated_bio)
     = Pandas.sum_of Biometric.bio_age_5_17 Fixtures.repeated_bio
       + Pandas.sum_of Biometric.bio_age_17_ Fixtures.repeated_bio.
Proof.
  split; [vm_compute; reflexivity|].
  apply (aggregated_totals_conserved Fixtures.zone_demo
           Fixtures.repeated_bio Fixtures.zone_enrol);
    vm_compute; reflexivity.
Defined.

Section DerivedColumns.
Local Open Scope Q_scope.

Lemma inject_Z_nonneg (z : Z) : (0 <= z)%Z -> 0 <= inject_Z z.
Proof. intros Hz. change 0 with (inject_Z 0). now rewrite <- Zle_Qle. Qed.

Lemma inject_Z_pos (z : Z) : (0 < z)%Z -> 0 < inject_Z z.
Proof. intros Hz. change 0 with (inject_Z 0). now rewrite <- Zlt_Qlt. Qed.


Lemma Qtrunc_ratio_nonneg (n : Z) (d : positive) :
  (0 <= n)%Z -> Qtrunc (n # d) = (n / Zpos d)%Z.
Proof. intros Hn. unfold Qtrunc; simpl. apply Z.quot_div_nonneg; lia. Qed.



End DerivedColumns.

Section DemographicRows.
Import GenerateData.



End DemographicRows.





(** ** Selecting the largest and the smallest rows *)

Section SelectionOfRows.
Local Open Scope Q_scope.
Context {A : Type}.
Variable key : A -> Q.

Lemma StronglySorted_app_cross (R : A -> A -> Prop) (l1 l2 : list A) :
  StronglySorted R (l1 ++ l2) ->
  forall x y, In x l1 -> In y l2 -> R x y.
Proof.
  induction l1 as [|a l1 IH]; simpl; intros Hs x y Hx Hy; [contradiction|].
  inversion Hs as [|? ? Hs' Hall]; subst.
  destruct Hx as [<-|Hx].
  - apply (proj1 (List.Forall_forall _ _) Hall). apply List.in_or_app; now right.
  - now apply IH.
Qed.

Lemma sort_desc_by_key (l : list A) :
  StronglySorted (fun x y => key y <= key x) (Pandas.sort_desc Qltb key l).
Proof.
  apply (sort_desc_sorted Qltb _ (fun a b => b <= a) (fun _ => True)).
  - intros a b c _ _ _ Hab Hbc. lra.
  - intros a b _ _ Hlt. apply Qltb_lt in Hlt. lra.
  - intros a b _ _ Hge. now apply Qltb_ge in Hge.
  - apply List.Forall_forall. intros; exact I.
Qed.

Lemma sort_asc_by_key (l : list A) :
  StronglySorted (fun x y => key x <= key y)
    (Pandas.sort_desc (fun a b => Qltb b a) key l).
Proof.
  apply (sort_desc_sorted (fun a b => Qltb b a) _ (fun a b => a <= b)
           (fun _ => True)).
  - intros a b c _ _ _ Hab Hbc. lra.
  - intros a b _ _ Hlt. apply Qltb_lt in Hlt. lra.
  - intros a b _ _ Hge. now apply Qltb_ge in Hge.
  - apply List.Forall_forall. intros; exact I.
Qed.

(** What [nlargest] returns: at most [n] rows of the frame, the largest
    first, and no row that is left out has a larger value than a row
    that is taken. *)
Lemma nlargest_spec (n : Z) (df : list A) :
  let out := Pandas.nlargest n key df in
  length out = Nat.min (Z.to_nat n) (length df)
  /\ StronglySorted (fun x y => key y <= key x) out
  /\ exists rest,
       Permutation (out ++ rest) df
       /\ forall x y, In x out -> In y rest -> key y <= key x.
Proof.
  unfold Pandas.nlargest. cbv zeta.
  set (sorted := Pandas.sort_desc Qltb key df).
  assert (Hp : Permutation df sorted) by apply sort_desc_Permutation.
  assert (Hs : StronglySorted (fun x y => key y <= key x) sorted)
    by apply sort_desc_by_key.
  split; [| split].
  - rewrite List.length_firstn, (Permutation_length Hp). reflexivity.
  - now apply firstn_StronglySorted.
  - exists (skipn (Z.to_nat n) sorted). split.
    + rewrite List.firstn_skipn. now symmetry.
    + apply (StronglySorted_app_cross (fun x y => key y <= key x)).
      now rewrite List.firstn_skipn.
Qed.

Lemma nsmallest_spec (n : Z) (df : list A) :
  let out := Pandas.nsmallest n key df in
  length out = Nat.min (Z.to_nat n) (length df)
  /\ StronglySorted (fun x y => key x <= key y) out
  /\ exists rest,
       Permutation (out ++ rest) df
       /\ forall x y, In x out -> In y rest -> key x <= key y.
Proof.
  unfold Pandas.nsmallest. cbv zeta.
  set (sorted := Pandas.sort_desc (fun a b => Qltb b a) key df).
  assert (Hp : Permutation df sorted) by apply sort_desc_Permutation.
  assert (Hs : StronglySorted (fun x y => key x <= key y) sorted)
    by apply sort_asc_by_key.
  split; [| split].
  - rewrite List.length_firstn, (Permutation_length Hp). reflexivity.
  - now apply firstn_StronglySorted.
  - exists (skipn (Z.to_nat n) sorted). split.
    + rewrite List.firstn_skipn. now symmetry.
    + apply (StronglySorted_app_cross (fun x y => key x <= key y)).
      now rewrite List.firstn_skipn.
Qed.

Lemma nlargest_In (n : Z) (df : list A) (x : A) :
  In x (Pandas.nlargest n key df) -> In x df.
Proof.
  unfold Pandas.nlargest. intros Hx. apply firstn_In in Hx.
  now apply (proj1 (sort_desc_In Qltb key df x)) in Hx.
Qed.

Lemma nsmallest_In (n : Z) (df : list A) (x : A) :
  In x (Pandas.nsmallest n key df) -> In x df.
Proof.
  unfold Pandas.nsmallest. intros Hx. apply firstn_In in Hx.
  now apply (proj1 (sort_desc_In (fun a b => Qltb b a) key df x)) in Hx.
Qed.

Lemma nlargest_length (n : Z) (df : list A) :
  (0 <= n)%Z -> (Z.of_nat (length (Pandas.nlargest n key df)) <= n)%Z.
Proof.
  intros Hn. destruct (nlargest_spec n df) as [Hl _]. cbv zeta in Hl.
  rewrite Hl. lia.
Qed.

Lemma nsmallest_length (n : Z) (df : list A) :
  (0 <= n)%Z -> (Z.of_nat (length (Pandas.nsmallest n key df)) <= n)%Z.
Proof.
  intros Hn. destruct (nsmallest_spec n df) as [Hl _]. cbv zeta in Hl.
  rewrite Hl. lia.
Qed.

End SelectionOfRows.

Section MergeFacts.
Context {K A B : Type} `{KeyOrdLaws K}.
Variable lkey : A -> K.
Variable rkey : B -> K.

(** An inner merge pairs the rows of the two frames that have the same
    key, and nothing else. *)
Lemma merge_inner_In (left : list A) (right : list B) (a : A) (b : B) :
  In (a, b) (Pandas.merge_inner lkey rkey left right)
  <-> In a left /\ In b right /\ lkey a = rkey b.
Proof.
  unfold Pandas.merge_inner. rewrite List.in_flat_map. split.
  - intros (a' & Ha & Hin). apply List.in_map_iff in Hin.
    destruct Hin as (b' & [= -> ->] & Hb).
    apply List.filter_In in Hb. destruct Hb as [Hb Hk].
    apply keqb_eq in Hk. tauto.
  - intros (Ha & Hb & Hk). exists a. split; [assumption|].
    apply List.in_map_iff. exists b. split; [reflexivity|].
    apply List.filter_In. split; [assumption|]. now apply keqb_eq.
Qed.

End MergeFacts.

(** ** The views of generate_data built on merged frames *)

Section MergedViews.
Import GenerateData.
Local Open Scope Q_scope.

Lemma StronglySorted_map {A B} (f : A -> B) (R : B -> B -> Prop)
    (l : list A) :
  StronglySorted (fun x y => R (f x) (f y)) l ->
  StronglySorted R (List.map f l).
Proof.
  induction 1 as [|a l Hs IH Hall]; simpl; constructor; [assumption|].
  apply List.Forall_forall. intros y Hy. apply List.in_map_iff in Hy.
  destruct Hy as (x & <- & Hx).
  exact (proj1 (List.Forall_forall _ _) Hall x Hx).
Qed.

Lemma merged_In (bio_df : list Bio.row) (demo_df : list Demo.row)
    (b : Bio.row) (d : Demo.row) :
  In (b, d) (merged bio_df demo_df)
  <-> In b bio_df /\ In d demo_df
      /\ Bio.state b = Demo.state d /\ Bio.district b = Demo.district d.
Proof.
  unfold merged. rewrite merge_inner_In. split.
  - intros (Hb & Hd & [= Hs Hdi]). tauto.
  - intros (Hb & Hd & Hs & Hdi). rewrite Hs, Hdi. tauto.
Qed.

Lemma merged_enrolment_In (enrol_df : list Enrol.row)
    (demo_df : list Demo.row) (e : Enrol.row) (d : Demo.row) :
  In (e, d) (merged_enrolment enrol_df demo_df)
  <-> In e enrol_df /\ In d demo_df
      /\ Enrol.state e = Demo.state d /\ Enrol.district e = Demo.district d.
Proof.
  unfold merged_enrolment. rewrite merge_inner_In. split.
  - intros (Hb & Hd & [= Hs Hdi]). tauto.
  - intros (Hb & Hd & Hs & Hdi). rewrite Hs, Hdi. tauto.
Qed.

(** A quotient by a value that [clip(lower=1)] has raised to at least
    one, times 100, stays between 0 and 100 when the numerator is
    between 0 and the clipped value. *)
Lemma percent_of_clipped (num den : Q) :
  0 <= num -> num <= clip_lower 1 den ->
  0 <= num / clip_lower 1 den * 100 <= 100.
Proof.
  intros Hn Hle.
  destruct (clip_lower_ge 1 den) as [Hc _].
  set (c := clip_lower 1 den) in *. clearbody c.
  assert (Hinv : 0 < / c) by (apply Qinv_lt_0_compat; lra).
  assert (Hci : c * / c == 1) by (apply Qmult_inv_r; lra).
  unfold Qdiv. set (ic := / c) in *. clearbody ic. split; nra.
Qed.

Lemma percent_of_clipped_nonneg (num den : Q) :
  0 <= num -> 0 <= num / clip_lower 1 den * 100.
Proof.
  intros Hn.
  destruct (clip_lower_ge 1 den) as [Hc _].
  set (c := clip_lower 1 den) in *. clearbody c.
  assert (Hinv : 0 < / c) by (apply Qinv_lt_0_compat; lra).
  unfold Qdiv. set (ic := / c) in *. clearbody ic. nra.
Qed.

Lemma gap_percent_range (m : Enrol.row * Demo.row) :
  (0 <= Enrol.age_0_5 (fst m))%Z ->
  (0 <= Demo.demo_age_5_17 (snd m))%Z ->
  0 <= gap_percent_of m <= 100.
Proof.
  intros He Hd. unfold gap_percent_of.
  apply (Qround_to_between 10 0 100); apply percent_of_clipped.
  - apply clip_lower_ge.
  - assert (He' : 0 <= inject_Z (Enrol.age_0_5 (fst m)))
      by (apply inject_Z_nonneg; exact He).
    assert (Hd' : 0 <= inject_Z (Demo.demo_age_5_17 (snd m)))
      by (apply inject_Z_nonneg; exact Hd).
    destruct (clip_lower_ge 1 (inject_Z (Enrol.age_0_5 (fst m))))
      as [Hc1 Hc2].
    set (c := clip_lower 1 (inject_Z (Enrol.age_0_5 (fst m)))) in *.
    clearbody c.
    unfold clip_lower.
    destruct (Qltb_spec
                (inject_Z (Enrol.age_0_5 (fst m))
                 - inject_Z (Demo.demo_age_5_17 (snd m)) * 0.5) 0); lra.
  - apply clip_lower_ge.
  - assert (He' : 0 <= inject_Z (Enrol.age_0_5 (fst m)))
      by (apply inject_Z_nonneg; exact He).
    assert (Hd' : 0 <= inject_Z (Demo.demo_age_5_17 (snd m)))
      by (apply inject_Z_nonneg; exact Hd).
    destruct (clip_lower_ge 1 (inject_Z (Enrol.age_0_5 (fst m))))
      as [Hc1 Hc2].
    set (c := clip_lower 1 (inject_Z (Enrol.age_0_5 (fst m)))) in *.
    clearbody c.
    unfold clip_lower.
    destruct (Qltb_spec
                (inject_Z (Enrol.age_0_5 (fst m))
                 - inject_Z (Demo.demo_age_5_17 (snd m)) * 0.5) 0); lra.
Qed.

End MergedViews.


(** X5.  generate_anomalies, whatever values the [deviation] column
    holds: the merge is an inner one, so an anomaly is only ever
    reported for a district that has a row in both aggregated frames,
    and a district without a demographic row is never reported,
    whatever its updates.  The loop emits a record for a merged pair of
    rows exactly when the deviation of the pair exceeds 40 per cent in
    absolute value; the record carries that deviation, is a surge when
    it is positive and a drop when it is negative, and is critical
    exactly when it exceeds 80 per cent in absolute value.  What is
    returned is the emitted records in decreasing order of the absolute
    deviation, cut after the first 20. *)
Theorem anomalies_need_both_frames
    (deviation : Z -> Z -> Q)
    (bio_df : list GenerateData.Bio.row)
    (demo_df : list GenerateData.Demo.row) :
  let emitted :=
    GenerateData.emitted_anomalies_with deviation bio_df demo_df in
  let out := GenerateData.generate_anomalies_with deviation bio_df demo_df in
  (forall a,
      In a emitted
      <-> exists b d,
            In b bio_df /\ In d demo_df
            /\ GenerateData.Bio.state b = GenerateData.Demo.state d
            /\ GenerateData.Bio.district b = GenerateData.Demo.district d
            /\ (40 < Qabs (deviation (GenerateData.Bio.total_updates b)
                             (GenerateData.Demo.total_population d)))%Q
            /\ a = GenerateData.anomaly_with deviation (b, d))
  /\ List.Forall
       (fun a => exists b d,
          In b bio_df /\ In d demo_df
          /\ GenerateData.Bio.state b = GenerateData.Demo.state d
          /\ GenerateData.Bio.district b = GenerateData.Demo.district d
          /\ GenerateData.Anomaly.state a = GenerateData.Bio.state b
          /\ GenerateData.Anomaly.district a = GenerateData.Bio.district b
          /\ GenerateData.Anomaly.deviation a
             = deviation (GenerateData.Bio.total_updates b)
                 (GenerateData.Demo.total_population d)
          /\ (40 < Qabs (GenerateData.Anomaly.deviation a))%Q
          /\ ((0 < GenerateData.Anomaly.deviation a)%Q ->
              GenerateData.Anomaly.type a = "surge")
          /\ ((GenerateData.Anomaly.deviation a < 0)%Q ->
              GenerateData.Anomaly.type a = "drop")
          /\ ((80 < Qabs (GenerateData.Anomaly.deviation a))%Q ->
              GenerateData.Anomaly.severity a = "critical")
          /\ ((Qabs (GenerateData.Anomaly.deviation a) <= 80)%Q ->
              GenerateData.Anomaly.severity a = "warning"))
       out
  /\ (forall st di,
        (forall d, In d demo_df ->
           (GenerateData.Demo.state d, GenerateData.Demo.district d)
           <> (st, di)) ->
        forall a, In a out ->
          (GenerateData.Anomaly.state a, GenerateData.Anomaly.district a)
          <> (st, di))
  /\ (exists ranked,
        Permutation ranked emitted
        /\ StronglySorted
             (fun x y => (Qabs (GenerateData.Anomaly.deviation y)
                          <= Qabs (GenerateData.Anomaly.deviation x))%Q)
             ranked
        /\ out = firstn 20 ranked)
  /\ (length out <= 20)%nat.
Proof.
  cbv zeta.
  assert (Hem : forall a,
    In a (GenerateData.emitted_anomalies_with deviation bio_df demo_df)
    <-> exists b d,
          In b bio_df /\ In d demo_df
          /\ GenerateData.Bio.state b = GenerateData.Demo.state d
          /\ GenerateData.Bio.district b = GenerateData.Demo.district d
          /\ (40 < Qabs (deviation (GenerateData.Bio.total_updates b)
                           (GenerateData.Demo.total_population d)))%Q
          /\ a = GenerateData.anomaly_with deviation (b, d)).
  { intros a. rewrite gen_emitted_In. split.
    - intros ([b d] & Hm & Hdev & ->). apply merged_In in Hm.
      destruct Hm as (Hb & Hd & Hs & Hdi).
      exists b, d. repeat split; assumption.
    - intros (b & d & Hb & Hd & Hs & Hdi & Hdev & ->).
      exists (b, d). split; [| split; [exact Hdev | reflexivity]].
      apply merged_In. repeat split; assumption. }
  assert (Hall : forall a,
    In a (GenerateData.generate_anomalies_with deviation bio_df demo_df) ->
    exists b d,
       In b bio_df /\ In d demo_df
       /\ GenerateData.Bio.state b = GenerateData.Demo.state d
       /\ GenerateData.Bio.district b = GenerateData.Demo.district d
       /\ GenerateData.Anomaly.state a = GenerateData.Bio.state b
       /\ GenerateData.Anomaly.district a = GenerateData.Bio.district b
       /\ GenerateData.Anomaly.deviation a
          = deviation (GenerateData.Bio.total_updates b)
              (GenerateData.Demo.total_population d)
       /\ (40 < Qabs (GenerateData.Anomaly.deviation a))%Q
       /\ ((0 < GenerateData.Anomaly.deviation a)%Q ->
           GenerateData.Anomaly.type a = "surge")
       /\ ((GenerateData.Anomaly.deviation a < 0)%Q ->
           GenerateData.Anomaly.type a = "drop")
       /\ ((80 < Qabs (GenerateData.Anomaly.deviation a))%Q ->
           GenerateData.Anomaly.severity a = "critical")
       /\ ((Qabs (GenerateData.Anomaly.deviation a) <= 80)%Q ->
           GenerateData.Anomaly.severity a = "warning")).
  { intros a Ha. unfold GenerateData.generate_anomalies_with in Ha.
    rewrite slice_to_firstn in Ha by lia. apply firstn_In in Ha.
    apply (proj1 (sort_desc_In _ _ _ a)) in Ha.
    apply Hem in Ha.
    destruct Ha as (b & d & Hb & Hd & Hs & Hdi & Hdev & ->).
    destruct (gen_anomaly_class deviation (b, d))
      as (Hval & Hsurge & Hdrop & Hcrit & Hwarn).
    exists b, d. rewrite Hval.
    repeat split; try assumption. }
  split; [exact Hem|].
  split; [apply List.Forall_forall; exact Hall|].
  split; [| split].
  - intros st di Hno a Ha [= Hs Hdi].
    destruct (Hall a Ha) as (b & d & _ & Hd & Hbs & Hbd & Has & Had & _).
    apply (Hno d Hd). congruence.
  - apply gen_ranked.
  - unfold GenerateData.generate_anomalies_with.
    rewrite slice_to_firstn by lia. rewrite List.length_firstn.
    change (Z.to_nat 20) with 20%nat. apply Nat.le_min_l.
Qed.

(** X6.  generate_child_gaps, on frames of non-negative counts: at most 20
    records, the largest gap first, each for a district present in both
    frames, and every gap percentage lies between 0 and 100. *)
Theorem child_gaps_percent_range
    (demo_df : list GenerateData.Demo.row)
    (enrol_df : list GenerateData.Enrol.row) :
  List.Forall (fun e => 0 <= GenerateData.Enrol.age_0_5 e) enrol_df ->
  List.Forall (fun d => 0 <= GenerateData.Demo.demo_age_5_17 d) demo_df ->
  let out := GenerateData.generate_child_gaps demo_df (Some enrol_df) in
  Z.of_nat (length out) <= 20
  /\ StronglySorted
       (fun x y => (GenerateData.ChildGap.gap_percent y
                    <= GenerateData.ChildGap.gap_percent x)%Q) out
  /\ List.Forall
       (fun g =>
          (0 <= GenerateData.ChildGap.gap_percent g <= 100)%Q
          /\ 0 <= GenerateData.ChildGap.enrolled g
          /\ exists e d,
               In e enrol_df /\ In d demo_df
               /\ GenerateData.Enrol.state e = GenerateData.Demo.state d
               /\ GenerateData.Enrol.district e
                  = GenerateData.Demo.district d
               /\ GenerateData.ChildGap.state g = GenerateData.Enrol.state e
               /\ GenerateData.ChildGap.district g
                  = GenerateData.Enrol.district e
               /\ GenerateData.ChildGap.enrolled g
                  = GenerateData.Enrol.age_0_5 e) out.
Proof.
  intros He Hd out. subst out. unfold GenerateData.generate_child_gaps.
  split; [| split].
  - rewrite List.length_map. apply nlargest_length. lia.
  - apply StronglySorted_map.
    destruct (nlargest_spec GenerateData.gap_percent_of 20
                (GenerateData.merged_enrolment enrol_df demo_df))
      as (_ & Hs & _).
    exact Hs.
  - apply List.Forall_forall. intros g Hg.
    apply List.in_map_iff in Hg. destruct Hg as ([e d] & <- & Hm).
    apply nlargest_In in Hm. apply merged_enrolment_In in Hm.
    destruct Hm as (Hein & Hdin & Hs & Hdi).
    pose proof (proj1 (List.Forall_forall _ _) He e Hein) as He0.
    pose proof (proj1 (List.Forall_forall _ _) Hd d Hdin) as Hd0.
    split; [| split].
    + apply (gap_percent_range (e, d)); assumption.
    + exact He0.
    + exists e, d. repeat split; assumption.
Qed.

Lemma child_gaps_percent_range_witness :
  List.Forall
    (fun g => (0 <= GenerateData.ChildGap.gap_percent g <= 100)%Q)
    (GenerateData.generate_child_gaps
       (GenerateData.aggregate_demographic Fixtures.zone_demo)
       (Some (GenerateData.aggregate_enrolment Fixtures.zone_enrol))).
Proof.
  eapply List.Forall_impl;
    [| apply (child_gaps_percent_range
                (GenerateData.aggregate_demographic Fixtures.zone_demo)
                (GenerateData.aggregate_enrolment Fixtures.zone_enrol))].
  - intros g H. exact (proj1 H).
  - apply List.Forall_forall. intros e He. vm_compute in He.
    repeat (destruct He as [<-|He]; [vm_compute; discriminate|]).
    contradiction.
  - apply List.Forall_forall. intros d Hd.
    apply List.in_map_iff in Hd. destruct Hd as (g & <- & Hg).
    vm_compute in Hg.
    repeat (destruct Hg as [<-|Hg]; [vm_compute; discriminate|]).
    contradiction.
Defined.

(** X7.  generate_dead_centers: at most [limit] records, the lowest update
    rate first; the records are those of merged districts, and no merged
    district that is left out has a lower update rate than one that is
    listed.  With non-negative update counts no rate is negative. *)
Theorem dead_centers_lowest_rates
    (bio_df : list GenerateData.Bio.row)
    (demo_df : list GenerateData.Demo.row) (limit : Z) :
  let out := GenerateData.generate_dead_centers bio_df demo_df limit in
  Z.of_nat (length out) <= Z.max 0 limit
  /\ StronglySorted
       (fun x y => (GenerateData.DeadCenter.update_rate x
                    <= GenerateData.DeadCenter.update_rate y)%Q) out
  /\ (exists listed rest,
        out = List.map GenerateData.dead_center_of listed
        /\ Permutation (listed ++ rest) (GenerateData.merged bio_df demo_df)
        /\ forall x y, In x listed -> In y rest ->
             (GenerateData.update_rate_of x
              <= GenerateData.update_rate_of y)%Q)
  /\ (List.Forall (fun b => 0 <= GenerateData.Bio.total_updates b) bio_df ->
      List.Forall
        (fun r => (0 <= GenerateData.DeadCenter.update_rate r)%Q) out).
Proof.
  cbv zeta. unfold GenerateData.generate_dead_centers.
  destruct (nsmallest_spec GenerateData.update_rate_of limit
              (GenerateData.merged bio_df demo_df))
    as (Hlen & Hsorted & rest & Hperm & Hcross).
  cbv zeta in Hlen, Hsorted, Hperm, Hcross.
  split; [| split; [| split]].
  - rewrite List.length_map, Hlen. lia.
  - apply StronglySorted_map. exact Hsorted.
  - eexists; exists rest. split; [reflexivity|]. split; assumption.
  - intros Hbio. apply List.Forall_forall. intros r Hr.
    apply List.in_map_iff in Hr. destruct Hr as ([b d] & <- & Hm).
    apply nsmallest_In in Hm. apply merged_In in Hm.
    destruct Hm as (Hb & _).
    pose proof (proj1 (List.Forall_forall _ _) Hbio b Hb) as Hb0.
    cbn [GenerateData.dead_center_of GenerateData.DeadCenter.update_rate].
    unfold GenerateData.update_rate_of. cbn [fst snd].
    assert (Hq : (0 <= inject_Z (GenerateData.Bio.total_updates b)
                       / clip_lower 1
                           (inject_Z (GenerateData.Demo.total_population d))
                       * 100)%Q).
    { apply percent_of_clipped_nonneg. now apply inject_Z_nonneg. }
    destruct (Qround_to_between 100 0
                (Qceiling
                   (inject_Z (GenerateData.Bio.total_updates b)
                    / clip_lower 1
                        (inject_Z (GenerateData.Demo.total_population d))
                    * 100))
                (inject_Z (GenerateData.Bio.total_updates b)
                 / clip_lower 1
                     (inject_Z (GenerateData.Demo.total_population d))
                 * 100) Hq (Qle_ceiling _)) as [Hlo _].
    exact Hlo.
Qed.

Section BlueZoneDensity.
Local Open Scope Q_scope.



End BlueZoneDensity.



(** ** The KPI summary of generate_data *)

Section CountingRows.
Context {A : Type}.

(** the number of rows that satisfy a test, as a column sum *)
Lemma count_as_sum (p : A -> bool) (l : list A) :
  Z.of_nat (length (List.filter p l))
  = DataProcessor.sumZ (fun x => if p x then 1 else 0) l.
Proof.
  induction l as [|x l IH]; [reflexivity|].
  simpl. destruct (p x); simpl length; lia.
Qed.

Lemma sumZ_ext_in (f g : A -> Z) (l : list A) :
  (forall a, In a l -> f a = g a) ->
  DataProcessor.sumZ f l = DataProcessor.sumZ g l.
Proof.
  induction l as [|x l IH]; intros E; simpl; [reflexivity|].
  rewrite (E x) by now left. rewrite IH; [reflexivity|].
  intros a Ha. apply E. now right.
Qed.


Lemma count_le_length (p : A -> bool) (l : list A) :
  Z.of_nat (length (List.filter p l)) <= Z.of_nat (length l).
Proof. apply Nat2Z.inj_le, List.filter_length_le. Qed.

End CountingRows.

Section IndexValues.
Local Open Scope Q_scope.


(** How a finite index is counted and labelled. *)
Lemma finite_index_class (d : Q) :
  (fge (Fin d) (Fin 6.6) = true
   <-> GenerateData.get_dsi_status (Fin d) = "critical")
  /\ (fge (Fin d) (Fin 3.3) = true /\ fge (Fin d) (Fin 6.6) = false
      <-> GenerateData.get_dsi_status (Fin d) = "medium")
  /\ (fge (Fin d) (Fin 3.3) = false
      <-> GenerateData.get_dsi_status (Fin d) = "low").
Proof.
  rewrite get_dsi_status_fin. unfold fge, fle.
  destruct (Qltb_spec d 3.3) as [H3|H3];
    destruct (Qltb_spec d 6.6) as [H6|H6];
    destruct (Qle_bool 3.3 d) eqn:E3;
    destruct (Qle_bool 6.6 d) eqn:E6;
    try (apply Qle_bool_iff in E3);
    try (apply Qle_bool_iff in E6);
    try lra;
    try (assert (3.3 <= d) by lra;
         assert (Qle_bool 3.3 d = true) by (now apply Qle_bool_iff);
         congruence);
    try (assert (6.6 <= d) by lra;
         assert (Qle_bool 6.6 d = true) by (now apply Qle_bool_iff);
         congruence);
    repeat split; intros; try discriminate; try tauto;
    try (destruct H; discriminate).
Qed.

End IndexValues.

Section KpiFacts.
Import GenerateData.
Local Open Scope Q_scope.





End KpiFacts.


(** ** detect_anomalies measures the number of rows *)

Section RowCountAnomalies.
Import DataProcessor.
Local Open Scope Q_scope.





End RowCountAnomalies.



(** Three rows of five updates are a "200 % surge"; one row of a
    thousand updates is nothing. *)
Example detect_anomalies_counts_rows :
  DataProcessor.detect_anomalies Fixtures.repeated_processor
  = [ {| DataProcessor.Anomaly.state := "S";
         DataProcessor.Anomaly.district := "A";
         DataProcessor.Anomaly.deviation := Fin (2000 # 10);
         DataProcessor.Anomaly.severity := "critical";
         DataProcessor.Anomaly.type := "surge" |} ].
Proof. vm_compute. reflexivity. Qed.

(** ** The alerts of app.py *)

Section AlertFacts.
Context {A : Type}.




End AlertFacts.


(** ** The dashboard KPIs of data_processor *)

Section DashboardFacts.
Import DataProcessor.
Local Open Scope Q_scope.

Lemma dsi_result_fields (district : string) (state : option string)
    (V total_pop : Z) :
  let d := dsi_result district state V total_pop in
  d !! "district" = Some (VStr district)
  /\ d !! "state" = Some (py_opt_str state)
  /\ d !! "dsi" = Some (VFloat (Qround_to 100 (dsi_of V total_pop)))
  /\ d !! "status" = Some (VStr (status_of (dsi_of V total_pop)))
  /\ d !! "volume" = Some (VInt V)
  /\ d !! "capacity" = Some (VInt (Qtrunc (C_of total_pop)))
  /\ d !! "adult_percent"
     = Some (VFloat (Qround_to 10 (Wa_of V total_pop))).
Proof. cbv zeta. unfold dsi_result. repeat split; by simplify_map_eq. Qed.

(** The three shapes of the result of [calculate_dsi]. *)
Lemma calculate_dsi_cases (self : processor) (district : string)
    (state : option string) :
  (demographic_df self = None
   /\ calculate_dsi self district state
      = {[ "dsi" := VInt 0; "status" := VStr "no_data" ]})
  \/ (exists df, demographic_df self = Some df
        /\ select df district state = []
        /\ calculate_dsi self district state
           = {[ "dsi" := VInt 0; "status" := VStr "not_found" ]})
  \/ (exists df, demographic_df self = Some df
        /\ select df district state <> []
        /\ calculate_dsi self district state
           = dsi_result district state
               (sumZ Demographic.demo_age_17_ (select df district state))
               (sumZ Demographic.demo_age_5_17 (select df district state)
                + sumZ Demographic.demo_age_17_
                    (select df district state))).
Proof.
  destruct (demographic_df self) as [df|] eqn:Hdf.
  - right. destruct (select df district state) as [|r rows] eqn:E.
    + left. exists df. split; [reflexivity|]. split; [exact E|].
      unfold calculate_dsi. now rewrite Hdf, E.
    + right. exists df. split; [reflexivity|].
      split; [rewrite E; discriminate|].
      apply calculate_dsi_found; [exact Hdf | rewrite E; discriminate].
  - left. split; [reflexivity|]. unfold calculate_dsi. now rewrite Hdf.
Qed.

Lemma Qround_to_le (scale : positive) (hi : Z) (q : Q) :
  q <= inject_Z hi -> Qround_to scale q <= inject_Z hi.
Proof.
  intros Hq.
  destruct (Qround_to_between scale (Qfloor q) hi q (Qfloor_le q) Hq)
    as [_ H]. exact H.
Qed.

(** Every dict of [get_top_stressed_districts] is a complete one, with
    a reported index above 0 and at most 10. *)
Lemma top_stressed_In (self : processor) (limit : Z)
    (x : gmap string pyval) :
  In x (get_top_stressed_districts self limit) ->
  exists district state V total_pop,
    x = dsi_result district state V total_pop
    /\ 0 < Qround_to 100 (dsi_of V total_pop) <= 10.
Proof.
  unfold get_top_stressed_districts.
  destruct (demographic_df self) as [df|] eqn:Hdf; [| contradiction].
  intros Hx.
  assert (Hin : In x (stressed_results self (demographic_groups df))).
  { unfold Pandas.slice_to in Hx.
    destruct (0 <=? limit)%Z; apply firstn_In in Hx;
      now apply (proj1 (sort_desc_In _ _ _ x)) in Hx. }
  apply stressed_results_In in Hin.
  destruct Hin as ([[st di] sums] & _ & Hx' & Hpos). cbn [fst snd] in Hx'.
  destruct (calculate_dsi_cases self di (Some st))
    as [[_ E]|[(df' & _ & _ & E)|(df' & _ & _ & E)]];
    rewrite E in Hx'; subst x.
  - exfalso. revert Hpos. vm_compute. discriminate.
  - exfalso. revert Hpos. vm_compute. discriminate.
  - eexists di, (Some st), _, _. split; [reflexivity|].
    destruct (dsi_result_fields di (Some st)
                (sumZ Demographic.demo_age_17_ (select df' di (Some st)))
                (sumZ Demographic.demo_age_5_17 (select df' di (Some st))
                 + sumZ Demographic.demo_age_17_ (select df' di (Some st))))
      as (_ & _ & Hd & _).
    cbv zeta in Hd. rewrite Hd in Hpos. cbn [pynum] in Hpos.
    split; [exact Hpos|].
    apply (Qround_to_le 100 10). unfold dsi_of. cbv zeta. apply Qpy_min_le.
Qed.

Lemma status_of_values (dsi : Q) :
  status_of dsi = "low" \/ status_of dsi = "medium"
  \/ status_of dsi = "critical".
Proof.
  unfold status_of. destruct (Qltb dsi 3.3); [tauto|].
  destruct (Qltb dsi 6.6); tauto.
Qed.

Lemma sumQ_range (lo hi : Q) (l : list Q) :
  List.Forall (fun q => lo <= q <= hi) l ->
  lo * inject_Z (Z.of_nat (length l)) <= fold_right Qplus 0 l
  /\ fold_right Qplus 0 l <= hi * inject_Z (Z.of_nat (length l)).
Proof.
  induction 1 as [|q l Hq Hall IH].
  - change (inject_Z (Z.of_nat (@length Q []))) with 0. simpl. lra.
  - change (length (q :: l)) with (S (length l)).
    rewrite Nat2Z.inj_succ. unfold Z.succ. rewrite inject_Z_plus.
    change (inject_Z 1) with 1. simpl fold_right.
    set (n := inject_Z (Z.of_nat (length l))) in *. clearbody n. lra.
Qed.

(** [np.mean] of values in [lo, hi] lies in [lo, hi]. *)
Lemma np_mean_range (lo hi : Q) (l : list Q) :
  l <> [] -> List.Forall (fun q => lo <= q <= hi) l ->
  lo <= np_mean l <= hi.
Proof.
  intros Hne Hall. unfold np_mean.
  destruct (sumQ_range lo hi l Hall) as [Hlo Hhi].
  assert (Hn : (0 < Z.of_nat (length l))%Z)
    by (destruct l; [contradiction | simpl length; lia]).
  apply inject_Z_pos in Hn.
  set (m := inject_Z (Z.of_nat (length l))) in *.
  assert (Hinv : 0 < / m) by now apply Qinv_lt_0_compat.
  assert (Hci : m * / m == 1) by (apply Qmult_inv_r; lra).
  unfold Qdiv. set (im := / m) in *. set (s := fold_right Qplus 0 l) in *.
  assert (H1 : (lo * m) * im <= s * im) by (apply Qmult_le_compat_r; lra).
  assert (H2 : s * im <= (hi * m) * im) by (apply Qmult_le_compat_r; lra).
  assert (E1 : (lo * m) * im == lo * (m * im)) by ring.
  assert (E2 : (hi * m) * im == hi * (m * im)) by ring.
  rewrite Hci in E1, E2. split; lra.
Qed.

End DashboardFacts.

(** X13.  get_dashboard_kpis: the "stressed" districts are the (at most 50)
    districts with a positive reported index, whatever their status, so
    their number is the sum of the critical count, the high count and
    the number of listed districts with status low; the average index
    lies in [0, 10]; without any listed district, in particular without
    the demographic table, the average and the volume are 0. *)
Theorem dashboard_kpis_counts (self : DataProcessor.processor) :
  let k := DataProcessor.get_dashboard_kpis self in
  let stressed := DataProcessor.get_top_stressed_districts self 50 in
  0 <= DataProcessor.Kpi.critical_districts k
  /\ 0 <= DataProcessor.Kpi.high_districts k
  /\ DataProcessor.Kpi.critical_districts k
     + DataProcessor.Kpi.high_districts k
     + Z.of_nat (length (List.filter (DataProcessor.status_is "low")
                           stressed))
     = DataProcessor.Kpi.stressed_districts k
  /\ DataProcessor.Kpi.stressed_districts k <= 50
  /\ (0 <= DataProcessor.Kpi.dsi_average k <= 10)%Q
  /\ (DataProcessor.Kpi.stressed_districts k = 0 ->
      (DataProcessor.Kpi.dsi_average k == 0)%Q
      /\ DataProcessor.Kpi.total_volume k = 0)
  /\ (DataProcessor.demographic_df self = None ->
      DataProcessor.Kpi.stressed_districts k = 0).
Proof.
  intros k stressed. subst k. unfold DataProcessor.get_dashboard_kpis.
  fold stressed.
  cbn [DataProcessor.Kpi.critical_districts DataProcessor.Kpi.high_districts
       DataProcessor.Kpi.stressed_districts DataProcessor.Kpi.dsi_average
       DataProcessor.Kpi.total_volume].
  assert (Hall : forall x, In x stressed ->
    exists district state V total_pop,
      x = dsi_result district state V total_pop
      /\ (0 < Qround_to 100 (DataProcessor.dsi_of V total_pop) <= 10)%Q)
    by (intros x; apply top_stressed_In).
  split; [lia|]. split; [lia|].
  split; [| split; [| split; [| split]]].
  - rewrite !count_as_sum, <- !sumZ_plus, <- sumZ_ones.
    apply sumZ_ext_in. intros x Hx.
    destruct (Hall x Hx) as (di & st & V & tp & -> & _).
    destruct (dsi_result_fields di st V tp) as (_ & _ & _ & Hs & _).
    cbv zeta in Hs. unfold DataProcessor.status_is. rewrite Hs.
    destruct (status_of_values (DataProcessor.dsi_of V tp))
      as [->|[->| ->]]; reflexivity.
  - subst stressed. unfold DataProcessor.get_top_stressed_districts.
    destruct (DataProcessor.demographic_df self); [| simpl; lia].
    apply slice_to_length. lia.
  - destruct stressed as [|x rest] eqn:E.
    + vm_compute. split; discriminate.
    + rewrite <- E in *.
      apply (Qround_to_between 100 0 10);
        apply (np_mean_range 0 10);
        try (rewrite E; discriminate);
        apply List.Forall_forall; intros q Hq;
        apply List.in_map_iff in Hq; destruct Hq as (y & <- & Hy);
        destruct (Hall y Hy) as (di & st & V & tp & -> & Hr);
        destruct (dsi_result_fields di st V tp) as (_ & _ & Hd & _);
        cbv zeta in Hd; rewrite Hd; cbn [DataProcessor.pynum]; lra.
  - intros Hz. destruct stressed as [|x rest]; [| simpl length in Hz; lia].
    split; reflexivity.
  - intros Hnone. subst stressed.
    unfold DataProcessor.get_top_stressed_districts. now rewrite Hnone.
Qed.

(** ** The migration flows of data_processor *)

Section MigrationFlows.
Import DataProcessor.



End MigrationFlows.


(** ** The district lookup of data_processor *)

(** X15.  calculate_dsi: an empty [state] argument is no state at all.  The
    rows of every state with a district of that name are merged, as when
    the argument is omitted, and the two results only differ in the
    [state] they echo, the empty string instead of [None]. *)
Theorem calculate_dsi_empty_state (self : DataProcessor.processor)
    (df : list Demographic.row) (district : string) :
  DataProcessor.select df district (Some "")
    = List.filter (fun r => String.eqb (Demographic.district r) district) df
  /\ DataProcessor.select df district None
     = List.filter (fun r => String.eqb (Demographic.district r) district) df
  /\ delete "state"
       (DataProcessor.calculate_dsi self district (Some ""))
     = delete "state" (DataProcessor.calculate_dsi self district None)
  /\ (forall key, key <> "state" ->
        DataProcessor.calculate_dsi self district (Some "") !! key
        = DataProcessor.calculate_dsi self district None !! key).
Proof.
  split; [reflexivity|]. split; [reflexivity|].
  assert (Hdel : delete "state"
                   (DataProcessor.calculate_dsi self district (Some ""))
                 = delete "state"
                     (DataProcessor.calculate_dsi self district None)).
  { unfold DataProcessor.calculate_dsi.
    destruct (DataProcessor.demographic_df self) as [table|]; [| reflexivity].
    change (DataProcessor.select table district (Some ""))
      with (DataProcessor.select table district None).
    destruct (DataProcessor.select table district None); [reflexivity|].
    cbv zeta.
    rewrite !(delete_insert_ne _ "state" "district") by discriminate.
    now rewrite !delete_insert_eq. }
  split; [exact Hdel|].
  intros key Hkey.
  rewrite <- (lookup_delete_ne
                (DataProcessor.calculate_dsi self district (Some ""))
                "state" key) by congruence.
  rewrite Hdel. now rewrite lookup_delete_ne by congruence.
Qed.

Section ResultInvariants.
Import DataProcessor.
Local Open Scope Q_scope.




End ResultInvariants.



(** X17.  get_top_stressed_districts: the list for a smaller limit is the
    beginning of the list for a larger one; the 20 districts of the
    stressed-districts endpoint are the first 20 of the 50 that the
    dashboard KPIs count. *)
Theorem top_stressed_prefix (self : DataProcessor.processor) (m n : Z) :
  0 <= m <= n ->
  DataProcessor.get_top_stressed_districts self m
  = firstn (Z.to_nat m) (DataProcessor.get_top_stressed_districts self n).
Proof.
  intros Hmn. unfold DataProcessor.get_top_stressed_districts.
  destruct (DataProcessor.demographic_df self) as [df|];
    [| now rewrite List.firstn_nil].
  cbv zeta. rewrite !slice_to_firstn by lia.
  rewrite List.firstn_firstn. f_equal. lia.
Qed.

Lemma top_stressed_prefix_witness :
  DataProcessor.get_top_stressed_districts
    Fixtures.many_districts_processor 20
  = firstn 20 (DataProcessor.get_top_stressed_districts
                 Fixtures.many_districts_processor 50).
Proof.
  apply (top_stressed_prefix Fixtures.many_districts_processor 20 50). lia.
Defined.

(** ** Dead centres and blue zones of data_processor *)

Section QuantileBound.
Local Open Scope Q_scope.




End QuantileBound.

Section DeadCenterFacts.
Import DataProcessor.



End DeadCenterFacts.




(** ** The forecaster *)

(** X20.  run_ai_forecast: the three files are read in the order demographic,
    biometric, enrolment, and the first one that is missing decides the
    exception; only when all three are there is a result produced, with
    seven forecast rows and at most 40 zones, the first 40 of the zone
    classifier. *)
Theorem run_ai_forecast_needs_all_files (random_sample : Z -> Q)
    (today : AiForecaster.datetime) (files : csv_files) :
  let run := AiForecaster.run_ai_forecast random_sample today files in
  match master_demographic_data files, master_biometric_data files,
        master_enrolment_data files with
  | None, _, _ =>
      run = AiForecaster.Raise
              (AiForecaster.FileNotFoundError "master_demographic_data.csv")
  | Some _, None, _ =>
      run = AiForecaster.Raise
              (AiForecaster.FileNotFoundError "master_biometric_data.csv")
  | Some _, Some _, None =>
      run = AiForecaster.Raise
              (AiForecaster.FileNotFoundError "master_enrolment_data.csv")
  | Some demo, Some bio, Some enrol =>
      AiForecaster.load_real_data files = AiForecaster.Ok (demo, bio, enrol)
      /\ exists r,
           run = AiForecaster.Ok r
           /\ length (AiForecaster.forecast_7day r) = 7%nat
           /\ Z.of_nat (length (AiForecaster.zone_analysis r)) <= 40
           /\ AiForecaster.zone_analysis r
              = firstn 40
                  (AiForecaster.calculate_blue_zone_dez demo bio enrol)
  end.
Proof.
  cbv zeta. unfold AiForecaster.run_ai_forecast, AiForecaster.load_real_data,
    AiForecaster.read_csv.
  destruct (master_demographic_data files) as [demo|]; [| reflexivity].
  destruct (master_biometric_data files) as [bio|]; [| reflexivity].
  destruct (master_enrolment_data files) as [enrol|]; [| reflexivity].
  split; [reflexivity|]. cbn [AiForecaster.bind].
  eexists. split; [reflexivity|].
  cbn [AiForecaster.forecast_7day AiForecaster.zone_analysis].
  split; [reflexivity|]. split.
  - apply slice_to_length. lia.
  - now rewrite slice_to_firstn by lia.
Qed.

Section TrendFacts.
Import AiForecaster.
Local Open Scope Q_scope.




End TrendFacts.


Section WeekFacts.
Import AiForecaster.

Lemma weekday_shift (ordinal k : Z) :
  weekday (ordinal + k) = (weekday ordinal + k) mod 7.
Proof.
  unfold weekday. rewrite Zplus_mod_idemp_l. f_equal. lia.
Qed.

Lemma weekday_range (ordinal : Z) : 0 <= weekday ordinal < 7.
Proof. unfold weekday. apply Z.mod_pos_bound. lia. Qed.

End WeekFacts.

(** X22.  generate_7day_forecast: the seven rows are seven consecutive days,
    so whatever the day of the run every day of the week occurs exactly
    once among the day names. *)
Theorem forecast_covers_the_week (random_sample : Z -> Q)
    (today : AiForecaster.datetime)
    (state_data : list AiForecaster.State.row) :
  Permutation
    (List.map AiForecaster.Forecast.day_name
       (AiForecaster.generate_7day_forecast random_sample today state_data))
    ["Monday"; "Tuesday"; "Wednesday"; "Thursday"; "Friday"; "Saturday";
     "Sunday"].
Proof.
  unfold AiForecaster.generate_7day_forecast.
  cbn [List.map AiForecaster.forecast_of AiForecaster.Forecast.day_name].
  rewrite !weekday_shift.
  pose proof (weekday_range (AiForecaster.toordinal today)) as Hw.
  set (w := AiForecaster.weekday (AiForecaster.toordinal today)) in *.
  clearbody w.
  set (week := ["Monday"; "Tuesday"; "Wednesday"; "Thursday"; "Friday";
                "Saturday"; "Sunday"]).
  assert (Hcases : w = 0 \/ w = 1 \/ w = 2 \/ w = 3 \/ w = 4 \/ w = 5
                   \/ w = 6) by lia.
  destruct Hcases as [->|[->|[->|[->|[->|[->| ->]]]]]].
  - apply Permutation_refl.
  - apply (Permutation_app_comm (skipn 1 week) (firstn 1 week)).
  - apply (Permutation_app_comm (skipn 2 week) (firstn 2 week)).
  - apply (Permutation_app_comm (skipn 3 week) (firstn 3 week)).
  - apply (Permutation_app_comm (skipn 4 week) (firstn 4 week)).
  - apply (Permutation_app_comm (skipn 5 week) (firstn 5 week)).
  - apply (Permutation_app_comm (skipn 6 week) (firstn 6 week)).
Qed.

Section RecommendationFacts.
Import AiForecaster.
Local Open Scope Q_scope.

Lemma priority_test (current needed : Z) :
  Qltb (inject_Z current * 1.5) (inject_Z needed) = true
  <-> (3 * current < 2 * needed)%Z.
Proof.
  rewrite Qltb_lt. unfold Qlt. simpl. lia.
Qed.

End RecommendationFacts.

(** X23.  predict_resource_needs, whatever integer the floating-point
    demand of a state comes to: at most five recommendations, one for
    each of the five states with the highest demand rate that needs
    more centres than it has.  Each reports that integer as the
    predicted demand, asks for at least one additional centre, estimates
    the current capacity as a positive multiple of 200, and has priority
    high exactly when the centres needed exceed one and a half times the
    current ones, medium otherwise. *)
Theorem resource_recommendations
    (state_demand : Q -> Z -> Z)
    (state_data : list AiForecaster.State.row) :
  let out := AiForecaster.predict_resource_needs state_demand state_data in
  let needed := AiForecaster.needed_centers_of state_demand in
  Z.of_nat (length out) <= 5
  /\ List.Forall
       (fun r => exists row,
          In row state_data
          /\ AiForecaster.Recommendation.state r
             = AiForecaster.State.state row
          /\ AiForecaster.Recommendation.predicted_demand r
             = state_demand (AiForecaster.State.daily_demand_rate row)
                 (AiForecaster.State.total_population row)
          /\ AiForecaster.Recommendation.additional_centers_needed r
             = needed row - AiForecaster.current_centers_of row
          /\ 1 <= AiForecaster.Recommendation.additional_centers_needed r
          /\ AiForecaster.Recommendation.current_capacity r
             = 200 * AiForecaster.current_centers_of row
          /\ 200 <= AiForecaster.Recommendation.current_capacity r
          /\ (AiForecaster.Recommendation.priority r = "high"
              <-> 3 * AiForecaster.current_centers_of row
                  < 2 * needed row)
          /\ (AiForecaster.Recommendation.priority r = "medium"
              <-> 2 * needed row
                  <= 3 * AiForecaster.current_centers_of row)) out.
Proof.
  cbv zeta. unfold AiForecaster.predict_resource_needs. cbv zeta. split.
  - rewrite List.length_map.
    etransitivity; [apply count_le_length|].
    apply nlargest_length. lia.
  - apply List.Forall_forall. intros r Hr.
    apply List.in_map_iff in Hr. destruct Hr as (row & <- & Hrow).
    apply List.filter_In in Hrow. destruct Hrow as [Hrow Hneed].
    apply nlargest_In in Hrow. apply Z.ltb_lt in Hneed.
    exists row.
    cbn [AiForecaster.recommendation_of AiForecaster.Recommendation.state
         AiForecaster.Recommendation.predicted_demand
         AiForecaster.Recommendation.additional_centers_needed
         AiForecaster.Recommendation.current_capacity
         AiForecaster.Recommendation.priority].
    assert (Hc : 1 <= AiForecaster.current_centers_of row)
      by (unfold AiForecaster.current_centers_of; lia).
    unfold AiForecaster.capacity_per_center.
    split; [assumption|]. split; [reflexivity|]. split; [reflexivity|].
    repeat split; try assumption; try reflexivity; try lia.
    + destruct (Qltb _ _) eqn:E; [intros _ | discriminate].
      now apply priority_test.
    + intros Hlt. apply priority_test in Hlt. now rewrite Hlt.
    + destruct (Qltb _ _) eqn:E; [discriminate | intros _].
      destruct (Z.lt_ge_cases
                  (3 * AiForecaster.current_centers_of row)
                  (2 * AiForecaster.needed_centers_of state_demand row))
        as [Hlt|Hge]; [| lia].
      apply priority_test in Hlt. congruence.
    + intros Hle.
      destruct (Qltb _ _) eqn:E; [| reflexivity].
      apply priority_test in E. lia.
Qed.

Section SummaryFacts.
Import AiForecaster.

Lemma drop_duplicates_In {K A} `{KeyOrd K} (key : A -> K) (l : list A)
    (x : A) :
  In x (Pandas.drop_duplicates key l) -> In x l.
Proof.
  induction l as [|a l IH]; simpl; [tauto|].
  intros [->|Hx]; [now left|].
  apply List.filter_In in Hx. right. apply IH. tauto.
Qed.

(** [max(..., key=...)] returns a row of the list with the largest
    key. *)
Lemma max_by_spec {A} (key : A -> Z) (best : A) (rest : list A) :
  In (max_by key best rest) (best :: rest)
  /\ List.Forall (fun x => key x <= key (max_by key best rest))
       (best :: rest).
Proof.
  revert best. induction rest as [|x rest IH]; intros best.
  - split; [now left | repeat constructor; simpl; lia].
  - cbn [max_by].
    destruct (IH (if key best <? key x then x else best)) as [Hin Hall].
    inversion Hall as [|? ? Hhd Htl]; subst.
    split.
    + destruct Hin as [Hin|Hin]; [| right; now right].
      rewrite <- Hin.
      destruct (key best <? key x); [right; now left | now left].
    + destruct (Z.ltb_spec (key best) (key x)) as [Hlt|Hge].
      * constructor; [lia|]. constructor; assumption.
      * constructor; [assumption|]. constructor; [lia | assumption].
Qed.

Lemma zone_types (dd : list District.row) (z : Zone.row) :
  In z (zones_of dd) ->
  Zone.zone_type z = "blue_zone" \/ Zone.zone_type z = "dez".
Proof.
  unfold zones_of. intros Hz. apply drop_duplicates_In in Hz.
  apply List.in_app_or in Hz. destruct Hz as [Hz|Hz].
  - apply blue_zones_In in Hz. destruct Hz as (r & _ & _ & ->). now left.
  - apply dez_zones_In in Hz. destruct Hz as (r & _ & _ & ->). now right.
Qed.

End SummaryFacts.

(** X24.  The summary of run_ai_forecast: every zone is a blue zone or a DEZ,
    so the two zone counts add up to the number of zones found, which
    the 40 rows of [zone_analysis] may fall short of; the peak day is
    the day name of a forecast row that no other row exceeds. *)
Theorem forecast_summary_counts (random_sample : Z -> Q)
    (today : AiForecaster.datetime) (demo_df : list Demographic.row)
    (bio_df : list Biometric.row) (enrol_df : list Enrolment.row) :
  let state_data :=
    AiForecaster.calculate_historical_trends demo_df bio_df enrol_df in
  let forecasts :=
    AiForecaster.generate_7day_forecast random_sample today state_data in
  let zones := AiForecaster.calculate_blue_zone_dez demo_df bio_df enrol_df in
  let summary := AiForecaster.summary_of state_data forecasts zones in
  AiForecaster.Summary.blue_zones_count summary
  + AiForecaster.Summary.dez_count summary
  = Z.of_nat (length zones)
  /\ Z.of_nat (length (Pandas.slice_to 40 zones))
     <= AiForecaster.Summary.blue_zones_count summary
        + AiForecaster.Summary.dez_count summary
  /\ exists peak,
       In peak forecasts
       /\ AiForecaster.Summary.peak_day summary
          = AiForecaster.Forecast.day_name peak
       /\ List.Forall
            (fun f => AiForecaster.Forecast.predicted_transactions f
                      <= AiForecaster.Forecast.predicted_transactions peak)
            forecasts.
Proof.
  cbv zeta.
  cbn [AiForecaster.summary_of AiForecaster.Summary.blue_zones_count
       AiForecaster.Summary.dez_count AiForecaster.Summary.peak_day].
  assert (Hsum :
    AiForecaster.count_zone_type "blue_zone"
      (AiForecaster.calculate_blue_zone_dez demo_df bio_df enrol_df)
    + AiForecaster.count_zone_type "dez"
        (AiForecaster.calculate_blue_zone_dez demo_df bio_df enrol_df)
    = Z.of_nat
        (length (AiForecaster.calculate_blue_zone_dez demo_df bio_df
                   enrol_df))).
  { unfold AiForecaster.count_zone_type.
    rewrite !count_as_sum, <- sumZ_plus, <- sumZ_ones.
    apply sumZ_ext_in. intros z Hz.
    destruct (zone_types _ z Hz) as [-> | ->]; reflexivity. }
  split; [exact Hsum|]. split.
  - rewrite Hsum, slice_to_firstn by lia. rewrite List.length_firstn. lia.
  - unfold AiForecaster.generate_7day_forecast.
    cbn [List.map].
    match goal with
    | |- context [AiForecaster.max_by ?k ?b ?r] =>
        destruct (max_by_spec k b r) as [Hin Hall];
        exists (AiForecaster.max_by k b r)
    end.
    split; [exact Hin|]. split; [reflexivity | exact Hall].
Qed.

(** X25.  The colours of the Streamlit dashboard: for every index that is a
    number the stressed-districts table and the map use the same class,
    red from 6.6, amber from 3.3, green below; an index that is NaN is
    green in the table while its status, critical, is red on the map. *)
Theorem table_colour_matches_marker (val : fnum) :
  (not_nan val ->
     (StreamlitApp.color_dsi val
        = "background-color: #fee2e2; color: #dc2626"
      <-> StreamlitApp.marker_color (GenerateData.get_dsi_status val)
          = "#ef4444")
     /\ (StreamlitApp.color_dsi val
           = "background-color: #fef3c7; color: #d97706"
         <-> StreamlitApp.marker_color (GenerateData.get_dsi_status val)
             = "#f59e0b")
     /\ (StreamlitApp.color_dsi val
           = "background-color: #d1fae5; color: #059669"
         <-> StreamlitApp.marker_color (GenerateData.get_dsi_status val)
             = "#10b981"))
  /\ StreamlitApp.color_dsi NaN = "background-color: #d1fae5; color: #059669"
  /\ StreamlitApp.marker_color (GenerateData.get_dsi_status NaN) = "#ef4444".
Proof.
  split; [| split; reflexivity].
  intros Hnan. destruct val as [d| | |]; try discriminate Hnan.
  - unfold StreamlitApp.color_dsi, GenerateData.get_dsi_status, fge, fle,
      flt, Qltb.
    destruct (Qle_bool 3.3 d) eqn:E3; destruct (Qle_bool 6.6 d) eqn:E6;
      cbn [negb];
      try (vm_compute;
           repeat split; intros; try reflexivity; discriminate).
    exfalso. apply Qle_bool_iff in E6.
    assert (H3 : (3.3 <= d)%Q) by lra. apply Qle_bool_iff in H3. congruence.
  - vm_compute. repeat split; intros; try reflexivity; discriminate.
  - vm_compute. repeat split; intros; try reflexivity; discriminate.
Qed.

(** X26.  get_processor: the processor is built by the first call and kept in
    the module-level global; every later call returns that same
    processor, whatever has changed on disk since. *)
Theorem get_processor_loads_once (first : csv_files)
    (later : list csv_files) :
  DataProcessor.get_processor_calls (first :: later) None
  = List.map (fun _ => DataProcessor._load_data first) (first :: later).
Proof.
  cbn [DataProcessor.get_processor_calls DataProcessor.get_processor List.map].
  f_equal.
  induction later as [|files later IH]; [reflexivity|].
  cbn [DataProcessor.get_processor_calls DataProcessor.get_processor List.map].
  now rewrite IH.
Qed.
